(** * Refactor command orchestration (src/refactorAction.ts)

    A shallow embedding of the editor-side refactoring handlers: the
    rename trigger, [applyRefactorEdit], [moveFile] with its helpers
    [getFileNameFromUri], [hasCommonParent] and [saveEdit], and
    [moveStaticMember].

    The handlers are glue around the editor and the language server, so
    every call that leaves the module is a field of a [Host] record: pure
    library functions ([Uri.parse], [path.join], ...) are functions, awaited
    calls are state transformers over an arbitrary [World] that may throw.
    A handler is a computation in a small state/exception/trace monad; the
    trace lists, in order, each call made to the editor or the server
    together with the answer it got. *)

From Stdlib Require Import ZArith List String Ascii Bool Lia Sorted Permutation.
From Stdlib Require Import DecimalString.
From stdpp Require Import base strings gmap.
Import ListNotations.
Local Open Scope string_scope.
Local Open Scope list_scope.

(** ** JavaScript values *)

(** A string is held as its UTF-8 bytes.  JavaScript sees a string as a
    sequence of UTF-16 code units, and [<] on strings is the lexicographic
    order on these code units: [codeUnits] decodes them.  A character above
    U+FFFF is a surrogate pair; a byte that starts no well-formed sequence
    stands for the code unit of its own value. *)
Definition isContinuation (b : N) : bool := ((128 <=? b) && (b <? 192))%N.

Definition twoByteUnit (b1 b2 : N) : N := ((b1 - 192) * 64 + (b2 - 128))%N.

Definition threeByteUnit (b1 b2 b3 : N) : N :=
  ((b1 - 224) * 4096 + (b2 - 128) * 64 + (b3 - 128))%N.

Definition fourByteCodePoint (b1 b2 b3 b4 : N) : N :=
  ((b1 - 240) * 262144 + (b2 - 128) * 4096 + (b3 - 128) * 64 + (b4 - 128))%N.

Definition startsTwoBytes (b1 b2 : N) : bool :=
  ((192 <=? b1) && (b1 <? 224))%N && isContinuation b2
  && (128 <=? twoByteUnit b1 b2)%N.

Definition startsThreeBytes (b1 b2 b3 : N) : bool :=
  ((224 <=? b1) && (b1 <? 240))%N && isContinuation b2 && isContinuation b3
  && (2048 <=? threeByteUnit b1 b2 b3)%N.

Definition startsFourBytes (b1 b2 b3 b4 : N) : bool :=
  ((240 <=? b1) && (b1 <? 248))%N
  && isContinuation b2 && isContinuation b3 && isContinuation b4
  && ((65536 <=? fourByteCodePoint b1 b2 b3 b4)
      && (fourByteCodePoint b1 b2 b3 b4 <=? 1114111))%N.

Definition highSurrogate (codePoint : N) : N :=
  (55296 + (codePoint - 65536) / 1024)%N.

Definition lowSurrogate (codePoint : N) : N :=
  (56320 + (codePoint - 65536) mod 1024)%N.

Fixpoint codeUnits (s : string) : list N :=
  match s with
  | EmptyString => []
  | String c1 r1 =>
      let b1 := N_of_ascii c1 in
      match r1 with
      | EmptyString => [b1]
      | String c2 r2 =>
          let b2 := N_of_ascii c2 in
          if startsTwoBytes b1 b2 then twoByteUnit b1 b2 :: codeUnits r2
          else
            match r2 with
            | EmptyString => b1 :: codeUnits r1
            | String c3 r3 =>
                let b3 := N_of_ascii c3 in
                if startsThreeBytes b1 b2 b3
                then threeByteUnit b1 b2 b3 :: codeUnits r3
                else
                  match r3 with
                  | EmptyString => b1 :: codeUnits r1
                  | String c4 r4 =>
                      let b4 := N_of_ascii c4 in
                      if startsFourBytes b1 b2 b3 b4
                      then highSurrogate (fourByteCodePoint b1 b2 b3 b4)
                           :: lowSurrogate (fourByteCodePoint b1 b2 b3 b4)
                           :: codeUnits r4
                      else b1 :: codeUnits r1
                  end
            end
      end
  end.

(** Lexicographic comparison of code unit sequences. *)
Fixpoint compareUnits (a b : list N) : comparison :=
  match a, b with
  | [], [] => Eq
  | [], _ :: _ => Lt
  | _ :: _, [] => Gt
  | x :: a', y :: b' =>
      match (x ?= y)%N with
      | Eq => compareUnits a' b'
      | c => c
      end
  end.

(** [a < b] on two strings. *)
Definition lessThan (a b : string) : bool :=
  match compareUnits (codeUnits a) (codeUnits b) with
  | Lt => true
  | _ => false
  end.

(** [vscode.Uri], seen through the two observations the module makes. *)
Record Uri := mkUri { uri_toString : string; fsPath : string }.

Record Position := mkPosition { line : Z; character : Z }.

Record Range := mkRange { range_start : Position; range_end : Position }.

#[local] Set Warnings "-register-all".

(** The values an untyped ([any]) slot can hold.  Numbers are integers. *)
Inductive JsVal :=
| JUndefined
| JNull
| JBool (b : bool)
| JNum (n : Z)
| JStr (s : string)
| JArr (elems : list JsVal)
| JUri (u : Uri)
| JPos (p : Position).

(** ToBoolean. *)
Definition truthy (v : JsVal) : bool :=
  match v with
  | JUndefined | JNull => false
  | JBool b => b
  | JNum n => negb (n =? 0)%Z
  | JStr s => negb (s =? "")
  | JArr _ | JUri _ | JPos _ => true
  end.

(** Truthiness of an optional string field ([undefined], [null] and the
    empty string are falsy). *)
Definition truthyStr (o : option string) : bool :=
  match o with
  | Some s => negb (s =? "")
  | None => false
  end.

Definition string_of_nat (n : nat) : string :=
  NilEmpty.string_of_uint (Nat.to_uint n).

Definition string_of_Z (n : Z) : string :=
  NilZero.string_of_int (Z.to_int n).

(** ToString, as used by template literals. *)
Fixpoint toString (v : JsVal) : string :=
  match v with
  | JUndefined => "undefined"
  | JNull => "null"
  | JBool true => "true"
  | JBool false => "false"
  | JNum n => string_of_Z n
  | JStr s => s
  | JArr elems =>
      (fix join (l : list JsVal) : string :=
         let elt x := match x with
                      | JUndefined | JNull => ""
                      | _ => toString x
                      end in
         match l with
         | [] => ""
         | [x] => elt x
         | x :: r => elt x +:+ "," +:+ join r
         end) elems
  | JUri u => uri_toString u
  | JPos _ => "[object Object]"
  end.

(** [v === n] for a number literal [n]. *)
Definition strictEqNum (v : JsVal) (n : Z) : bool :=
  match v with
  | JNum m => (m =? n)%Z
  | _ => false
  end.

(** An untyped object: a finite map from property names to values.  Reading
    a missing property yields [undefined]. *)
Abbreviation JsObject := (gmap string JsVal).

Definition prop (o : JsObject) (name : string) : JsVal :=
  default JUndefined (o !! name).

(** [Array.prototype.join]. *)
Fixpoint join (sep : string) (l : list string) : string :=
  match l with
  | [] => ""
  | [x] => x
  | x :: r => x +:+ sep +:+ join sep r
  end.

(** ** Protocol data (vscode-languageclient and ./protocol) *)

Record TextEdit := mkTextEdit { te_range : Range; te_newText : string }.

(** An element of [WorkspaceEdit.documentChanges]; the three file
    operations carry a [kind], a [TextDocumentEdit] has none. *)
Inductive DocumentChange :=
| TextDocumentEdit (uri : string) (version : option Z) (edits : list TextEdit)
| CreateFile (uri : string)
| RenameFile (oldUri newUri : string)
| DeleteFile (uri : string).

(** [changes] is an object keyed by URI; its keys are enumerated in
    insertion order, so it is kept as an association list. *)
Record WorkspaceEdit := mkWorkspaceEdit {
  changes : option (list (string * list TextEdit));
  documentChanges : option (list DocumentChange)
}.

Record Command := mkCommand {
  cmd_title : string;
  cmd_command : string;
  cmd_arguments : option (list JsVal)
}.

Record RefactorWorkspaceEdit := mkRefactorWorkspaceEdit {
  edit : option WorkspaceEdit;
  command : option Command;
  errorMessage : option string
}.

Record RenamePosition := mkRenamePosition { rp_uri : string; rp_offset : Z }.

Record CodeActionParams := mkCodeActionParams {
  cap_textDocument_uri : string;
  cap_range : Range
}.

(** A destination candidate of the move-file flow. *)
Record PackageNode := mkPackageNode {
  pn_displayName : string;
  pn_uri : option string;
  pn_path : string;
  pn_isParentOfSelectedFile : bool
}.

Record MoveDestinationsResponse := mkMoveDestinationsResponse {
  md_errorMessage : option string;
  md_destinations : option (list PackageNode)
}.

Record SymbolInformation := mkSymbol {
  sym_name : string;
  sym_containerName : option string;
  sym_kind : Z;
  sym_location : string
}.

Record GetMoveDestinationsParams := mkGetMoveDestinationsParams {
  gmd_moveKind : string;
  gmd_sourceUris : list string
}.

Inductive Destination :=
| DestPackage (n : PackageNode)
| DestSymbol (s : SymbolInformation).

Record MoveParams := mkMoveParams {
  mp_moveKind : string;
  mp_sourceUris : list string;
  mp_params : option CodeActionParams;
  mp_destination : Destination;
  mp_updateReferences : option bool
}.

Record SearchSymbolParams := mkSearchSymbolParams {
  ss_query : string;
  ss_projectName : JsVal;
  ss_sourceOnly : bool
}.

(** ** Editor data *)

Record TextDocument := mkTextDocument { doc_uri : Uri; doc_text : string }.

(** The editor's own edit representation, produced by the converter. *)
Record CodeWorkspaceEdit := mkCodeWorkspaceEdit { code_entries : WorkspaceEdit }.

(** A picker entry with the extra property the handler attaches to it. *)
Record QuickPickItem (P : Type) := mkItem {
  label : string;
  description : option string;
  alwaysShow : bool;
  payload : P
}.
Arguments mkItem {P} _ _ _ _.
Arguments label {P} _.
Arguments description {P} _.
Arguments alwaysShow {P} _.
Arguments payload {P} _.

(** What the picker displays of an entry. *)
Definition shown {P} (i : QuickPickItem P) : QuickPickItem unit :=
  mkItem (label i) (description i) (alwaysShow i) tt.

(** ** Outcomes, events and traces *)

Inductive Exn := Error (msg : string).

Inductive Result (A : Type) :=
| Ok (a : A)
| Throw (e : Exn).
Arguments Ok {A} _.
Arguments Throw {A} _.

(** One call across the module boundary and the answer it received.  A
    picker answers with the index of the chosen entry, or nothing when it is
    dismissed. *)
Inductive Event :=
| EvShowErrorMessage (msg : string)
| EvShowWarningMessage (msg : string)
| EvGetMoveDestinations (p : GetMoveDestinationsParams)
    (r : Result (option MoveDestinationsResponse))
| EvMoveRequest (p : MoveParams) (r : Result (option RefactorWorkspaceEdit))
| EvSearchSymbols (p : SearchSymbolParams)
    (r : Result (option (list SymbolInformation)))
| EvShowQuickPickPackages (items : list (QuickPickItem PackageNode))
    (placeHolder : string) (r : Result (option nat))
| EvShowQuickPickSymbols (items : list (QuickPickItem (option SymbolInformation)))
    (placeHolder : string) (r : Result (option nat))
| EvApplyEdit (e : CodeWorkspaceEdit) (r : Result bool)
| EvExecuteCommand (name : string) (args : list JsVal) (r : Result unit)
| EvOpenTextDocument (u : Uri) (r : Result (option TextDocument))
| EvSave (d : TextDocument) (r : Result bool).

Definition Trace := list Event.

(** ** The host: editor, language server, file system and path library *)

Record Host (World : Type) := mkHost {
  (* pure library functions *)
  Uri_parse : string -> Uri;
  path_join : string -> string -> string;
  path_dirname : string -> string;
  path_relative : string -> string -> string;
  asRelativePath : Uri -> bool -> string;
  positionAt : TextDocument -> Z -> Position;
  asWorkspaceEdit : WorkspaceEdit -> option CodeWorkspaceEdit;
  (* synchronous look at the file system *)
  existsSync : string -> World -> bool;
  (* awaited editor calls *)
  openTextDocument : Uri -> World -> Result (option TextDocument) * World;
  save : TextDocument -> World -> Result bool * World;
  applyEdit : CodeWorkspaceEdit -> World -> Result bool * World;
  executeCommand : string -> list JsVal -> World -> Result unit * World;
  showQuickPick :
    list (QuickPickItem unit) -> string -> World -> Result (option nat) * World;
  (* language server requests *)
  sendGetMoveDestinations :
    GetMoveDestinationsParams -> World ->
    Result (option MoveDestinationsResponse) * World;
  sendMoveRequest :
    MoveParams -> World -> Result (option RefactorWorkspaceEdit) * World;
  sendSearchSymbols :
    SearchSymbolParams -> World -> Result (option (list SymbolInformation)) * World
}.
Arguments Uri_parse {World} _ _.
Arguments path_join {World} _ _ _.
Arguments path_dirname {World} _ _.
Arguments path_relative {World} _ _ _.
Arguments asRelativePath {World} _ _ _.
Arguments positionAt {World} _ _ _.
Arguments asWorkspaceEdit {World} _ _.
Arguments existsSync {World} _ _ _.
Arguments openTextDocument {World} _ _ _.
Arguments save {World} _ _ _.
Arguments applyEdit {World} _ _ _.
Arguments executeCommand {World} _ _ _ _.
Arguments showQuickPick {World} _ _ _ _.
Arguments sendGetMoveDestinations {World} _ _ _.
Arguments sendMoveRequest {World} _ _ _.
Arguments sendSearchSymbols {World} _ _ _.

(** ** The handler monad *)

Definition M (World A : Type) : Type := World -> Result A * World * Trace.

Definition ret {World A} (a : A) : M World A := fun w => (Ok a, w, []).

Definition throw {World A} (e : Exn) : M World A := fun w => (Throw e, w, []).

Definition bind {World A B} (m : M World A) (f : A -> M World B) : M World B :=
  fun w =>
    match m w with
    | (Ok a, w1, t1) =>
        match f a w1 with
        | (r, w2, t2) => (r, w2, t1 ++ t2)
        end
    | (Throw e, w1, t1) => (Throw e, w1, t1)
    end.

(** [try { body } catch (error) { handler }]. *)
Definition try_catch {World A} (body : M World A) (handler : Exn -> M World A)
  : M World A :=
  fun w =>
    match body w with
    | (Ok a, w1, t1) => (Ok a, w1, t1)
    | (Throw e, w1, t1) =>
        match handler e w1 with
        | (r, w2, t2) => (r, w2, t1 ++ t2)
        end
    end.

(** An awaited call: perform it, record it with its answer. *)
Definition call {World A} (f : World -> Result A * World) (ev : Result A -> Event)
  : M World A :=
  fun w => match f w with (r, w1) => (r, w1, [ev r]) end.

(** A call that is not awaited and whose value is dropped. *)
Definition emit {World} (ev : Event) : M World unit := fun w => (Ok tt, w, [ev]).

(** Reading the current world (for synchronous file-system checks). *)
Definition getWorld {World} : M World World := fun w => (Ok w, w, []).

Definition outcome {World A} (x : Result A * World * Trace) : Result A := fst (fst x).
Definition finalWorld {World A} (x : Result A * World * Trace) : World := snd (fst x).
Definition trace {World A} (x : Result A * World * Trace) : Trace := snd x.

Declare Scope handler_scope.
Delimit Scope handler_scope with handler.
Notation "x <- m ;; k" := (bind m (fun x => k))
  (at level 100, m at next level, right associativity) : handler_scope.
Notation "m ;;; k" := (bind m (fun _ => k))
  (at level 100, right associativity) : handler_scope.
Local Open Scope handler_scope.

(** ** Pure helpers *)

(** Only the non-empty string is a truthy optional string. *)
Definition nonEmpty (o : option string) : option string :=
  match o with
  | Some s => if s =? "" then None else Some s
  | None => None
  end.

(** The line terminators of one byte: line feed and carriage return. *)
Definition isLineTerminator (c : ascii) : bool :=
  Ascii.eqb c "010" || Ascii.eqb c "013".

(** Whether a line terminator starts the string: line feed, carriage
    return, or U+2028 or U+2029, whose UTF-8 bytes are E2 80 A8 and
    E2 80 A9. *)
Definition beginsLineTerminator (s : string) : bool :=
  match s with
  | EmptyString => false
  | String c rest =>
      isLineTerminator c
      || match rest with
         | String c2 (String c3 _) =>
             Ascii.eqb c "226" && Ascii.eqb c2 "128"
             && (Ascii.eqb c3 "168" || Ascii.eqb c3 "169")
         | _ => false
         end
  end.

Definition isSeparator (c : ascii) : bool :=
  Ascii.eqb c "/" || Ascii.eqb c "\".

(** The text after the match of [/^.*[\\\/]/]: the dot stops at a line
    terminator and the star is greedy, so the match ends at the last
    separator that no line terminator precedes.  [None] when nothing
    matches. *)
Fixpoint afterLastSeparator (s : string) : option string :=
  match s with
  | EmptyString => None
  | String c rest =>
      if beginsLineTerminator (String c rest) then None
      else match afterLastSeparator rest with
           | Some r => Some r
           | None => if isSeparator c then Some rest else None
           end
  end.

(** [uri.fsPath.replace(/^.*[\\\/]/, '')]. *)
Definition getFileNameFromUri (uri : Uri) : string :=
  match afterLastSeparator (fsPath uri) with
  | Some rest => rest
  | None => fsPath uri
  end.

(** [Set<string>], kept in insertion order as a JavaScript set is. *)
Definition Set_has (x : string) (s : list string) : bool :=
  existsb (String.eqb x) s.

Definition Set_add (x : string) (s : list string) : list string :=
  if Set_has x s then s else s ++ [x].

Definition Set_delete (x : string) (s : list string) : list string :=
  List.filter (fun y => negb (String.eqb x y)) s.

(** One iteration of the loop over [edit.documentChanges] in [saveEdit]. *)
Definition touchStep (touchedFiles : list string) (change : DocumentChange)
  : list string :=
  match change with
  | RenameFile oldUri newUri =>
      if Set_has oldUri touchedFiles
      then Set_add newUri (Set_delete oldUri touchedFiles)
      else touchedFiles
  | DeleteFile uri =>
      if Set_has uri touchedFiles
      then Set_delete uri touchedFiles
      else touchedFiles
  | CreateFile _ => touchedFiles
  | TextDocumentEdit uri _ _ => Set_add uri touchedFiles
  end.

(** [touchedFiles] after the loop over [Object.keys(edit.changes)]. *)
Definition changedFiles (edit : WorkspaceEdit) : list string :=
  match changes edit with
  | Some cs => fold_left (fun s kv => Set_add (fst kv) s) cs []
  | None => []
  end.

(** The set [touchedFiles] that [saveEdit] builds before it saves. *)
Definition touchedFiles (edit : WorkspaceEdit) : list string :=
  match documentChanges edit with
  | Some dcs => fold_left touchStep dcs (changedFiles edit)
  | None => changedFiles edit
  end.

(** The comparator handed to [sort] in [moveStaticMember]. *)
Definition compareByName (a b : SymbolInformation) : Z :=
  if lessThan (sym_name a) (sym_name b) then (-1)%Z
  else if lessThan (sym_name b) (sym_name a) then 1%Z
  else 0%Z.

(** [Array.prototype.sort] with a comparator.  The sort is stable; an
    element is placed in front of the first element it does not exceed. *)
Fixpoint sortInsert {A} (cmp : A -> A -> Z) (x : A) (l : list A) : list A :=
  match l with
  | [] => [x]
  | y :: r => if (cmp x y <=? 0)%Z then x :: y :: r else y :: sortInsert cmp x r
  end.

Fixpoint sort {A} (cmp : A -> A -> Z) (l : list A) : list A :=
  match l with
  | [] => []
  | x :: r => sortInsert cmp x (sort cmp r)
  end.

(** [exclude.has(typeName)] for a string [typeName]. *)
Definition excludeHas (exclude : list JsVal) (typeName : string) : bool :=
  existsb (fun v => match v with
                    | JStr s => String.eqb s typeName
                    | _ => false
                    end) exclude.

(** The picked entry: the picker answers with one of its entries or with
    nothing. *)
Definition chosen {P} (items : list (QuickPickItem P)) (picked : option nat)
  : option (QuickPickItem P) :=
  match picked with
  | Some i => nth_error items i
  | None => None
  end.

(** ** The handlers *)

Section Handlers.

Context {World : Type} (host : Host World).

(** *** hasCommonParent *)

(** The loop [for (let i = 1; i < uris.length; i++)]. *)
Fixpoint sameParentFrom (firstParent : string) (rest : list Uri) : bool :=
  match rest with
  | [] => true
  | uri :: rest' =>
      let parent := path_dirname host (fsPath uri) in
      if negb (path_relative host firstParent parent =? ".") then false
      else sameParentFrom firstParent rest'
  end.

Definition hasCommonParent (uris : option (list Uri)) : bool :=
  match uris with
  | None => true
  | Some [] => true
  | Some [_] => true
  | Some (first :: rest) =>
      sameParentFrom (path_dirname host (fsPath first)) rest
  end.

(** *** The rename trigger (RENAME_COMMAND) *)

Definition renameCommand (position : option RenamePosition) : M World unit :=
  try_catch
    (match position with
     | None => throw (Error "TypeError: Cannot read property 'uri'")
     | Some position =>
         let uri := Uri_parse host (rp_uri position) in
         document <- call (openTextDocument host uri) (EvOpenTextDocument uri) ;;
         match document with
         | None => ret tt
         | Some document =>
             let renamePosition := positionAt host document (rp_offset position) in
             let args := [JArr [JUri (doc_uri document); JPos renamePosition]] in
             call (executeCommand host "editor.action.rename" args)
                  (EvExecuteCommand "editor.action.rename" args)
         end
     end)
    (fun _ => (* do nothing. *) ret tt).

(** *** applyRefactorEdit *)

Definition applyRefactorEdit (refactorEdit : option RefactorWorkspaceEdit)
  : M World unit :=
  match refactorEdit with
  | None => ret tt
  | Some refactorEdit =>
      match nonEmpty (errorMessage refactorEdit) with
      | Some message => emit (EvShowErrorMessage message)
      | None =>
          (match edit refactorEdit with
           | Some e =>
               match asWorkspaceEdit host e with
               | Some e' => _ <- call (applyEdit host e') (EvApplyEdit e') ;; ret tt
               | None => ret tt
               end
           | None => ret tt
           end) ;;;
          match command refactorEdit with
          | Some c =>
              match cmd_arguments c with
              | Some args =>
                  call (executeCommand host (cmd_command c) args)
                       (EvExecuteCommand (cmd_command c) args)
              | None =>
                  call (executeCommand host (cmd_command c) [])
                       (EvExecuteCommand (cmd_command c) [])
              end
          | None => ret tt
          end
      end
  end.

(** *** saveEdit *)

(** The loop [for (const fileUri of touchedFiles)]. *)
Fixpoint saveAll (files : list string) : M World unit :=
  match files with
  | [] => ret tt
  | fileUri :: rest =>
      let uri := Uri_parse host fileUri in
      document <- call (openTextDocument host uri) (EvOpenTextDocument uri) ;;
      match document with
      | None => saveAll rest
      | Some document =>
          _ <- call (save host document) (EvSave document) ;;
          saveAll rest
      end
  end.

Definition saveEdit (edit : option WorkspaceEdit) : M World unit :=
  match edit with
  | None => ret tt
  | Some edit => saveAll (touchedFiles edit)
  end.

(** *** moveFile *)

Definition differentDirectoriesMessage : string :=
  "Moving files from different directories are not supported. Please make sure they are from the same directory.".

Definition noPackagesMessage : string :=
  "Cannot find available Java packages to move the selected files to.".

(** The callback of [moveDestinations.destinations.map]. *)
Definition packageNodeItem (packageNode : PackageNode) : QuickPickItem PackageNode :=
  let packageUri := option_map (Uri_parse host) (nonEmpty (pn_uri packageNode)) in
  let displayPath :=
    match packageUri with
    | Some u => asRelativePath host u true
    | None => pn_path packageNode
    end in
  mkItem ((if pn_isParentOfSelectedFile packageNode then "* " else "")
            +:+ pn_displayName packageNode)
         (Some displayPath) false packageNode.

(** The directory the collision check looks into: [packageUri.fsPath] when
    the chosen node has a URI and that URI a file-system path. *)
Definition destinationDirectory (packageNode : PackageNode) : option string :=
  match option_map (Uri_parse host) (nonEmpty (pn_uri packageNode)) with
  | Some packageUri => nonEmpty (Some (fsPath packageUri))
  | None => None
  end.

(** [existsSync(path.join(packageUri.fsPath, fileName))] in world [w]. *)
Definition collides (w : World) (dir : string) (uri : Uri) : bool :=
  existsSync host (path_join host dir (getFileNameFromUri uri)) w.

(** The loop [for (const uri of fileUris)] filling [duplicatedFiles] and
    [moveUris]. *)
Fixpoint splitDuplicated (w : World) (dir : string) (fileUris : list Uri)
    (duplicatedFiles : list string) (moveUris : list Uri)
  : list string * list Uri :=
  match fileUris with
  | [] => (duplicatedFiles, moveUris)
  | uri :: rest =>
      let fileName := getFileNameFromUri uri in
      if existsSync host (path_join host dir fileName) w
      then splitDuplicated w dir rest (duplicatedFiles ++ [fileName]) moveUris
      else splitDuplicated w dir rest duplicatedFiles (moveUris ++ [uri])
  end.

Definition duplicatedWarning (duplicatedFiles : list string) (packageName : string)
  : string :=
  "The files '" +:+ join "," duplicatedFiles
    +:+ "' already exist in the package '" +:+ packageName
    +:+ "'. The move operation will ignore them.".

Definition moveFilePlaceHolder (fileUris : list Uri) : string :=
  match fileUris with
  | [uri] => "Choose the target package for " +:+ getFileNameFromUri uri +:+ "."
  | _ => "Choose the target package for "
           +:+ string_of_nat (length fileUris) +:+ " selected files."
  end.

(** The destinations of a response, unless the response, the list or its
    length is falsy. *)
Definition availableDestinations (moveDestinations : option MoveDestinationsResponse)
  : option (list PackageNode) :=
  match moveDestinations with
  | Some r =>
      match md_destinations r with
      | Some (d :: ds) => Some (d :: ds)
      | _ => None
      end
  | None => None
  end.

(** The two request objects of [moveFile]. *)
Definition moveDestinationsRequest (fileUris : list Uri) : GetMoveDestinationsParams :=
  mkGetMoveDestinationsParams "moveResource" (map uri_toString fileUris).

Definition moveResourceRequest (fileUris : list Uri) (packageNode : PackageNode)
  : MoveParams :=
  mkMoveParams "moveResource" (map uri_toString fileUris) None
    (DestPackage packageNode) (Some true).

(** Lines 153-175 of [moveFile]: the collision check in the chosen
    package.  [Some uris]: the flow goes on with [uris]; [None]: the flow
    returns. *)
Definition withoutDuplicates (fileUris : list Uri) (packageNode : PackageNode)
  : M World (option (list Uri)) :=
  match destinationDirectory packageNode with
  | Some dir =>
      w <- getWorld ;;
      let '(duplicatedFiles, moveUris) := splitDuplicated w dir fileUris [] [] in
      (match duplicatedFiles with
       | [] => ret tt
       | _ => emit (EvShowWarningMessage
                      (duplicatedWarning duplicatedFiles
                         (pn_displayName packageNode)))
       end) ;;;
      match moveUris with
      | [] => ret None
      | _ => ret (Some moveUris)
      end
  | None => ret (Some fileUris)
  end.

(** Lines 185-188 of [moveFile]: apply the result, then save what its edit
    touched. *)
Definition applyAndSave (refactorEdit : option RefactorWorkspaceEdit)
  : M World unit :=
  applyRefactorEdit refactorEdit ;;;
  match refactorEdit with
  | Some r =>
      match edit r with
      | Some e => saveEdit (Some e)
      | None => ret tt
      end
  | None => ret tt
  end.

Definition moveFile (fileUris : list Uri) : M World unit :=
  if negb (hasCommonParent (Some fileUris)) then
    emit (EvShowErrorMessage differentDirectoriesMessage)
  else
    let request := moveDestinationsRequest fileUris in
    moveDestinations <- call (sendGetMoveDestinations host request)
                             (EvGetMoveDestinations request) ;;
    match availableDestinations moveDestinations with
    | None => emit (EvShowErrorMessage noPackagesMessage)
    | Some destinations =>
        let packageNodeItems := map packageNodeItem destinations in
        let placeHolder := moveFilePlaceHolder fileUris in
        picked <- call (showQuickPick host (map shown packageNodeItems) placeHolder)
                       (EvShowQuickPickPackages packageNodeItems placeHolder) ;;
        match chosen packageNodeItems picked with
        | None => ret tt
        | Some selectPackageNodeItem =>
            let packageNode := payload selectPackageNodeItem in
            remaining <- withoutDuplicates fileUris packageNode ;;
            match remaining with
            | None => ret tt
            | Some fileUris =>
                let move := moveResourceRequest fileUris packageNode in
                refactorEdit <- call (sendMoveRequest host move) (EvMoveRequest move) ;;
                applyAndSave refactorEdit
            end
        end
    end.

(** *** moveStaticMember *)

Definition noResultItem : QuickPickItem (option SymbolInformation) :=
  mkItem "No result found" (Some "") true None.

Definition symbolItem (symbol : SymbolInformation)
  : QuickPickItem (option SymbolInformation) :=
  mkItem (sym_name symbol) (sym_containerName symbol) false (Some symbol).

(** [typeName] as computed in the filter callback. *)
Definition qualifiedName (type : SymbolInformation) : string :=
  match nonEmpty (sym_containerName type) with
  | Some containerName => containerName +:+ "." +:+ sym_name type
  | None => sym_name type
  end.

(** The set [exclude] built from [commandInfo]. *)
Definition excludeOf (commandInfo : JsObject) : list JsVal :=
  if truthy (prop commandInfo "enclosingTypeName") then
    let exclude := [prop commandInfo "enclosingTypeName"] in
    (* 55: Type, 71: Enum, 81: AnnotationType *)
    if strictEqNum (prop commandInfo "memberType") 55
       || strictEqNum (prop commandInfo "memeberType") 71
       || strictEqNum (prop commandInfo "memberType") 81
    then exclude ++ [JStr (toString (prop commandInfo "enclosingTypeName")
                             +:+ "." +:+ toString (prop commandInfo "displayName"))]
    else exclude
  else [].

(** The callback of [.then] on the search-symbols answer. *)
Definition candidateItems (exclude : list JsVal)
    (types : option (list SymbolInformation))
  : list (QuickPickItem (option SymbolInformation)) :=
  match types with
  | Some (t :: ts) =>
      map symbolItem
        (sort compareByName
           (List.filter (fun type => negb (excludeHas exclude (qualifiedName type)))
              (t :: ts)))
  | _ => [noResultItem]
  end.

(** [memberName], the request objects and the placeholder of
    [moveStaticMember]. *)
Definition memberNameOf (commandInfo : option JsObject) : JsVal :=
  match commandInfo with
  | Some ci => if truthy (prop ci "displayName") then prop ci "displayName"
               else JStr ""
  | None => JStr ""
  end.

Definition searchSymbolsRequest (commandInfo : JsObject) : SearchSymbolParams :=
  mkSearchSymbolParams "*" (prop commandInfo "projectName") true.

Definition staticMemberPlaceHolder (commandInfo : option JsObject) : string :=
  "Select the new class for the static member "
    +:+ toString (memberNameOf commandInfo) +:+ ".".

Definition moveStaticMemberRequest (params : CodeActionParams)
    (symbolNode : SymbolInformation) : MoveParams :=
  mkMoveParams "moveStaticMember" [cap_textDocument_uri params] (Some params)
    (DestSymbol symbolNode) None.

(** The picker is handed the promise of the entries: it gets them when the
    search-symbols request has answered, and the handler fails when the
    request does. *)
Definition moveStaticMember (params : CodeActionParams)
    (commandInfo : option JsObject) : M World unit :=
  match commandInfo with
  | None => throw (Error "TypeError: Cannot read property 'enclosingTypeName'")
  | Some ci =>
      let exclude := excludeOf ci in
      let request := searchSymbolsRequest ci in
      types <- call (sendSearchSymbols host request) (EvSearchSymbols request) ;;
      let items := candidateItems exclude types in
      let placeHolder := staticMemberPlaceHolder commandInfo in
      picked <- call (showQuickPick host (map shown items) placeHolder)
                     (EvShowQuickPickSymbols items placeHolder) ;;
      match chosen items picked with
      | Some (mkItem _ _ _ (Some symbolNode)) =>
          let move := moveStaticMemberRequest params symbolNode in
          refactorEdit <- call (sendMoveRequest host move) (EvMoveRequest move) ;;
          applyRefactorEdit refactorEdit
      | _ => ret tt
      end
  end.

End Handlers.

(** ** Vocabulary of the properties *)

(** The events by which a handler reports to the user. *)
Definition isReport (ev : Event) : bool :=
  match ev with
  | EvShowErrorMessage _ | EvShowWarningMessage _ => true
  | _ => false
  end.

(** Events of the selection phase of [moveFile]. *)
Definition isSelection (ev : Event) : bool :=
  match ev with
  | EvShowErrorMessage _ | EvShowWarningMessage _
  | EvGetMoveDestinations _ _ | EvShowQuickPickPackages _ _ _ => true
  | _ => false
  end.

(** Events of the save loop. *)
Definition isSaving (ev : Event) : bool :=
  match ev with
  | EvOpenTextDocument _ _ | EvSave _ _ => true
  | _ => false
  end.

(** Events of [applyRefactorEdit]. *)
Definition isApplying (ev : Event) : bool :=
  match ev with
  | EvShowErrorMessage _ | EvApplyEdit _ _ | EvExecuteCommand _ _ _ => true
  | _ => false
  end.

Definition isMoveRequest (ev : Event) : bool :=
  match ev with
  | EvMoveRequest _ _ => true
  | _ => false
  end.

(** A change that puts [u] into the set, when it applies. *)
Definition adds (u : string) (change : DocumentChange) : bool :=
  match change with
  | TextDocumentEdit v _ _ => String.eqb v u
  | RenameFile _ newUri => String.eqb newUri u
  | _ => false
  end.

(** A change that may take [u] out of the set. *)
Definition removes (u : string) (change : DocumentChange) : bool :=
  match change with
  | DeleteFile v => String.eqb v u
  | RenameFile oldUri _ => String.eqb oldUri u
  | _ => false
  end.

(** The set of touched files as the description of the save step has it:
    [Touched keys dcs u] says that [u] is in the set once the changes [dcs]
    have been gone through in order, the set having started from [keys].
    A text document edit puts its URI in; a rename of a URI that is in the
    set puts the new URI in; any other URI stays in unless the change
    deletes it or renames it. *)
Inductive Touched (keys : list string) : list DocumentChange -> string -> Prop :=
| Touched_key (u : string) :
    In u keys -> Touched keys [] u
| Touched_text (dcs : list DocumentChange) (u : string) version edits :
    Touched keys (dcs ++ [TextDocumentEdit u version edits]) u
| Touched_rename (dcs : list DocumentChange) (oldUri newUri : string) :
    Touched keys dcs oldUri ->
    Touched keys (dcs ++ [RenameFile oldUri newUri]) newUri
| Touched_keep (dcs : list DocumentChange) (change : DocumentChange) (u : string) :
    Touched keys dcs u ->
    removes u change = false ->
    Touched keys (dcs ++ [change]) u.

(** The URIs a trace opens, the documents these calls return, and the
    documents it saves. *)
Definition openedUris (t : Trace) : list Uri :=
  flat_map (fun ev => match ev with
                      | EvOpenTextDocument u _ => [u]
                      | _ => []
                      end) t.

Definition openedDocuments (t : Trace) : list TextDocument :=
  flat_map (fun ev => match ev with
                      | EvOpenTextDocument _ (Ok (Some d)) => [d]
                      | _ => []
                      end) t.

Definition savedDocuments (t : Trace) : list TextDocument :=
  flat_map (fun ev => match ev with
                      | EvSave d _ => [d]
                      | _ => []
                      end) t.

Definition string_le (a b : string) : Prop := lessThan b a = false.

Definition label_le {P} (a b : QuickPickItem P) : Prop :=
  string_le (label a) (label b).

Section Vocabulary.

Context {World : Type} (host : Host World).

(** The parent directory of a file, as [hasCommonParent] computes it. *)
Definition parentOf (uri : Uri) : string := path_dirname host (fsPath uri).

(** The files of [fileUris] that the chosen directory already holds, and
    the others. *)
Definition duplicatesIn (w : World) (dir : string) (fileUris : list Uri) : list Uri :=
  List.filter (collides host w dir) fileUris.

Definition movableIn (w : World) (dir : string) (fileUris : list Uri) : list Uri :=
  List.filter (fun uri => negb (collides host w dir uri)) fileUris.

(** The run of [moveFile] on [fileUris] from [w] gets an entry chosen in
    the picker, and is in world [w2] when the picker has answered. *)
Definition picksPackage (fileUris : list Uri) (w w2 : World)
    (item : QuickPickItem PackageNode) : Prop :=
  hasCommonParent host (Some fileUris) = true
  /\ exists moveDestinations w1 destinations picked,
       sendGetMoveDestinations host (moveDestinationsRequest fileUris) w
       = (Ok moveDestinations, w1)
       /\ availableDestinations moveDestinations = Some destinations
       /\ showQuickPick host (map shown (map (packageNodeItem host) destinations))
            (moveFilePlaceHolder fileUris) w1
          = (Ok picked, w2)
       /\ chosen (map (packageNodeItem host) destinations) picked = Some item.

End Vocabulary.

(** ** A scripted host

    A concrete host whose answers are read off a script; the script is the
    world and no call changes it.  Paths are POSIX paths, URIs are
    [file://] URIs; the documents listed as unreadable fail to open. *)

Record Script := mkScript {
  existingFiles : list string;
  unreadable : list string;
  destinationsAnswer : Result (option MoveDestinationsResponse);
  pickAnswer : Result (option nat);
  moveAnswer : Result (option RefactorWorkspaceEdit);
  symbolsAnswer : Result (option (list SymbolInformation))
}.

Definition scriptedParse (s : string) : Uri :=
  mkUri s (if String.prefix "file://" s
           then String.substring 7 (String.length s - 7) s
           else s).

Fixpoint beforeLastSlash (s : string) : option string :=
  match s with
  | EmptyString => None
  | String c rest =>
      match beforeLastSlash rest with
      | Some p => Some (String c p)
      | None => if Ascii.eqb c "/" then Some EmptyString else None
      end
  end.

Definition scriptedDirname (s : string) : string :=
  match beforeLastSlash s with
  | Some EmptyString => "/"
  | Some p => p
  | None => "."
  end.

(** [path.relative] answers [sameAnswer] for equal paths: the empty string
    as Node does, or any other fixed answer. *)
Definition scriptedRelative (sameAnswer : string) (from to : string) : string :=
  if from =? to then sameAnswer else "../" +:+ to.

Definition scriptedHost (sameAnswer : string) : Host Script :=
  {| Uri_parse := scriptedParse;
     path_join := fun a b => a +:+ "/" +:+ b;
     path_dirname := scriptedDirname;
     path_relative := scriptedRelative sameAnswer;
     asRelativePath := fun u _ => fsPath u;
     positionAt := fun _ offset => mkPosition 0 offset;
     asWorkspaceEdit := fun e => Some (mkCodeWorkspaceEdit e);
     existsSync := fun p w => existsb (String.eqb p) (existingFiles w);
     openTextDocument := fun u w =>
       if existsb (String.eqb (uri_toString u)) (unreadable w)
       then (Throw (Error "cannot open"), w)
       else (Ok (Some (mkTextDocument u "")), w);
     save := fun _ w => (Ok true, w);
     applyEdit := fun _ w => (Ok true, w);
     executeCommand := fun _ _ w => (Ok tt, w);
     showQuickPick := fun _ _ w => (pickAnswer w, w);
     sendGetMoveDestinations := fun _ w => (destinationsAnswer w, w);
     sendMoveRequest := fun _ w => (moveAnswer w, w);
     sendSearchSymbols := fun _ w => (symbolsAnswer w, w) |}.

(** The host with Node's [path.relative]. *)
Definition nodeHost : Host Script := scriptedHost "".

Definition idleScript : Script :=
  mkScript [] [] (Ok None) (Ok None) (Ok None) (Ok None).

(** ** Sample data *)

Definition fileA : Uri := scriptedParse "file:///work/src/a/A.java".
Definition fileB : Uri := scriptedParse "file:///work/src/b/B.java".

Definition fileA2 : Uri := scriptedParse "file:///work/src/a/Other.java".

Definition packageB : PackageNode :=
  mkPackageNode "b" (Some "file:///work/src/b") "src/b" false.

Definition oneDestinationScript : Script :=
  mkScript [] []
    (Ok (Some (mkMoveDestinationsResponse None (Some [packageB]))))
    (Ok None) (Ok None) (Ok None).

Definition collidingScript : Script :=
  mkScript ["/work/src/b/A.java"] []
    (Ok (Some (mkMoveDestinationsResponse None (Some [packageB]))))
    (Ok (Some 0)) (Ok None) (Ok None).

Definition editOfA : WorkspaceEdit :=
  mkWorkspaceEdit (Some [("file:///work/src/a/A.java", [])]) None.

Definition organizeImports : Command :=
  mkCommand "Organize imports" "java.action.organizeImports"
    (Some [JStr "file:///work/src/a/A.java"]).

Definition failedMove : RefactorWorkspaceEdit :=
  mkRefactorWorkspaceEdit (Some editOfA) None (Some "Cannot move A.java").

Definition failedMoveScript : Script :=
  mkScript [] []
    (Ok (Some (mkMoveDestinationsResponse None (Some [packageB]))))
    (Ok (Some 0)) (Ok (Some failedMove)) (Ok None).

Definition renameOnlyEdit : WorkspaceEdit :=
  mkWorkspaceEdit None
    (Some [RenameFile "file:///work/src/a/A.java" "file:///work/src/b/A.java"]).

Definition moveAEdit : WorkspaceEdit :=
  mkWorkspaceEdit None
    (Some [TextDocumentEdit "file:///work/src/a/A.java" None [];
           RenameFile "file:///work/src/a/A.java" "file:///work/src/b/A.java";
           TextDocumentEdit "file:///work/src/c/C.java" None []]).

Definition someParams : CodeActionParams :=
  mkCodeActionParams "file:///work/src/app/Palette.java"
    (mkRange (mkPosition 3 4) (mkPosition 3 9)).

Definition symbolPalette : SymbolInformation :=
  mkSymbol "Palette" (Some "app") 5 "file:///work/src/app/Palette.java".
Definition symbolColor : SymbolInformation :=
  mkSymbol "Color" (Some "app.Palette") 10 "file:///work/src/app/Palette.java".
Definition symbolBrush : SymbolInformation :=
  mkSymbol "Brush" (Some "app") 5 "file:///work/src/app/Brush.java".

Definition threeSymbolsScript : Script :=
  mkScript [] [] (Ok None) (Ok None) (Ok None)
    (Ok (Some [symbolPalette; symbolColor; symbolBrush])).

Definition noSymbolsScript : Script :=
  mkScript [] [] (Ok None) (Ok (Some 0)) (Ok None) (Ok (Some [])).

Definition methodInfo : JsObject :=
  {[ "displayName" := JStr "mix" ]}.

(** A static member that is an enum (declaration kind 71) named [Color],
    nested in the type [app.Palette]. *)
Definition enumMemberInfo : JsObject :=
  {[ "displayName" := JStr "Color";
     "enclosingTypeName" := JStr "app.Palette";
     "memberType" := JNum 71 ]}.

(** The same member declared as a class (declaration kind 55). *)
Definition typeMemberInfo : JsObject :=
  {[ "displayName" := JStr "Color";
     "enclosingTypeName" := JStr "app.Palette";
     "memberType" := JNum 55 ]}.

(** ** Further vocabulary *)

(** A predicate on characters holds of every character of a string. *)
Fixpoint allChars (p : ascii -> bool) (s : string) : bool :=
  match s with
  | EmptyString => true
  | String c rest => p c && allChars p rest
  end.

(** No line terminator, respectively no path separator, occurs. *)
Fixpoint singleLine (s : string) : bool :=
  match s with
  | EmptyString => true
  | String c rest =>
      negb (beginsLineTerminator (String c rest)) && singleLine rest
  end.

Definition separatorFree (s : string) : bool :=
  allChars (fun c => negb (isSeparator c)) s.




(** The URIs of the text document edits of a list of changes, in order. *)
Definition textEditUris (dcs : list DocumentChange) : list string :=
  flat_map (fun change => match change with
                          | TextDocumentEdit u _ _ => [u]
                          | _ => []
                          end) dcs.

(** A rename or a delete. *)
Definition movesOrDeletes (change : DocumentChange) : bool :=
  match change with
  | RenameFile _ _ | DeleteFile _ => true
  | _ => false
  end.

(** ** The apply-refactoring command and moveInstanceMethod

    The command handler registered for APPLY_REFACTORING_COMMAND and
    [moveInstanceMethod] talk to the editor and the server through further
    calls.  They run over a [CommandHost], which extends a [Host], and their
    traces are lists of [CommandEvent]s, which extend the events above. *)

Record TextEditorOptions := mkTextEditorOptions {
  opt_tabSize : JsVal;
  opt_insertSpaces : JsVal
}.

(** [window.activeTextEditor], seen through its [options]. *)
Record TextEditor := mkTextEditor { editor_options : option TextEditorOptions }.

Record FormattingOptions := mkFormattingOptions {
  fo_tabSize : JsVal;
  fo_insertSpaces : JsVal
}.

Record GetRefactorEditParams := mkGetRefactorEditParams {
  gre_command : string;
  gre_context : CodeActionParams;
  gre_options : FormattingOptions;
  gre_commandArguments : list JsVal
}.

Record InstanceMethodDestinationsParams := mkInstanceMethodDestinationsParams {
  imd_moveKind : string;
  imd_sourceUris : list string;
  imd_params : CodeActionParams
}.

(** The destinations of an instance method are untyped objects with the
    properties [type], [name] and [isField]. *)
Record InstanceMethodDestinations := mkInstanceMethodDestinations {
  imr_errorMessage : option string;
  imr_destinations : option (list JsObject)
}.

Record MoveInstanceMethodParams := mkMoveInstanceMethodParams {
  mim_moveKind : string;
  mim_sourceUris : list string;
  mim_params : CodeActionParams;
  mim_destination : JsObject
}.

Inductive CommandEvent :=
| CmdBase (ev : Event)
| EvGetRefactorEdit (p : GetRefactorEditParams)
    (r : Result (option RefactorWorkspaceEdit))
| EvShowQuickPickScopes (scopes : list JsVal) (placeHolder : string)
    (r : Result (option nat))
| EvGetInstanceMethodDestinations (p : InstanceMethodDestinationsParams)
    (r : Result (option InstanceMethodDestinations))
| EvShowQuickPickDestinations (items : list (QuickPickItem JsObject))
    (placeHolder : string) (r : Result (option nat))
| EvMoveInstanceMethod (p : MoveInstanceMethodParams)
    (r : Result (option RefactorWorkspaceEdit)).

Record CommandHost (World : Type) := mkCommandHost {
  editorHost : Host World;
  activeTextEditor : World -> option TextEditor;
  sendGetRefactorEdit :
    GetRefactorEditParams -> World -> Result (option RefactorWorkspaceEdit) * World;
  sendGetInstanceMethodDestinations :
    InstanceMethodDestinationsParams -> World ->
    Result (option InstanceMethodDestinations) * World;
  sendMoveInstanceMethod :
    MoveInstanceMethodParams -> World -> Result (option RefactorWorkspaceEdit) * World
}.
Arguments editorHost {World} _.
Arguments activeTextEditor {World} _ _.
Arguments sendGetRefactorEdit {World} _ _ _.
Arguments sendGetInstanceMethodDestinations {World} _ _ _.
Arguments sendMoveInstanceMethod {World} _ _ _.

(** The monad of the command handlers. *)
Definition C (World A : Type) : Type :=
  World -> Result A * World * list CommandEvent.

Definition cret {World A} (a : A) : C World A := fun w => (Ok a, w, []).

Definition cthrow {World A} (e : Exn) : C World A := fun w => (Throw e, w, []).

Definition cbind {World A B} (m : C World A) (f : A -> C World B) : C World B :=
  fun w =>
    match m w with
    | (Ok a, w1, t1) =>
        match f a w1 with
        | (r, w2, t2) => (r, w2, t1 ++ t2)
        end
    | (Throw e, w1, t1) => (Throw e, w1, t1)
    end.

Definition ccall {World A} (f : World -> Result A * World)
    (ev : Result A -> CommandEvent) : C World A :=
  fun w => match f w with (r, w1) => (r, w1, [ev r]) end.

Definition cemit {World} (ev : CommandEvent) : C World unit :=
  fun w => (Ok tt, w, [ev]).

Definition readWorld {World} : C World World := fun w => (Ok w, w, []).

(** Running a handler of the first layer inside a command handler. *)
Definition lift {World A} (m : M World A) : C World A :=
  fun w => match m w with (r, w1, t) => (r, w1, map CmdBase t) end.

Declare Scope command_scope.
Delimit Scope command_scope with command.
Notation "x <- m ;; k" := (cbind m (fun x => k))
  (at level 100, m at next level, right associativity) : command_scope.

(** A string entry of a picker, as the picker displays it. *)
Definition scopeEntry (scope : JsVal) : QuickPickItem unit :=
  mkItem (toString scope) None false tt.

(** The tests on the command name in the apply-refactoring handler. *)
Definition isExtraction (command : string) : bool :=
  (command =? "extractVariable")
  || (command =? "extractVariableAllOccurrence")
  || (command =? "extractConstant")
  || (command =? "extractMethod")
  || (command =? "extractField")
  || (command =? "convertVariableToField")
  || (command =? "invertVariable").

Definition isFieldExtraction (command : string) : bool :=
  (command =? "extractField") || (command =? "convertVariableToField").

(** The callback of [moveDestinations.destinations.map] in
    [moveInstanceMethod]. *)
Definition destinationItem (destination : JsObject) : QuickPickItem JsObject :=
  mkItem (toString (prop destination "type") +:+ " "
            +:+ toString (prop destination "name"))
         (Some (if truthy (prop destination "isField")
                then "Field" else "Method Parameter"))
         false destination.

Definition availableInstanceDestinations
    (moveDestinations : option InstanceMethodDestinations)
  : option (list JsObject) :=
  match moveDestinations with
  | Some r =>
      match imr_destinations r with
      | Some (d :: ds) => Some (d :: ds)
      | _ => None
      end
  | None => None
  end.

Definition noClassTargetsMessage : string :=
  "Cannot find possible class targets to move the selected method to.".

Definition instanceMethodDestinationsRequest (params : CodeActionParams)
  : InstanceMethodDestinationsParams :=
  mkInstanceMethodDestinationsParams "moveInstanceMethod"
    [cap_textDocument_uri params] params.

Definition instanceMethodPlaceHolder (commandInfo : option JsObject) : string :=
  "Select the new class for the instance method "
    +:+ toString (memberNameOf commandInfo) +:+ ".".

Definition moveInstanceMethodRequest (params : CodeActionParams)
    (destination : JsObject) : MoveInstanceMethodParams :=
  mkMoveInstanceMethodParams "moveInstanceMethod" [cap_textDocument_uri params]
    params destination.

Section CommandHandlers.

Context {World : Type} (host : CommandHost World).

Local Open Scope command_scope.

(** *** moveInstanceMethod *)

Definition moveInstanceMethod (params : CodeActionParams)
    (commandInfo : option JsObject) : C World unit :=
  let request := instanceMethodDestinationsRequest params in
  moveDestinations <- ccall (sendGetInstanceMethodDestinations host request)
                            (EvGetInstanceMethodDestinations request) ;;
  match match moveDestinations with
        | Some r => nonEmpty (imr_errorMessage r)
        | None => None
        end with
  | Some message => cemit (CmdBase (EvShowErrorMessage message))
  | None =>
      match availableInstanceDestinations moveDestinations with
      | None => cemit (CmdBase (EvShowErrorMessage noClassTargetsMessage))
      | Some destinations =>
          let destinationNodeItems := map destinationItem destinations in
          let placeHolder := instanceMethodPlaceHolder commandInfo in
          picked <- ccall (showQuickPick (editorHost host)
                             (map shown destinationNodeItems) placeHolder)
                          (EvShowQuickPickDestinations destinationNodeItems
                             placeHolder) ;;
          match chosen destinationNodeItems picked with
          | None => cret tt
          | Some selected =>
              let move := moveInstanceMethodRequest params (payload selected) in
              refactorEdit <- ccall (sendMoveInstanceMethod host move)
                                    (EvMoveInstanceMethod move) ;;
              lift (applyRefactorEdit (editorHost host) refactorEdit)
          end
      end
  end.

(** *** The apply-refactoring command (APPLY_REFACTORING_COMMAND) *)

Definition initializeInPlaceHolder : string := "Initialize the field in".

(** Lines 50-69: the extra arguments of the request.  [None]: the handler
    returns. *)
Definition initializeInArguments (command : string) (commandInfo : option JsObject)
  : C World (option (list JsVal)) :=
  if isFieldExtraction command then
    match commandInfo with
    | None => cthrow (Error "TypeError: Cannot read property 'initializedScopes'")
    | Some commandInfo =>
        match prop commandInfo "initializedScopes" with
        | JArr scopes =>
            match scopes with
            | [] => cret (Some [JUndefined])
            | [scope] => cret (Some [scope])
            | _ =>
                picked <- ccall (showQuickPick (editorHost host)
                                   (map scopeEntry scopes) initializeInPlaceHolder)
                                (EvShowQuickPickScopes scopes initializeInPlaceHolder) ;;
                let initializeIn :=
                  match picked with
                  | Some i => nth i scopes JUndefined
                  | None => JUndefined
                  end in
                if truthy initializeIn then cret (Some [initializeIn])
                else cret None
            end
        | _ => cret (Some [])
        end
    end
  else cret (Some []).

Definition applyRefactoringCommand (command : string) (params : CodeActionParams)
    (commandInfo : option JsObject) : C World unit :=
  if isExtraction command then
    w <- readWorld ;;
    match activeTextEditor host w with
    | None => cret tt
    | Some currentEditor =>
        match editor_options currentEditor with
        | None => cret tt
        | Some options =>
            let formattingOptions :=
              mkFormattingOptions (opt_tabSize options) (opt_insertSpaces options) in
            commandArguments <- initializeInArguments command commandInfo ;;
            match commandArguments with
            | None => cret tt
            | Some commandArguments =>
                let request := mkGetRefactorEditParams command params
                                 formattingOptions commandArguments in
                result <- ccall (sendGetRefactorEdit host request)
                                (EvGetRefactorEdit request) ;;
                lift (applyRefactorEdit (editorHost host) result)
            end
        end
    end
  else if command =? "moveFile" then
    match commandInfo with
    | Some commandInfo =>
        if truthy (prop commandInfo "uri")
        then lift (moveFile (editorHost host)
                     [Uri_parse (editorHost host) (toString (prop commandInfo "uri"))])
        else cret tt
    | None => cret tt
    end
  else if command =? "moveInstanceMethod" then
    moveInstanceMethod params commandInfo
  else if command =? "moveStaticMember" then
    lift (moveStaticMember (editorHost host) params commandInfo)
  else cret tt.

End CommandHandlers.

(** A host over a part of a larger world. *)
Definition zoomHost {W1 W2 : Type} (get : W2 -> W1) (set : W1 -> W2 -> W2)
    (h : Host W1) : Host W2 :=
  let zoom {A} (f : W1 -> Result A * W1) (w : W2) : Result A * W2 :=
    match f (get w) with (r, w1) => (r, set w1 w) end in
  {| Uri_parse := Uri_parse h;
     path_join := path_join h;
     path_dirname := path_dirname h;
     path_relative := path_relative h;
     asRelativePath := asRelativePath h;
     positionAt := positionAt h;
     asWorkspaceEdit := asWorkspaceEdit h;
     existsSync := fun p w => existsSync h p (get w);
     openTextDocument := fun u => zoom (openTextDocument h u);
     save := fun d => zoom (save h d);
     applyEdit := fun e => zoom (applyEdit h e);
     executeCommand := fun name args => zoom (executeCommand h name args);
     showQuickPick := fun items placeHolder => zoom (showQuickPick h items placeHolder);
     sendGetMoveDestinations := fun p => zoom (sendGetMoveDestinations h p);
     sendMoveRequest := fun p => zoom (sendMoveRequest h p);
     sendSearchSymbols := fun p => zoom (sendSearchSymbols h p) |}.

(** The scripted host of the command handlers. *)
Record CommandScript := mkCommandScript {
  baseScript : Script;
  editorAnswer : option TextEditor;
  refactorAnswer : Result (option RefactorWorkspaceEdit);
  instanceDestinationsAnswer : Result (option InstanceMethodDestinations);
  instanceMoveAnswer : Result (option RefactorWorkspaceEdit)
}.

Definition scriptedCommandHost : CommandHost CommandScript :=
  {| editorHost :=
       zoomHost baseScript
         (fun s w => mkCommandScript s (editorAnswer w) (refactorAnswer w)
                       (instanceDestinationsAnswer w) (instanceMoveAnswer w))
         nodeHost;
     activeTextEditor := editorAnswer;
     sendGetRefactorEdit := fun _ w => (refactorAnswer w, w);
     sendGetInstanceMethodDestinations := fun _ w => (instanceDestinationsAnswer w, w);
     sendMoveInstanceMethod := fun _ w => (instanceMoveAnswer w, w) |}.

(** ** Vocabulary of the command handlers *)

(** A call that opens or saves a document. *)
Definition savesDocument (ev : CommandEvent) : bool :=
  match ev with
  | CmdBase ev => isSaving ev
  | _ => false
  end.

(** The keys of [changes] and the changes of [documentChanges], empty when
    the field is absent. *)
Definition changeKeys (e : WorkspaceEdit) : list string :=
  match changes e with
  | Some cs => map fst cs
  | None => []
  end.

Definition documentChangeList (e : WorkspaceEdit) : list DocumentChange :=
  match documentChanges e with
  | Some dcs => dcs
  | None => []
  end.

Section CommandVocabulary.

Context {World : Type} (host : CommandHost World).

(** The events of the request and of what follows it. *)
Definition requestEvents (command : string) (params : CodeActionParams)
    (options : TextEditorOptions) (commandArguments : list JsVal) (w : World)
  : list CommandEvent :=
  let request := mkGetRefactorEditParams command params
                   (mkFormattingOptions (opt_tabSize options) (opt_insertSpaces options))
                   commandArguments in
  EvGetRefactorEdit request (fst (sendGetRefactorEdit host request w))
  :: match fst (sendGetRefactorEdit host request w) with
     | Ok result =>
         map CmdBase
           (trace (applyRefactorEdit (editorHost host) result
                     (snd (sendGetRefactorEdit host request w))))
     | Throw _ => []
     end.

End CommandVocabulary.

(** ** Further sample data *)

Definition packageWithoutUri : PackageNode :=
  mkPackageNode "c" None "src/c" false.

Definition packageWithoutUriScript : Script :=
  mkScript ["src/c/A.java"; "/work/src/c/A.java"] []
    (Ok (Some (mkMoveDestinationsResponse None (Some [packageWithoutUri]))))
    (Ok (Some 0)) (Ok None) (Ok None).

Definition pickBScript : Script :=
  mkScript [] []
    (Ok (Some (mkMoveDestinationsResponse None (Some [packageB]))))
    (Ok (Some 0)) (Ok None) (Ok None).

Definition movedA : RefactorWorkspaceEdit :=
  mkRefactorWorkspaceEdit (Some moveAEdit) None None.

Definition movedAScript : Script :=
  mkScript [] []
    (Ok (Some (mkMoveDestinationsResponse None (Some [packageB]))))
    (Ok (Some 0)) (Ok (Some movedA)) (Ok None).

Definition twoFilesEdit : WorkspaceEdit :=
  mkWorkspaceEdit (Some [("file:///work/src/a/A.java", [])])
    (Some [CreateFile "file:///work/src/b/New.java";
           TextDocumentEdit "file:///work/src/b/B.java" None []]).

Definition fieldMemberInfo : JsObject :=
  {[ "displayName" := JStr "DEFAULT";
     "enclosingTypeName" := JStr "app.Palette";
     "memberType" := JNum 23 ]}.

Definition pickColorScript : Script :=
  mkScript [] [] (Ok None) (Ok (Some 1)) (Ok (Some movedA))
    (Ok (Some [symbolPalette; symbolColor; symbolBrush])).

Definition editorScript : CommandScript :=
  mkCommandScript idleScript
    (Some (mkTextEditor (Some (mkTextEditorOptions (JNum 4) (JBool true)))))
    (Ok (Some (mkRefactorWorkspaceEdit (Some editOfA) None None)))
    (Ok None) (Ok None).

Definition noEditorScript : CommandScript :=
  mkCommandScript idleScript None (Ok None) (Ok None) (Ok None).

Definition oneScopeInfo : JsObject :=
  {[ "initializedScopes" := JArr [JStr "Current method"] ]}.

Definition twoScopesInfo : JsObject :=
  {[ "initializedScopes" := JArr [JStr "Current method"; JStr "Field declaration"] ]}.

Definition pickSecondScript : CommandScript :=
  mkCommandScript (mkScript [] [] (Ok None) (Ok (Some 1)) (Ok None) (Ok None))
    (Some (mkTextEditor (Some (mkTextEditorOptions (JNum 4) (JBool true)))))
    (Ok None) (Ok None) (Ok None).

Definition noScopesInfo : JsObject := {[ "initializedScopes" := JArr [] ]}.

Definition moveFileInfo : JsObject := {[ "uri" := JStr "file:///work/src/a/A.java" ]}.

Definition stringDestination : JsObject :=
  {[ "type" := JStr "String"; "name" := JStr "label"; "isField" := JBool true ]}.

Definition listDestination : JsObject :=
  {[ "type" := JStr "List"; "name" := JStr "items"; "isField" := JBool false ]}.

Definition instanceErrorScript : CommandScript :=
  mkCommandScript idleScript None (Ok None)
    (Ok (Some (mkInstanceMethodDestinations (Some "The method is abstract.")
                 (Some [stringDestination]))))
    (Ok None).

Definition instanceMoveScript : CommandScript :=
  mkCommandScript (mkScript [] [] (Ok None) (Ok (Some 1)) (Ok None) (Ok None)) None
    (Ok None)
    (Ok (Some (mkInstanceMethodDestinations None
                 (Some [stringDestination; listDestination]))))
    (Ok (Some (mkRefactorWorkspaceEdit (Some editOfA) None None))).

Definition instanceDismissScript : CommandScript :=
  mkCommandScript idleScript None (Ok None)
    (Ok (Some (mkInstanceMethodDestinations None
                 (Some [stringDestination; listDestination]))))
    (Ok None).

(** ** Properties *)

Ltac run :=
  cbv beta iota delta
    [bind call emit ret throw try_catch getWorld outcome trace finalWorld].

(** *** The monad *)

Section MonadFacts.

Context {World : Type}.

Lemma trace_bind {A B} (m : M World A) (f : A -> M World B) (w : World) :
  trace (bind m f w)
  = trace (m w) ++ match outcome (m w) with
                   | Ok a => trace (f a (finalWorld (m w)))
                   | Throw _ => []
                   end.
Proof.
  unfold bind, trace, outcome, finalWorld.
  destruct (m w) as [[[a|e] w1] t1]; simpl.
  - now destruct (f a w1) as [[r w2] t2].
  - now rewrite app_nil_r.
Qed.

Lemma outcome_bind {A B} (m : M World A) (f : A -> M World B) (w : World) :
  outcome (bind m f w)
  = match outcome (m w) with
    | Ok a => outcome (f a (finalWorld (m w)))
    | Throw e => Throw e
    end.
Proof.
  unfold bind, outcome, finalWorld.
  destruct (m w) as [[[a|e] w1] t1]; simpl; [|reflexivity].
  now destruct (f a w1) as [[r w2] t2].
Qed.

Lemma finalWorld_bind {A B} (m : M World A) (f : A -> M World B) (w : World) :
  finalWorld (bind m f w)
  = match outcome (m w) with
    | Ok a => finalWorld (f a (finalWorld (m w)))
    | Throw _ => finalWorld (m w)
    end.
Proof.
  unfold bind, outcome, finalWorld.
  destruct (m w) as [[[a|e] w1] t1]; simpl; [|reflexivity].
  now destruct (f a w1) as [[r w2] t2].
Qed.

Lemma run_call {A} (f : World -> Result A * World) (ev : Result A -> Event)
    (w : World) :
  call f ev w = (fst (f w), snd (f w), [ev (fst (f w))]).
Proof. unfold call. now destruct (f w). Qed.

End MonadFacts.

(** *** The rename trigger *)

(** C6: the rename trigger always returns normally and reports nothing,
    whatever its argument is and whether opening the document or the editor's
    rename command throws or not. *)
Theorem renameCommand_fails_silently :
  forall (World : Type) (host : Host World) (position : option RenamePosition)
         (w : World),
    outcome (renameCommand host position w) = Ok tt
    /\ forallb (fun ev => negb (isReport ev))
         (trace (renameCommand host position w)) = true.
Proof.
  intros World host position w.
  unfold renameCommand; run.
  destruct position as [position|]; cbn; [|auto].
  destruct (openTextDocument host _ w) as [[[document|]|e] w1]; cbn; auto.
  destruct (executeCommand host _ _ w1) as [[[]|e] w2]; cbn; auto.
Qed.

(** The document cannot be opened: the exception is swallowed. *)
Example renameCommand_unreadable_document :
  renameCommand nodeHost (Some (mkRenamePosition "file:///work/src/a/A.java" 120))
    (mkScript [] ["file:///work/src/a/A.java"] (Ok None) (Ok None) (Ok None) (Ok None))
  = (Ok tt,
     mkScript [] ["file:///work/src/a/A.java"] (Ok None) (Ok None) (Ok None) (Ok None),
     [EvOpenTextDocument fileA (Throw (Error "cannot open"))]).
Proof. vm_compute. reflexivity. Qed.

Example renameCommand_opens_and_renames :
  trace (renameCommand nodeHost
           (Some (mkRenamePosition "file:///work/src/a/A.java" 120)) idleScript)
  = [EvOpenTextDocument fileA (Ok (Some (mkTextDocument fileA "")));
     EvExecuteCommand "editor.action.rename"
       [JArr [JUri fileA; JPos (mkPosition 0 120)]] (Ok tt)].
Proof. vm_compute. reflexivity. Qed.

(** *** The common-parent check *)

Section CommonParent.

Context {World : Type} (host : Host World).

Lemma sameParentFrom_true firstParent rest :
  sameParentFrom host firstParent rest = true ->
  forall uri, In uri rest ->
    path_relative host firstParent (parentOf host uri) = ".".
Proof.
  induction rest as [|u rest IH]; simpl; intros Hall uri Hin; [tauto|].
  destruct (String.eqb_spec (path_relative host firstParent
                               (path_dirname host (fsPath u))) ".") as [Heq|Hne];
    simpl in Hall; [|discriminate].
  destruct Hin as [<-|Hin]; [exact Heq | now apply IH].
Qed.

Lemma hasCommonParent_true_parents first rest :
  (forall a b, path_relative host a b = "." -> a = b) ->
  hasCommonParent host (Some (first :: rest)) = true ->
  forall uri, In uri (first :: rest) -> parentOf host uri = parentOf host first.
Proof.
  intros Hrel Hcommon uri [<-|Hin]; [reflexivity|].
  destruct rest as [|second rest]; [destruct Hin|].
  symmetry. apply Hrel.
  now apply (sameParentFrom_true _ _ Hcommon).
Qed.

Lemma hasCommonParent_short uris :
  length uris <= 1 -> hasCommonParent host (Some uris) = true.
Proof.
  destruct uris as [|u [|v rest]]; simpl; intros Hlen; try reflexivity; lia.
Qed.

End CommonParent.

(** C5: when two of the files to move have different parent directories,
    [moveFile] shows the different-directories message and does nothing
    else, so no get-move-destinations request and no move request is sent;
    a list of at most one file passes the check.  [path.relative] is only
    assumed to answer ["."] for equal directories at most. *)
Theorem moveFile_rejects_different_parents :
  forall (World : Type) (host : Host World),
    (forall a b, path_relative host a b = "." -> a = b) ->
    forall (fileUris : list Uri) (w : World),
      ((exists u v, In u fileUris /\ In v fileUris
                    /\ parentOf host u <> parentOf host v) ->
       moveFile host fileUris w
       = (Ok tt, w, [EvShowErrorMessage differentDirectoriesMessage]))
      /\ (length fileUris <= 1 -> hasCommonParent host (Some fileUris) = true)
      /\ hasCommonParent host None = true.
Proof.
  intros World host Hrel fileUris w. split; [|split].
  - intros (u & v & Hu & Hv & Hne).
    unfold moveFile.
    destruct (hasCommonParent host (Some fileUris)) eqn:Hcommon; [|reflexivity].
    exfalso. apply Hne.
    destruct fileUris as [|first rest]; [destruct Hu|].
    rewrite (hasCommonParent_true_parents host first rest Hrel Hcommon u Hu).
    now rewrite (hasCommonParent_true_parents host first rest Hrel Hcommon v Hv).
  - apply hasCommonParent_short.
  - reflexivity.
Qed.

Lemma moveFile_rejects_different_parents_witness :
  moveFile nodeHost [fileA; fileB] idleScript
  = (Ok tt, idleScript, [EvShowErrorMessage differentDirectoriesMessage])
  /\ hasCommonParent nodeHost (Some [fileA]) = true.
Proof.
  assert (Hrel : forall a b, path_relative nodeHost a b = "." -> a = b).
  { intros a b. simpl. unfold scriptedRelative.
    destruct (String.eqb_spec a b); [auto|discriminate]. }
  destruct (moveFile_rejects_different_parents Script nodeHost Hrel
              [fileA; fileB] idleScript) as [Hreject _].
  destruct (moveFile_rejects_different_parents Script nodeHost Hrel
              [fileA] idleScript) as (_ & Hshort & _).
  split.
  - apply Hreject. exists fileA, fileB. simpl.
    repeat split; [auto | auto | vm_compute; discriminate].
  - apply Hshort. simpl. lia.
Defined.

(** Two files of one directory do not pass the check with Node's
    [path.relative], which answers the empty string for equal directories. *)
Example hasCommonParent_same_directory :
  hasCommonParent nodeHost (Some [fileA; fileA2]) = false
  /\ parentOf nodeHost fileA = parentOf nodeHost fileA2.
Proof. vm_compute. repeat split. Qed.

(** *** The destination picker of moveFile *)

(** C7: when the answer to the get-move-destinations request lists exactly
    one destination, [moveFile] still presents the picker, with exactly one
    entry, the one made from that destination. *)
Theorem moveFile_single_destination_is_picked_from :
  forall (World : Type) (host : Host World) (fileUris : list Uri) (w w1 : World)
         (response : MoveDestinationsResponse) (d : PackageNode),
    hasCommonParent host (Some fileUris) = true ->
    sendGetMoveDestinations host (moveDestinationsRequest fileUris) w
    = (Ok (Some response), w1) ->
    md_destinations response = Some [d] ->
    exists items answer rest,
      trace (moveFile host fileUris w)
      = [EvGetMoveDestinations (moveDestinationsRequest fileUris) (Ok (Some response));
         EvShowQuickPickPackages items (moveFilePlaceHolder fileUris) answer] ++ rest
      /\ items = [packageNodeItem host d]
      /\ length items = 1
      /\ map payload items = [d].
Proof.
  intros World host fileUris w w1 response d Hcommon Hanswer Hone.
  exists [packageNodeItem host d].
  unfold moveFile; rewrite Hcommon; cbn [negb].
  rewrite trace_bind, run_call, Hanswer.
  unfold availableDestinations; cbn. rewrite Hone.
  rewrite trace_bind, run_call. cbn.
  eauto 6.
Qed.

Lemma moveFile_single_destination_is_picked_from_witness :
  exists items answer rest,
    trace (moveFile nodeHost [fileA] oneDestinationScript)
    = [EvGetMoveDestinations (moveDestinationsRequest [fileA])
         (Ok (Some (mkMoveDestinationsResponse None (Some [packageB]))));
       EvShowQuickPickPackages items (moveFilePlaceHolder [fileA]) answer] ++ rest
    /\ items = [packageNodeItem nodeHost packageB]
    /\ length items = 1
    /\ map payload items = [packageB].
Proof.
  apply (moveFile_single_destination_is_picked_from Script nodeHost [fileA]
           oneDestinationScript oneDestinationScript
           (mkMoveDestinationsResponse None (Some [packageB])) packageB);
    reflexivity.
Defined.

(** *** Sorting with a comparator *)

Section Sort.

Context {A : Type} (cmp : A -> A -> Z) (le : A -> A -> Prop).

Hypothesis cmp_le : forall x y, (cmp x y <= 0)%Z -> le x y.
Hypothesis cmp_gt : forall x y, (0 < cmp x y)%Z -> le y x.
Hypothesis le_trans : forall x y z, le x y -> le y z -> le x z.

Lemma sortInsert_Permutation x l : Permutation (x :: l) (sortInsert cmp x l).
Proof.
  induction l as [|y r IH]; simpl; [reflexivity|].
  destruct (cmp x y <=? 0)%Z; [reflexivity|].
  rewrite perm_swap. now constructor.
Qed.

Lemma sort_Permutation l : Permutation l (sort cmp l).
Proof.
  induction l as [|x r IH]; simpl; [constructor|].
  rewrite <- sortInsert_Permutation. now constructor.
Qed.

Lemma sortInsert_StronglySorted x l :
  StronglySorted le l -> StronglySorted le (sortInsert cmp x l).
Proof.
  induction 1 as [|y r Hsorted IH Hall]; simpl.
  - repeat constructor.
  - destruct (Z.leb_spec (cmp x y) 0) as [Hle|Hgt].
    + constructor; [now constructor|].
      constructor; [now apply cmp_le|].
      eapply List.Forall_impl; [|exact Hall].
      intros z Hz. eapply le_trans; [apply cmp_le|]; eassumption.
    + constructor; [exact IH|].
      eapply Permutation_Forall; [apply sortInsert_Permutation|].
      constructor; [now apply cmp_gt | exact Hall].
Qed.

Lemma sort_StronglySorted l : StronglySorted le (sort cmp l).
Proof.
  induction l as [|x r IH]; simpl; [constructor|].
  now apply sortInsert_StronglySorted.
Qed.

End Sort.

(** *** The order of strings *)

Lemma compareUnits_antisym (a b : list N) :
  compareUnits a b = CompOpp (compareUnits b a).
Proof.
  revert b. induction a as [|x a IH]; intros [|y b]; simpl; try reflexivity.
  rewrite (N.compare_antisym y x).
  destruct (y ?= x)%N; simpl; [apply IH | reflexivity | reflexivity].
Qed.

Lemma compareUnits_Eq (a b : list N) : compareUnits a b = Eq -> a = b.
Proof.
  revert b. induction a as [|x a IH]; intros [|y b]; simpl;
    try discriminate; try reflexivity.
  destruct (N.compare_spec x y) as [Hxy|Hxy|Hxy]; try discriminate.
  intros H. now rewrite Hxy, (IH b H).
Qed.

Lemma compareUnits_Lt_trans (a b c : list N) :
  compareUnits a b = Lt -> compareUnits b c = Lt -> compareUnits a c = Lt.
Proof.
  revert b c. induction a as [|x a IH]; intros [|y b] [|z c]; simpl;
    try discriminate; try reflexivity.
  destruct (N.compare_spec x y) as [Hxy|Hxy|Hxy];
    destruct (N.compare_spec y z) as [Hyz|Hyz|Hyz];
    try discriminate; intros H1 H2.
  - rewrite Hxy, Hyz, N.compare_refl. eauto.
  - rewrite Hxy. now rewrite (proj2 (N.compare_lt_iff _ _) Hyz).
  - rewrite <- Hyz. now rewrite (proj2 (N.compare_lt_iff _ _) Hxy).
  - assert (Hxz : (x < z)%N) by lia.
    now rewrite (proj2 (N.compare_lt_iff _ _) Hxz).
Qed.

(** [<] on strings is irreflexive and [<=], its converse's negation, is
    transitive. *)
Lemma lessThan_irrefl (a : string) : lessThan a a = false.
Proof.
  unfold lessThan.
  destruct (compareUnits (codeUnits a) (codeUnits a)) eqn:E; try reflexivity.
  pose proof (compareUnits_antisym (codeUnits a) (codeUnits a)) as H.
  rewrite E in H. discriminate.
Qed.

Lemma string_le_trans (a b c : string) :
  string_le a b -> string_le b c -> string_le a c.
Proof.
  unfold string_le, lessThan. intros Hab Hbc.
  rewrite (compareUnits_antisym (codeUnits b) (codeUnits a)) in Hab.
  rewrite (compareUnits_antisym (codeUnits c) (codeUnits b)) in Hbc.
  rewrite (compareUnits_antisym (codeUnits c) (codeUnits a)).
  destruct (compareUnits (codeUnits a) (codeUnits b)) eqn:Eab; try discriminate;
    destruct (compareUnits (codeUnits b) (codeUnits c)) eqn:Ebc; try discriminate.
  - apply compareUnits_Eq in Eab. rewrite Eab, Ebc. reflexivity.
  - apply compareUnits_Eq in Eab. rewrite Eab, Ebc. reflexivity.
  - apply compareUnits_Eq in Ebc. rewrite <- Ebc, Eab. reflexivity.
  - now rewrite (compareUnits_Lt_trans _ _ _ Eab Ebc).
Qed.

Lemma compareByName_le (a b : SymbolInformation) :
  (compareByName a b <= 0)%Z -> string_le (sym_name a) (sym_name b).
Proof.
  unfold compareByName, string_le, lessThan.
  rewrite (compareUnits_antisym (codeUnits (sym_name b)) (codeUnits (sym_name a))).
  destruct (compareUnits (codeUnits (sym_name a)) (codeUnits (sym_name b)));
    simpl; intros H; try reflexivity; lia.
Qed.

Lemma compareByName_gt (a b : SymbolInformation) :
  (0 < compareByName a b)%Z -> string_le (sym_name b) (sym_name a).
Proof.
  unfold compareByName, string_le, lessThan.
  rewrite (compareUnits_antisym (codeUnits (sym_name b)) (codeUnits (sym_name a))).
  destruct (compareUnits (codeUnits (sym_name a)) (codeUnits (sym_name b)));
    simpl; intros H; try reflexivity; lia.
Qed.

(** The order is that of the UTF-16 code units, not of the code points: a
    character above U+FFFF starts with a surrogate, which is below U+E000. *)
Example lessThan_compares_code_units :
  codeUnits (String "240" (String "159" (String "152" (String "128" ""))))
  = [55357%N; 56832%N]
  /\ codeUnits (String "238" (String "128" (String "128" ""))) = [57344%N]
  /\ lessThan (String "240" (String "159" (String "152" (String "128" "")))) 
               (String "238" (String "128" (String "128" ""))) = true
  /\ lessThan "Brush" "Color" = true
  /\ lessThan "Color" "Brush" = false.
Proof. repeat split; vm_compute; reflexivity. Qed.

(** *** The candidates of moveStaticMember *)

Lemma symbolItems_sorted (symbols : list SymbolInformation) :
  StronglySorted (fun a b => string_le (sym_name a) (sym_name b)) symbols ->
  StronglySorted label_le (map symbolItem symbols).
Proof.
  induction 1 as [|s symbols Hsorted IH Hall]; simpl; constructor; [exact IH|].
  apply Forall_map. exact Hall.
Qed.

Lemma candidateItems_sorted exclude (t : SymbolInformation) ts :
  StronglySorted label_le (candidateItems exclude (Some (t :: ts))).
Proof.
  unfold candidateItems. apply symbolItems_sorted.
  apply (sort_StronglySorted compareByName
           (fun a b => string_le (sym_name a) (sym_name b))).
  - apply compareByName_le.
  - apply compareByName_gt.
  - intros x y z. apply string_le_trans.
Qed.

(** The candidates are the returned symbols whose qualified name is not
    excluded, each once. *)
Lemma candidateItems_Permutation exclude (t : SymbolInformation) ts :
  Permutation
    (map symbolItem
       (List.filter (fun type => negb (excludeHas exclude (qualifiedName type)))
          (t :: ts)))
    (candidateItems exclude (Some (t :: ts))).
Proof.
  unfold candidateItems. apply Permutation_map, sort_Permutation.
Qed.

(** C9: when the search-symbols request answers with a non-empty list, the
    picker is handed one entry for each returned symbol that is not
    excluded, labelled with the name of the symbol it carries, and these
    entries are in non-decreasing order of that name ([<] on strings, the
    order of the UTF-16 code units). *)
Theorem moveStaticMember_candidates_sorted_by_name :
  forall (World : Type) (host : Host World) (params : CodeActionParams)
         (commandInfo : JsObject) (w w1 : World)
         (t : SymbolInformation) (ts : list SymbolInformation),
    sendSearchSymbols host (searchSymbolsRequest commandInfo) w
    = (Ok (Some (t :: ts)), w1) ->
    exists items answer rest,
      trace (moveStaticMember host params (Some commandInfo) w)
      = [EvSearchSymbols (searchSymbolsRequest commandInfo) (Ok (Some (t :: ts)));
         EvShowQuickPickSymbols items (staticMemberPlaceHolder (Some commandInfo))
           answer] ++ rest
      /\ StronglySorted label_le items
      /\ Forall (fun item => exists symbol,
                     payload item = Some symbol /\ label item = sym_name symbol)
           items
      /\ Permutation items
           (map symbolItem
              (List.filter
                 (fun type => negb (excludeHas (excludeOf commandInfo)
                                      (qualifiedName type)))
                 (t :: ts))).
Proof.
  intros World host params commandInfo w w1 t ts Hanswer.
  exists (candidateItems (excludeOf commandInfo) (Some (t :: ts))).
  unfold moveStaticMember.
  rewrite trace_bind, run_call, Hanswer. cbn [fst snd outcome finalWorld trace].
  rewrite trace_bind, run_call. cbn [fst snd outcome finalWorld trace].
  do 2 eexists. split; [reflexivity|]. split; [|split].
  - apply candidateItems_sorted.
  - unfold candidateItems. apply Forall_map, Forall_forall.
    intros symbol _. now exists symbol.
  - symmetry. apply candidateItems_Permutation.
Qed.

(** The server answers Palette, Color, Brush; the picker shows Brush, Color,
    Palette. *)
Lemma moveStaticMember_candidates_sorted_by_name_witness :
  trace (moveStaticMember nodeHost someParams (Some methodInfo) threeSymbolsScript)
  = [EvSearchSymbols (searchSymbolsRequest methodInfo)
       (Ok (Some [symbolPalette; symbolColor; symbolBrush]));
     EvShowQuickPickSymbols
       [symbolItem symbolBrush; symbolItem symbolColor; symbolItem symbolPalette]
       (staticMemberPlaceHolder (Some methodInfo)) (Ok None)]
  /\ StronglySorted label_le
       [symbolItem symbolBrush; symbolItem symbolColor; symbolItem symbolPalette]
  /\ Permutation
       [symbolItem symbolBrush; symbolItem symbolColor; symbolItem symbolPalette]
       [symbolItem symbolPalette; symbolItem symbolColor; symbolItem symbolBrush].
Proof.
  destruct (moveStaticMember_candidates_sorted_by_name Script nodeHost someParams
              methodInfo threeSymbolsScript threeSymbolsScript
              symbolPalette [symbolColor; symbolBrush] eq_refl)
    as (items & answer & rest & Htrace & Hsorted & _ & Hperm).
  assert (Hrun :
            trace (moveStaticMember nodeHost someParams (Some methodInfo)
                     threeSymbolsScript)
            = [EvSearchSymbols (searchSymbolsRequest methodInfo)
                 (Ok (Some [symbolPalette; symbolColor; symbolBrush]));
               EvShowQuickPickSymbols
                 [symbolItem symbolBrush; symbolItem symbolColor;
                  symbolItem symbolPalette]
                 (staticMemberPlaceHolder (Some methodInfo)) (Ok None)])
    by (vm_compute; reflexivity).
  rewrite Hrun in Htrace. injection Htrace as Hitems _ _.
  subst items. split; [exact Hrun|]. split; [exact Hsorted|exact Hperm].
Defined.

(** C10: when the search-symbols request answers with no list or an empty
    one, the picker is presented with the single entry labelled
    'No result found', which carries no symbol, and the handler makes no
    further call whatever the picker answers: no move request is sent. *)
Theorem moveStaticMember_no_result :
  forall (World : Type) (host : Host World) (params : CodeActionParams)
         (commandInfo : JsObject) (w w1 : World)
         (types : option (list SymbolInformation)),
    sendSearchSymbols host (searchSymbolsRequest commandInfo) w = (Ok types, w1) ->
    types = None \/ types = Some [] ->
    let placeHolder := staticMemberPlaceHolder (Some commandInfo) in
    let answer := fst (showQuickPick host [shown noResultItem] placeHolder w1) in
    trace (moveStaticMember host params (Some commandInfo) w)
    = [EvSearchSymbols (searchSymbolsRequest commandInfo) (Ok types);
       EvShowQuickPickSymbols [noResultItem] placeHolder answer]
    /\ label noResultItem = "No result found"
    /\ payload noResultItem = None
    /\ (forall p r, ~ In (EvMoveRequest p r)
                      (trace (moveStaticMember host params (Some commandInfo) w))).
Proof.
  intros World host params commandInfo w w1 types Hanswer Hempty placeHolder answer.
  assert (Hitems : candidateItems (excludeOf commandInfo) types = [noResultItem])
    by (destruct Hempty as [-> | ->]; reflexivity).
  assert (Htrace :
    trace (moveStaticMember host params (Some commandInfo) w)
    = [EvSearchSymbols (searchSymbolsRequest commandInfo) (Ok types);
       EvShowQuickPickSymbols [noResultItem] placeHolder answer]).
  { unfold moveStaticMember.
    rewrite trace_bind, run_call, Hanswer. cbn [fst snd outcome finalWorld trace].
    rewrite trace_bind, run_call, Hitems. cbn [fst snd outcome finalWorld trace map].
    fold placeHolder. fold answer.
    destruct answer as [[[|[|i]]|]|e]; reflexivity. }
  rewrite Htrace. repeat split.
  intros p r [Hin|[Hin|[]]]; discriminate.
Qed.

Lemma moveStaticMember_no_result_witness :
  trace (moveStaticMember nodeHost someParams (Some methodInfo) noSymbolsScript)
  = [EvSearchSymbols (searchSymbolsRequest methodInfo) (Ok (Some []));
     EvShowQuickPickSymbols [noResultItem]
       (staticMemberPlaceHolder (Some methodInfo)) (Ok (Some 0))]
  /\ label noResultItem = "No result found"
  /\ payload noResultItem = None
  /\ (forall p r, ~ In (EvMoveRequest p r)
        (trace (moveStaticMember nodeHost someParams (Some methodInfo)
                  noSymbolsScript))).
Proof.
  apply (moveStaticMember_no_result Script nodeHost someParams methodInfo
           noSymbolsScript noSymbolsScript (Some []));
    [reflexivity | right; reflexivity].
Defined.

(** What [excludeOf] holds: the enclosing type name, and the member's own
    qualified name exactly when [memberType] is 55 or 81, or a property
    spelled [memeberType] is 71. *)
Lemma excludeOf_spec (commandInfo : JsObject) :
  truthy (prop commandInfo "enclosingTypeName") = true ->
  excludeOf commandInfo
  = prop commandInfo "enclosingTypeName"
    :: (if strictEqNum (prop commandInfo "memberType") 55
           || strictEqNum (prop commandInfo "memeberType") 71
           || strictEqNum (prop commandInfo "memberType") 81
        then [JStr (toString (prop commandInfo "enclosingTypeName") +:+ "."
                      +:+ toString (prop commandInfo "displayName"))]
        else []).
Proof.
  intros Henclosing. unfold excludeOf. rewrite Henclosing.
  now destruct (_ || _ || _).
Qed.

(** For a member of declaration kind 55 the enclosing type and the member
    itself are both left out of the picker. *)
Example moveStaticMember_type_member_excluded :
  trace (moveStaticMember nodeHost someParams (Some typeMemberInfo)
           threeSymbolsScript)
  = [EvSearchSymbols (mkSearchSymbolParams "*" JUndefined true)
       (Ok (Some [symbolPalette; symbolColor; symbolBrush]));
     EvShowQuickPickSymbols [symbolItem symbolBrush]
       "Select the new class for the static member Color." (Ok None)].
Proof. vm_compute. reflexivity. Qed.

(** C4, at a failing input: for a member of declaration kind 71 (Enum) the
    enclosing type is left out, but the member's own qualified name
    [app.Palette.Color] stays among the candidates, because the kind is read
    from [memberType] for 55 and 81 and from [memeberType] for 71. *)
Theorem moveStaticMember_enum_member_not_excluded :
  excludeOf enumMemberInfo = [JStr "app.Palette"]
  /\ trace (moveStaticMember nodeHost someParams (Some enumMemberInfo)
              threeSymbolsScript)
     = [EvSearchSymbols (mkSearchSymbolParams "*" JUndefined true)
          (Ok (Some [symbolPalette; symbolColor; symbolBrush]));
        EvShowQuickPickSymbols [symbolItem symbolBrush; symbolItem symbolColor]
          "Select the new class for the static member Color." (Ok None)]
  /\ qualifiedName symbolColor = "app.Palette.Color".
Proof. vm_compute. repeat split. Qed.

(** *** The shape of a moveFile run *)

Section Runs.

Context {World : Type} (host : Host World).

Lemma splitDuplicated_spec w dir fileUris duplicatedFiles moveUris :
  splitDuplicated host w dir fileUris duplicatedFiles moveUris
  = (duplicatedFiles
       ++ map getFileNameFromUri (List.filter (collides host w dir) fileUris),
     moveUris
       ++ List.filter (fun uri => negb (collides host w dir uri)) fileUris).
Proof.
  revert duplicatedFiles moveUris.
  induction fileUris as [|uri rest IH]; intros duplicatedFiles moveUris; simpl.
  - now rewrite !app_nil_r.
  - change (existsSync host (path_join host dir (getFileNameFromUri uri)) w)
      with (collides host w dir uri).
    destruct (collides host w dir uri); rewrite IH; simpl;
      now rewrite <- app_assoc.
Qed.

Lemma withoutDuplicates_run fileUris packageNode dir w :
  destinationDirectory host packageNode = Some dir ->
  withoutDuplicates host fileUris packageNode w
  = (Ok (match movableIn host w dir fileUris with
         | [] => None
         | _ => Some (movableIn host w dir fileUris)
         end),
     w,
     match duplicatesIn host w dir fileUris with
     | [] => []
     | _ => [EvShowWarningMessage
               (duplicatedWarning
                  (map getFileNameFromUri (duplicatesIn host w dir fileUris))
                  (pn_displayName packageNode))]
     end).
Proof.
  intros Hdir. unfold withoutDuplicates. rewrite Hdir.
  unfold bind, getWorld. rewrite splitDuplicated_spec. simpl.
  fold (duplicatesIn host w dir fileUris). fold (movableIn host w dir fileUris).
  destruct (duplicatesIn host w dir fileUris), (movableIn host w dir fileUris); reflexivity.
Qed.

Lemma withoutDuplicates_run_none fileUris packageNode w :
  destinationDirectory host packageNode = None ->
  withoutDuplicates host fileUris packageNode w = (Ok (Some fileUris), w, []).
Proof. intros Hdir. unfold withoutDuplicates. now rewrite Hdir. Qed.

Lemma withoutDuplicates_events fileUris packageNode w :
  Forall (fun ev => isSelection ev = true)
    (trace (withoutDuplicates host fileUris packageNode w)).
Proof.
  destruct (destinationDirectory host packageNode) as [dir|] eqn:Hdir.
  - rewrite (withoutDuplicates_run _ _ dir w Hdir). unfold trace; simpl.
    destruct (duplicatesIn host w dir fileUris); repeat constructor.
  - rewrite (withoutDuplicates_run_none _ _ w Hdir). constructor.
Qed.

Lemma saveAll_events files w :
  Forall (fun ev => isSaving ev = true) (trace (saveAll host files w)).
Proof.
  revert w. induction files as [|fileUri rest IH]; intros w; simpl.
  - constructor.
  - rewrite trace_bind, run_call. cbn [fst snd outcome finalWorld trace].
    cbn [app]. constructor; [reflexivity|].
    destruct (openTextDocument host _ w) as [[[document|]|e] w1];
      cbn [fst snd]; [| apply IH | constructor].
    rewrite trace_bind, run_call. cbn [fst snd outcome finalWorld trace].
    cbn [app]. constructor; [reflexivity|].
    destruct (save host document w1) as [[saved|e] w2]; cbn [fst snd];
      [apply IH | constructor].
Qed.

Lemma saveEdit_events edit w :
  Forall (fun ev => isSaving ev = true) (trace (saveEdit host edit w)).
Proof.
  destruct edit as [e|]; simpl; [apply saveAll_events | constructor].
Qed.

Lemma applyRefactorEdit_events refactorEdit w :
  Forall (fun ev => isApplying ev = true)
    (trace (applyRefactorEdit host refactorEdit w)).
Proof.
  destruct refactorEdit as [r|]; simpl; [|constructor].
  destruct (nonEmpty (errorMessage r)) as [message|]; [repeat constructor|].
  rewrite trace_bind. apply Forall_app. split.
  - destruct (edit r) as [e|]; [|constructor].
    destruct (asWorkspaceEdit host e) as [e'|]; [|constructor].
    rewrite trace_bind, run_call. cbn [fst snd outcome finalWorld trace].
    constructor; [reflexivity|]. now destruct (fst (applyEdit host e' w)).
  - match goal with |- context [outcome ?X] => destruct (outcome X) end;
      [|constructor].
    destruct (command r) as [c|]; [|constructor].
    destruct (cmd_arguments c) as [args|]; rewrite run_call; repeat constructor.
Qed.

Lemma applyAndSave_events refactorEdit w :
  Forall (fun ev => isMoveRequest ev = false)
    (trace (applyAndSave host refactorEdit w)).
Proof.
  unfold applyAndSave. rewrite trace_bind. apply Forall_app. split.
  - eapply List.Forall_impl; [|apply applyRefactorEdit_events].
    now intros [].
  - match goal with |- context [outcome ?X] => destruct (outcome X) end;
      [|constructor].
    destruct refactorEdit as [r|]; [|constructor].
    destruct (edit r) as [e|]; [|constructor].
    eapply List.Forall_impl; [|apply saveEdit_events].
    now intros [].
Qed.

(** A run of [moveFile] either stays in the selection phase, or sends one
    move request and goes on with [applyAndSave] on its answer. *)
Lemma moveFile_shape (fileUris : list Uri) (w : World) :
  Forall (fun ev => isSelection ev = true) (trace (moveFile host fileUris w))
  \/ exists pre p answer w3,
       Forall (fun ev => isSelection ev = true) pre
       /\ trace (moveFile host fileUris w)
          = pre ++ EvMoveRequest p answer
                :: match answer with
                   | Ok refactorEdit => trace (applyAndSave host refactorEdit w3)
                   | Throw _ => []
                   end.
Proof.
  unfold moveFile.
  destruct (hasCommonParent host (Some fileUris)); cbn [negb];
    [|left; repeat constructor].
  rewrite trace_bind, run_call. cbn [fst snd outcome finalWorld trace].
  destruct (sendGetMoveDestinations host _ w) as [[md|e] w1];
    cbn [fst snd]; [|left; repeat constructor].
  destruct (availableDestinations md) as [destinations|];
    [|left; repeat constructor].
  rewrite trace_bind, run_call. cbn [fst snd outcome finalWorld trace].
  destruct (showQuickPick host _ _ w1) as [[picked|e] w2];
    cbn [fst snd]; [|left; repeat constructor].
  destruct (chosen _ picked) as [item|]; [|left; repeat constructor].
  rewrite trace_bind.
  pose proof (withoutDuplicates_events fileUris (payload item) w2) as Hevents.
  destruct (withoutDuplicates host fileUris (payload item) w2)
    as [[[[remaining|]|e] w3] warnings]; cbn [fst snd outcome finalWorld trace] in *.
  - right. rewrite trace_bind, run_call. cbn [fst snd outcome finalWorld trace].
    eexists (_ :: _ :: warnings), _, (fst (sendMoveRequest host _ w3)), _.
    split; cycle 1.
    + cbn [app]. do 2 f_equal.
    + constructor; [reflexivity|]. constructor; [reflexivity|]. exact Hevents.
  - left. cbn [app trace ret snd]. constructor; [reflexivity|].
    constructor; [reflexivity|]. rewrite app_nil_r. exact Hevents.
  - left. cbn [app]. constructor; [reflexivity|]. constructor; [reflexivity|].
    rewrite app_nil_r. exact Hevents.
Qed.

End Runs.

(** *** applyRefactorEdit *)

Lemma nonEmpty_Some (o : option string) (s : string) :
  nonEmpty o = Some s <-> o = Some s /\ s <> "".
Proof.
  unfold nonEmpty. destruct o as [s'|]; [|split; [discriminate|intros [? _]; discriminate]].
  destruct (String.eqb_spec s' ""); split.
  - discriminate.
  - intros [[= ->] Hne]. contradiction.
  - intros [= ->]. auto.
  - now intros [[= ->] _].
Qed.

Section ApplyRefactorEdit.

Context {World : Type} (host : Host World).

Lemma applyRefactorEdit_error r message w :
  nonEmpty (errorMessage r) = Some message ->
  applyRefactorEdit host (Some r) w = (Ok tt, w, [EvShowErrorMessage message]).
Proof. intros Herror. unfold applyRefactorEdit. now rewrite Herror. Qed.

Lemma applyAndSave_error r message w :
  nonEmpty (errorMessage r) = Some message ->
  trace (applyAndSave host (Some r) w)
  = EvShowErrorMessage message :: trace (saveEdit host (edit r) w).
Proof.
  intros Herror. unfold applyAndSave.
  rewrite trace_bind, (applyRefactorEdit_error r message w Herror).
  cbn [fst snd outcome finalWorld trace app].
  now destruct (edit r).
Qed.

End ApplyRefactorEdit.

(** C8: for a result without error message that carries an edit and a
    follow-up command, once the converter has produced the editor's edit and
    the editor has applied it, the command is executed next, with the
    arguments of the result, or with none when the result carries none. *)
Theorem applyRefactorEdit_applies_then_executes :
  forall (World : Type) (host : Host World) (r : RefactorWorkspaceEdit)
         (e : WorkspaceEdit) (c : Command) (e' : CodeWorkspaceEdit)
         (w w1 : World) (applied : bool),
    nonEmpty (errorMessage r) = None ->
    edit r = Some e ->
    command r = Some c ->
    asWorkspaceEdit host e = Some e' ->
    applyEdit host e' w = (Ok applied, w1) ->
    let args := match cmd_arguments c with
                | Some args => args
                | None => []
                end in
    trace (applyRefactorEdit host (Some r) w)
    = [EvApplyEdit e' (Ok applied);
       EvExecuteCommand (cmd_command c) args
         (fst (executeCommand host (cmd_command c) args w1))].
Proof.
  intros World host r e c e' w w1 applied Hnoerror Hedit Hcommand Hconv Happly args.
  unfold applyRefactorEdit. rewrite Hnoerror, Hedit, Hcommand, Hconv.
  rewrite trace_bind, trace_bind, outcome_bind, finalWorld_bind, run_call, Happly.
  cbn [fst snd outcome finalWorld trace app ret].
  subst args. destruct (cmd_arguments c) as [args|]; now rewrite run_call.
Qed.

Lemma applyRefactorEdit_applies_then_executes_witness :
  trace (applyRefactorEdit nodeHost
           (Some (mkRefactorWorkspaceEdit (Some editOfA) (Some organizeImports) None))
           idleScript)
  = [EvApplyEdit (mkCodeWorkspaceEdit editOfA) (Ok true);
     EvExecuteCommand "java.action.organizeImports"
       [JStr "file:///work/src/a/A.java"] (Ok tt)].
Proof.
  apply (applyRefactorEdit_applies_then_executes Script nodeHost
           (mkRefactorWorkspaceEdit (Some editOfA) (Some organizeImports) None)
           editOfA organizeImports (mkCodeWorkspaceEdit editOfA)
           idleScript idleScript true); reflexivity.
Defined.

(** *** Error messages *)

(** C1 fails in the move-file flow: the answer to the move request carries
    an error message and an edit; the message is shown, the edit is not
    applied, and the document the edit touches is then opened and saved. *)
Lemma moveFile_saves_after_error_message :
  errorMessage failedMove = Some "Cannot move A.java"
  /\ trace (moveFile nodeHost [fileA] failedMoveScript)
     = [EvGetMoveDestinations (moveDestinationsRequest [fileA])
          (Ok (Some (mkMoveDestinationsResponse None (Some [packageB]))));
        EvShowQuickPickPackages [packageNodeItem nodeHost packageB]
          "Choose the target package for A.java." (Ok (Some 0));
        EvMoveRequest (moveResourceRequest [fileA] packageB) (Ok (Some failedMove));
        EvShowErrorMessage "Cannot move A.java";
        EvOpenTextDocument fileA (Ok (Some (mkTextDocument fileA "")));
        EvSave (mkTextDocument fileA "") (Ok true)].
Proof. vm_compute. split; reflexivity. Qed.

(** C1, amended: a result with a non-empty error message makes
    [applyRefactorEdit] show that message and do nothing else.  In a run of
    [moveFile] whose move request got such a result, the request is followed
    by the message and then by the save step on the result's edit: no edit
    is applied, no command is executed, and nothing is saved when the result
    carries no edit. *)
Theorem error_message_is_shown_and_nothing_applied :
  forall (World : Type) (host : Host World) (r : RefactorWorkspaceEdit)
         (message : string),
    errorMessage r = Some message ->
    message <> "" ->
    (forall w, applyRefactorEdit host (Some r) w
               = (Ok tt, w, [EvShowErrorMessage message]))
    /\ (forall fileUris w p,
          In (EvMoveRequest p (Ok (Some r))) (trace (moveFile host fileUris w)) ->
          exists pre w3,
            trace (moveFile host fileUris w)
            = pre ++ [EvMoveRequest p (Ok (Some r)); EvShowErrorMessage message]
                  ++ trace (saveEdit host (edit r) w3)
            /\ Forall (fun ev => isSelection ev = true) pre
            /\ Forall (fun ev => isSaving ev = true)
                 (trace (saveEdit host (edit r) w3))
            /\ (edit r = None -> trace (saveEdit host (edit r) w3) = [])).
Proof.
  intros World host r message Hmessage Hnonempty.
  assert (Herror : nonEmpty (errorMessage r) = Some message)
    by now apply nonEmpty_Some.
  split; [intros w; now apply applyRefactorEdit_error|].
  intros fileUris w p Hin.
  destruct (moveFile_shape host fileUris w)
    as [Hselection | (pre & p' & answer & w3 & Hpre & Htrace)].
  - rewrite List.Forall_forall in Hselection. now apply Hselection in Hin.
  - rewrite Htrace in Hin. apply in_app_or in Hin.
    destruct Hin as [Hin | [Heq | Hin]].
    + rewrite List.Forall_forall in Hpre. now apply Hpre in Hin.
    + injection Heq as -> ->. exists pre, w3.
      rewrite Htrace, (applyAndSave_error host r message w3 Herror).
      repeat split; [exact Hpre | apply saveEdit_events | now intros ->].
    + exfalso. destruct answer as [refactorEdit|e]; [|destruct Hin].
      pose proof (applyAndSave_events host refactorEdit w3) as Hnone.
      rewrite List.Forall_forall in Hnone. now apply Hnone in Hin.
Qed.

Lemma error_message_is_shown_and_nothing_applied_witness :
  applyRefactorEdit nodeHost (Some failedMove) idleScript
  = (Ok tt, idleScript, [EvShowErrorMessage "Cannot move A.java"])
  /\ exists pre w3,
       trace (moveFile nodeHost [fileA] failedMoveScript)
       = pre ++ [EvMoveRequest (moveResourceRequest [fileA] packageB)
                   (Ok (Some failedMove));
                 EvShowErrorMessage "Cannot move A.java"]
             ++ trace (saveEdit nodeHost (edit failedMove) w3)
       /\ Forall (fun ev => isSelection ev = true) pre
       /\ Forall (fun ev => isSaving ev = true)
            (trace (saveEdit nodeHost (edit failedMove) w3))
       /\ (edit failedMove = None
           -> trace (saveEdit nodeHost (edit failedMove) w3) = []).
Proof.
  destruct (error_message_is_shown_and_nothing_applied Script nodeHost failedMove
              "Cannot move A.java") as [Happly Hmove];
    [reflexivity | discriminate |].
  split; [apply Happly|].
  apply Hmove. vm_compute. auto.
Defined.

(** *** The set of touched files *)

Lemma Set_has_In (x : string) (s : list string) : Set_has x s = true <-> In x s.
Proof.
  unfold Set_has. rewrite existsb_exists. split.
  - intros (y & Hin & Heq). apply String.eqb_eq in Heq. now subst.
  - intros Hin. exists x. split; [exact Hin | apply String.eqb_refl].
Qed.

Lemma Set_has_false (x : string) (s : list string) :
  Set_has x s = false <-> ~ In x s.
Proof.
  rewrite <- Set_has_In. destruct (Set_has x s); split; congruence.
Qed.

Lemma In_Set_add (x y : string) (s : list string) :
  In y (Set_add x s) <-> y = x \/ In y s.
Proof.
  unfold Set_add. destruct (Set_has x s) eqn:Hhas.
  - apply Set_has_In in Hhas. split; [auto|]. now intros [->|].
  - rewrite List.in_app_iff. simpl. intuition.
Qed.

Lemma In_Set_delete (x y : string) (s : list string) :
  In y (Set_delete x s) <-> In y s /\ y <> x.
Proof.
  unfold Set_delete. rewrite List.filter_In, negb_true_iff, String.eqb_neq.
  intuition.
Qed.

Lemma NoDup_Set_add (x : string) (s : list string) :
  List.NoDup s -> List.NoDup (Set_add x s).
Proof.
  intros Hs. unfold Set_add. destruct (Set_has x s) eqn:Hhas; [exact Hs|].
  apply Set_has_false in Hhas.
  apply List.NoDup_app; [exact Hs | repeat constructor; intros [] |].
  intros y Hy [<-|[]]. contradiction.
Qed.

Lemma NoDup_Set_delete (x : string) (s : list string) :
  List.NoDup s -> List.NoDup (Set_delete x s).
Proof. apply List.NoDup_filter. Qed.

Lemma touchStep_NoDup (T : list string) (change : DocumentChange) :
  List.NoDup T -> List.NoDup (touchStep T change).
Proof.
  intros HT. destruct change as [u v edits|u|oldUri newUri|u]; simpl;
    try destruct (Set_has _ T); auto using NoDup_Set_add, NoDup_Set_delete.
Qed.

Lemma touchStep_In (T : list string) (change : DocumentChange) (u : string) :
  In u (touchStep T change) -> In u T \/ adds u change = true.
Proof.
  destruct change as [v ver edits|v|oldUri newUri|v]; simpl;
    try destruct (Set_has _ T); auto.
  - rewrite In_Set_add. intros [->|Hin]; [right; apply String.eqb_refl | now left].
  - rewrite In_Set_add, In_Set_delete.
    intros [->|[Hin _]]; [right; apply String.eqb_refl | now left].
  - rewrite In_Set_delete. intros [Hin _]. now left.
Qed.

Lemma touchStep_keeps (T : list string) (change : DocumentChange) (u : string) :
  removes u change = false -> In u T -> In u (touchStep T change).
Proof.
  destruct change as [v ver edits|v|oldUri newUri|v]; simpl;
    try destruct (Set_has _ T); auto; intros Hremoves Hin.
  - apply In_Set_add. now right.
  - apply In_Set_add. right. apply In_Set_delete. split; [exact Hin|].
    intros ->. now rewrite String.eqb_refl in Hremoves.
  - apply In_Set_delete. split; [exact Hin|].
    intros ->. now rewrite String.eqb_refl in Hremoves.
Qed.

Lemma touchStep_stays_out (T : list string) (change : DocumentChange) (u : string) :
  adds u change = false -> ~ In u T -> ~ In u (touchStep T change).
Proof.
  intros Hadds Hout Hin. apply touchStep_In in Hin.
  destruct Hin as [Hin|Hin]; [contradiction | congruence].
Qed.

Lemma fold_touchStep_NoDup (dcs : list DocumentChange) (T : list string) :
  List.NoDup T -> List.NoDup (fold_left touchStep dcs T).
Proof.
  revert T. induction dcs as [|c dcs IH]; simpl; auto using touchStep_NoDup.
Qed.

Lemma fold_touchStep_In (dcs : list DocumentChange) (T : list string) (u : string) :
  In u (fold_left touchStep dcs T) ->
  In u T \/ exists change, In change dcs /\ adds u change = true.
Proof.
  revert T. induction dcs as [|c dcs IH]; simpl; intros T Hin; [now left|].
  apply IH in Hin. destruct Hin as [Hin|(change & Hchange & Hadds)].
  - apply touchStep_In in Hin. destruct Hin; eauto.
  - eauto.
Qed.

Lemma fold_touchStep_keeps (dcs : list DocumentChange) (T : list string) (u : string) :
  Forall (fun change => removes u change = false) dcs ->
  In u T -> In u (fold_left touchStep dcs T).
Proof.
  intros Hall. revert T.
  induction Hall as [|c dcs Hc Hall IH]; simpl; intros T Hin; [exact Hin|].
  now apply IH, touchStep_keeps.
Qed.

Lemma fold_touchStep_stays_out (dcs : list DocumentChange) (T : list string)
    (u : string) :
  Forall (fun change => adds u change = false) dcs ->
  ~ In u T -> ~ In u (fold_left touchStep dcs T).
Proof.
  intros Hall. revert T.
  induction Hall as [|c dcs Hc Hall IH]; simpl; intros T Hout; [exact Hout|].
  now apply IH, touchStep_stays_out.
Qed.

Lemma changedFiles_spec (edit : WorkspaceEdit) :
  List.NoDup (changedFiles edit)
  /\ forall u, In u (changedFiles edit)
               <-> exists cs, changes edit = Some cs /\ In u (map fst cs).
Proof.
  unfold changedFiles. destruct (changes edit) as [cs|].
  - assert (Hfold : forall T : list string,
               List.NoDup T ->
               List.NoDup (fold_left (fun s kv => Set_add (fst kv) s) cs T)
               /\ forall u, In u (fold_left (fun s kv => Set_add (fst kv) s) cs T)
                            <-> In u T \/ In u (map fst cs)).
    { induction cs as [|kv cs IH]; simpl; intros T HT.
      - split; [exact HT | intuition].
      - destruct (IH (Set_add (fst kv) T) (NoDup_Set_add _ _ HT)) as [Hnodup Hin].
        split; [exact Hnodup|]. intros u. rewrite Hin, In_Set_add. intuition. }
    destruct (Hfold [] (List.NoDup_nil _)) as [Hnodup Hin].
    split; [exact Hnodup|]. intros u. rewrite Hin. simpl. split.
    + intros [[]|Hu]. eauto.
    + intros (cs' & [= <-] & Hu). now right.
  - split; [constructor|]. intros u; simpl. split; [intros []|].
    intros (cs & Hcs & _). discriminate.
Qed.

Lemma changedFiles_keys (edit : WorkspaceEdit) (u : string) :
  In u (changedFiles edit) <-> In u (changeKeys edit).
Proof.
  destruct (changedFiles_spec edit) as [_ Hchanged]. rewrite Hchanged.
  unfold changeKeys. destruct (changes edit) as [cs|]; split.
  - now intros (cs' & [= <-] & Hu).
  - eauto.
  - intros (cs' & Hcs & _). discriminate.
  - intros [].
Qed.

(** What one change does to the membership of a URI. *)
Lemma touchStep_In_iff (T : list string) (change : DocumentChange) (u : string) :
  In u (touchStep T change)
  <-> (exists version edits, change = TextDocumentEdit u version edits)
      \/ (exists oldUri, change = RenameFile oldUri u /\ In oldUri T)
      \/ (In u T /\ removes u change = false).
Proof.
  destruct change as [v ver edits|v|oldUri newUri|v]; simpl.
  - rewrite In_Set_add. split.
    + intros [->|Hin]; [left; eauto | right; right; auto].
    + intros [(version & edits' & [= -> _ _])|[(oldUri & Habs & _)|[Hin _]]];
        [now left | discriminate | now right].
  - split; [intros Hin; right; right; auto|].
    intros [(version & edits' & Habs)|[(oldUri & Habs & _)|[Hin _]]];
      [discriminate | discriminate | exact Hin].
  - destruct (Set_has oldUri T) eqn:Hhas.
    + apply Set_has_In in Hhas. rewrite In_Set_add, In_Set_delete. split.
      * intros [->|[Hin Hne]]; [right; left; eauto|].
        right; right. split; [exact Hin|].
        apply String.eqb_neq. congruence.
      * intros [(version & edits' & Habs)|[(old & [= -> ->] & Hold)|[Hin Hne]]];
          [discriminate | now left |].
        right. split; [exact Hin|]. apply String.eqb_neq in Hne. congruence.
    + apply Set_has_false in Hhas. split.
      * intros Hin. right; right. split; [exact Hin|].
        apply String.eqb_neq. intros ->. contradiction.
      * intros [(version & edits' & Habs)|[(old & [= -> ->] & Hold)|[Hin _]]];
          [discriminate | contradiction | exact Hin].
  - destruct (Set_has v T) eqn:Hhas.
    + rewrite In_Set_delete. split.
      * intros [Hin Hne]. right; right. split; [exact Hin|].
        apply String.eqb_neq. congruence.
      * intros [(version & edits' & Habs)|[(old & Habs & _)|[Hin Hne]]];
          [discriminate | discriminate |].
        split; [exact Hin|]. apply String.eqb_neq in Hne. congruence.
    + apply Set_has_false in Hhas. split.
      * intros Hin. right; right. split; [exact Hin|].
        apply String.eqb_neq. intros ->. contradiction.
      * intros [(version & edits' & Habs)|[(old & Habs & _)|[Hin _]]];
          [discriminate | discriminate | exact Hin].
Qed.

(** The loop over the changes computes the set that [Touched] describes. *)
Lemma fold_touchStep_Touched (keys T : list string) (dcs : list DocumentChange) :
  (forall u, In u T <-> In u keys) ->
  forall u, In u (fold_left touchStep dcs T) <-> Touched keys dcs u.
Proof.
  intros Hkeys. induction dcs as [|change dcs IH] using rev_ind; intros u.
  - simpl. split.
    + intros Hin. now apply Touched_key, Hkeys.
    + intros Htouched. inversion Htouched as [v Hv| | |]; subst;
        try (now apply Hkeys);
        match goal with H : _ ++ [_] = [] |- _ =>
          now apply app_eq_nil in H as [_ H] end.
  - rewrite fold_left_app. simpl. rewrite touchStep_In_iff. split.
    + intros [(version & edits & ->)|[(oldUri & -> & Hold)|[Hin Hkeeps]]].
      * apply Touched_text.
      * now apply Touched_rename, IH.
      * apply Touched_keep; [now apply IH | exact Hkeeps].
    + intros Htouched. remember (dcs ++ [change]) as l eqn:Hl.
      destruct Htouched as [v Hv|dcs' v version edits|dcs' oldUri newUri Hold
                           |dcs' change' v Hv Hkeeps].
      * destruct dcs; discriminate.
      * apply List.app_inj_tail in Hl as [-> <-]. left; eauto.
      * apply List.app_inj_tail in Hl as [-> <-]. right; left.
        exists oldUri. split; [reflexivity | now apply IH].
      * apply List.app_inj_tail in Hl as [-> <-]. right; right.
        split; [now apply IH | exact Hkeeps].
Qed.

Lemma touchedFiles_Touched (edit : WorkspaceEdit) (u : string) :
  In u (touchedFiles edit)
  <-> Touched (changeKeys edit) (documentChangeList edit) u.
Proof.
  unfold touchedFiles, documentChangeList.
  destruct (documentChanges edit) as [dcs|].
  - apply fold_touchStep_Touched. apply changedFiles_keys.
  - apply (fold_touchStep_Touched (changeKeys edit) (changedFiles edit) []).
    apply changedFiles_keys.
Qed.

(** *** The save step *)

Section SaveEdit.

Context {World : Type} (host : Host World).

(** The loop opens the files in order until a call throws, and saves every
    document it gets. *)
Lemma saveAll_opens_and_saves (files : list string) (w : World) :
  (exists rest,
      map (Uri_parse host) files
      = openedUris (trace (saveAll host files w)) ++ rest
      /\ (outcome (saveAll host files w) = Ok tt -> rest = []))
  /\ savedDocuments (trace (saveAll host files w))
     = openedDocuments (trace (saveAll host files w)).
Proof.
  revert w. induction files as [|fileUri files IH]; intros w; simpl.
  - split; [exists []; auto | reflexivity].
  - rewrite trace_bind, outcome_bind, run_call.
    cbn [fst snd outcome finalWorld trace app].
    destruct (openTextDocument host _ w) as [[[document|]|e] w1]; cbn [fst snd].
    + rewrite trace_bind, outcome_bind, run_call.
      cbn [fst snd outcome finalWorld trace app].
      destruct (save host document w1) as [[saved|e] w2]; cbn [fst snd].
      * destruct (IH w2) as [(rest & Hrest & Hok) Hsaved].
        split; [exists rest; simpl; split; [now f_equal | exact Hok]|].
        simpl. now f_equal.
      * split; [|reflexivity].
        exists (map (Uri_parse host) files). simpl. split; [reflexivity|discriminate].
    + destruct (IH w1) as [(rest & Hrest & Hok) Hsaved].
      split; [exists rest; simpl; split; [now f_equal | exact Hok]|].
      exact Hsaved.
    + split; [|reflexivity].
      exists (map (Uri_parse host) files). simpl. split; [reflexivity|discriminate].
Qed.

End SaveEdit.

(** C2 fails for a rename of a document that no earlier change touched: the
    edit consists of one rename, and the save step opens and saves
    nothing, the new URI included. *)
Lemma saveEdit_skips_rename_of_untouched_file :
  documentChanges renameOnlyEdit
  = Some [RenameFile "file:///work/src/a/A.java" "file:///work/src/b/A.java"]
  /\ touchedFiles renameOnlyEdit = []
  /\ saveEdit nodeHost (Some renameOnlyEdit) idleScript = (Ok tt, idleScript, []).
Proof. vm_compute. repeat split. Qed.

(** C2, amended: the save step opens, in order, the files of the set
    [touchedFiles] and saves every document it gets; it does nothing else.
    The set has no duplicates and is the set that [Touched] describes: it
    starts from the keys of [changes]; a text document edit puts its URI
    in; a rename whose old URI is in the set when it is reached puts the
    new URI in its place; a rename whose old URI is not in the set changes
    nothing; a delete takes its URI out; a create is ignored.  So a key of
    [changes] and the URI of a text document edit are in the set unless a
    later change deletes or renames them; every member is a key of
    [changes], the URI of a text document edit or the new URI of a rename;
    after a rename of a touched URI the new URI is a member unless a later
    change deletes or renames it, and the old URI is no member unless a
    later change adds it again; a deleted URI is no member unless a later
    change adds it again. *)
Theorem saveEdit_saves_touchedFiles :
  forall (World : Type) (host : Host World) (e : WorkspaceEdit) (w : World),
    let t := trace (saveEdit host (Some e) w) in
    let keys := changeKeys e in
    (exists rest,
        map (Uri_parse host) (touchedFiles e) = openedUris t ++ rest
        /\ (outcome (saveEdit host (Some e) w) = Ok tt -> rest = []))
    /\ savedDocuments t = openedDocuments t
    /\ Forall (fun ev => isSaving ev = true) t
    /\ List.NoDup (touchedFiles e)
    /\ (forall u, In u (touchedFiles e) <-> Touched keys (documentChangeList e) u)
    /\ (forall u, In u keys ->
          Forall (fun change => removes u change = false) (documentChangeList e) ->
          In u (touchedFiles e))
    /\ (forall before u version edits after,
          documentChanges e
          = Some (before ++ TextDocumentEdit u version edits :: after) ->
          Forall (fun change => removes u change = false) after ->
          In u (touchedFiles e))
    /\ (forall u, In u (touchedFiles e) ->
          In u keys
          \/ (exists dcs change, documentChanges e = Some dcs
                /\ In change dcs /\ adds u change = true))
    /\ (forall before oldUri newUri after,
          documentChanges e = Some (before ++ RenameFile oldUri newUri :: after) ->
          (~ Touched keys before oldUri ->
           forall u, In u (touchedFiles e) <-> Touched keys (before ++ after) u)
          /\ (Touched keys before oldUri ->
              Forall (fun change => removes newUri change = false) after ->
              In newUri (touchedFiles e))
          /\ (oldUri <> newUri ->
              Forall (fun change => adds oldUri change = false) after ->
              ~ In oldUri (touchedFiles e)))
    /\ (forall before u after,
          documentChanges e = Some (before ++ DeleteFile u :: after) ->
          Forall (fun change => adds u change = false) after ->
          ~ In u (touchedFiles e)).
Proof.
  intros World host e w t keys.
  destruct (saveAll_opens_and_saves host (touchedFiles e) w) as [Hopened Hsaved].
  destruct (changedFiles_spec e) as [Hnodup _].
  repeat match goal with |- _ /\ _ => split end.
  - exact Hopened.
  - exact Hsaved.
  - apply saveEdit_events.
  - unfold touchedFiles. destruct (documentChanges e); [|exact Hnodup].
    now apply fold_touchStep_NoDup.
  - intros u. apply touchedFiles_Touched.
  - intros u Hkey Hkeeps. unfold touchedFiles, documentChangeList in *.
    apply changedFiles_keys in Hkey.
    destruct (documentChanges e) as [dcs|]; [|exact Hkey].
    now apply fold_touchStep_keeps.
  - intros before u version edits after Hdcs Hkeeps.
    unfold touchedFiles. rewrite Hdcs, fold_left_app. simpl.
    apply fold_touchStep_keeps; [exact Hkeeps|].
    apply In_Set_add. now left.
  - intros u. unfold touchedFiles.
    destruct (documentChanges e) as [dcs|];
      [|intros Hu; left; now apply changedFiles_keys].
    intros Hu. apply fold_touchStep_In in Hu.
    destruct Hu as [Hu|(change & Hchange & Hadds)];
      [left; now apply changedFiles_keys|].
    right. eauto.
  - intros before oldUri newUri after Hdcs.
    pose proof (fold_touchStep_Touched keys (changedFiles e) before
                  (changedFiles_keys e) oldUri) as Hold.
    unfold touchedFiles. rewrite Hdcs, fold_left_app.
    set (T := fold_left touchStep before (changedFiles e)) in *. simpl.
    split; [|split].
    + intros Hout u. rewrite <- Hold in Hout. apply Set_has_false in Hout.
      rewrite Hout.
      rewrite <- (fold_touchStep_Touched keys (changedFiles e) (before ++ after)
                    (changedFiles_keys e) u), fold_left_app.
      reflexivity.
    + intros Hin Hkeeps. apply fold_touchStep_keeps; [exact Hkeeps|].
      apply Hold, Set_has_In in Hin. rewrite Hin. apply In_Set_add. now left.
    + intros Hne Hout. apply fold_touchStep_stays_out; [exact Hout|].
      destruct (Set_has oldUri T) eqn:Hhas.
      * rewrite In_Set_add, In_Set_delete. intuition.
      * now apply Set_has_false.
  - intros before u after Hdcs Hout.
    unfold touchedFiles. rewrite Hdcs, fold_left_app. simpl.
    apply fold_touchStep_stays_out; [exact Hout|].
    destruct (Set_has u _) eqn:Hhas.
    + rewrite In_Set_delete. intuition.
    + now apply Set_has_false.
Qed.

(** The edit [moveAEdit] edits A.java, renames it into the package b and
    edits C.java: the new URI and C.java are opened and saved, the old URI is
    not. *)
Lemma saveEdit_saves_touchedFiles_witness :
  In "file:///work/src/b/A.java" (touchedFiles moveAEdit)
  /\ In "file:///work/src/c/C.java" (touchedFiles moveAEdit)
  /\ ~ In "file:///work/src/a/A.java" (touchedFiles moveAEdit)
  /\ map scriptedParse (touchedFiles moveAEdit)
     = openedUris (trace (saveEdit nodeHost (Some moveAEdit) idleScript)).
Proof.
  destruct (saveEdit_saves_touchedFiles Script nodeHost moveAEdit idleScript)
    as ((rest & Hopened & Hok) & _ & _ & _ & _ & _ & Htext & _ & Hrename & _).
  destruct (Hrename [TextDocumentEdit "file:///work/src/a/A.java" None []]
              "file:///work/src/a/A.java" "file:///work/src/b/A.java"
              [TextDocumentEdit "file:///work/src/c/C.java" None []] eq_refl)
    as (_ & Hnew & Hold).
  split; [|split; [|split]].
  - apply Hnew; [apply (Touched_text _ []) | repeat constructor].
  - apply (Htext [TextDocumentEdit "file:///work/src/a/A.java" None [];
                  RenameFile "file:///work/src/a/A.java" "file:///work/src/b/A.java"]
             "file:///work/src/c/C.java" None [] [] eq_refl).
    constructor.
  - apply Hold; [discriminate | repeat constructor].
  - change (Uri_parse nodeHost) with scriptedParse in Hopened.
    rewrite Hopened, (Hok eq_refl). apply app_nil_r.
Defined.

(** *** Colliding file names *)

Section Collisions.

Context {World : Type} (host : Host World).

Lemma moveFile_after_pick fileUris w w2 item :
  picksPackage host fileUris w w2 item ->
  exists moveDestinations items picked,
    chosen items picked = Some item
    /\ trace (moveFile host fileUris w)
       = [EvGetMoveDestinations (moveDestinationsRequest fileUris)
            (Ok moveDestinations);
          EvShowQuickPickPackages items (moveFilePlaceHolder fileUris) (Ok picked)]
         ++ trace ((remaining <- withoutDuplicates host fileUris (payload item) ;;
                    match remaining with
                    | None => ret tt
                    | Some fileUris =>
                        let move := moveResourceRequest fileUris (payload item) in
                        refactorEdit <- call (sendMoveRequest host move)
                                             (EvMoveRequest move) ;;
                        applyAndSave host refactorEdit
                    end) w2).
Proof.
  intros (Hcommon & md & w1 & destinations & picked & Hmd & Havailable & Hpick & Hchosen).
  exists md, (map (packageNodeItem host) destinations), picked.
  split; [exact Hchosen|].
  unfold moveFile. rewrite Hcommon. cbn [negb].
  rewrite trace_bind, run_call, Hmd. cbn [fst snd outcome finalWorld trace].
  rewrite Havailable.
  rewrite trace_bind, run_call, Hpick. cbn [fst snd outcome finalWorld trace].
  now rewrite Hchosen.
Qed.

End Collisions.

(** C3 fails when the chosen package node carries no URI: A.java is in the
    directory of the package, yet it is not looked for; no warning is shown
    and the move request carries A.java. *)
Lemma moveFile_moves_colliding_file_without_uri :
  pn_uri packageWithoutUri = None
  /\ existsSync nodeHost
       (path_join nodeHost (pn_path packageWithoutUri) (getFileNameFromUri fileA))
       packageWithoutUriScript = true
  /\ trace (moveFile nodeHost [fileA] packageWithoutUriScript)
     = [EvGetMoveDestinations (moveDestinationsRequest [fileA])
          (Ok (Some (mkMoveDestinationsResponse None (Some [packageWithoutUri]))));
        EvShowQuickPickPackages [packageNodeItem nodeHost packageWithoutUri]
          "Choose the target package for A.java." (Ok (Some 0));
        EvMoveRequest
          (mkMoveParams "moveResource" ["file:///work/src/a/A.java"] None
             (DestPackage packageWithoutUri) (Some true)) (Ok None)].
Proof. vm_compute. repeat split. Qed.

(** C3, amended: once a package is chosen, what follows the picker depends
    on the chosen node.  When it has a URI with a file-system path, the
    selected files whose name exists in that directory are left out: one
    warning lists the names of exactly these files (no warning when there
    is none), and then comes the only move request of the run, whose
    sources are exactly the other selected files, in their order (no
    request when there is none).  When the node has no URI, or its URI has
    no file-system path, nothing is looked for: no warning is shown and the
    move request carries every selected file. *)
Theorem moveFile_skips_colliding_files :
  forall (World : Type) (host : Host World) (fileUris : list Uri) (w w2 : World)
         (item : QuickPickItem PackageNode),
    picksPackage host fileUris w w2 item ->
    exists moveDestinations items picked rest,
      chosen items picked = Some item
      /\ trace (moveFile host fileUris w)
         = [EvGetMoveDestinations (moveDestinationsRequest fileUris)
              (Ok moveDestinations);
            EvShowQuickPickPackages items (moveFilePlaceHolder fileUris) (Ok picked)]
           ++ rest
      /\ (forall dir,
            destinationDirectory host (payload item) = Some dir ->
            exists warnings requests,
              rest = warnings ++ requests
              /\ (duplicatesIn host w2 dir fileUris = [] -> warnings = [])
              /\ (duplicatesIn host w2 dir fileUris <> [] ->
                  warnings
                  = [EvShowWarningMessage
                       ("The files '"
                          +:+ join "," (map getFileNameFromUri
                                          (duplicatesIn host w2 dir fileUris))
                          +:+ "' already exist in the package '"
                          +:+ pn_displayName (payload item)
                          +:+ "'. The move operation will ignore them.")])
              /\ (movableIn host w2 dir fileUris = [] -> requests = [])
              /\ (movableIn host w2 dir fileUris <> [] ->
                  exists answer tail,
                    requests
                    = EvMoveRequest
                        (mkMoveParams "moveResource"
                           (map uri_toString (movableIn host w2 dir fileUris)) None
                           (DestPackage (payload item)) (Some true)) answer :: tail
                    /\ Forall (fun ev => isMoveRequest ev = false) tail))
      /\ (destinationDirectory host (payload item) = None ->
          exists answer tail,
            rest = EvMoveRequest
                     (mkMoveParams "moveResource" (map uri_toString fileUris) None
                        (DestPackage (payload item)) (Some true)) answer :: tail
            /\ Forall (fun ev => isMoveRequest ev = false) tail).
Proof.
  intros World host fileUris w w2 item Hpicks.
  destruct (moveFile_after_pick host fileUris w w2 item Hpicks)
    as (md & items & picked & Hchosen & Htrace).
  exists md, items, picked. eexists.
  split; [exact Hchosen|]. split; [exact Htrace|]. split.
  - intros dir Hdir. rewrite trace_bind.
    rewrite (withoutDuplicates_run host fileUris (payload item) dir w2 Hdir).
    cbn [fst snd outcome finalWorld trace].
    eexists. eexists. split; [reflexivity|]. split; [|split].
    + intros Hnone. now rewrite Hnone.
    + intros Hsome.
      destruct (duplicatesIn host w2 dir fileUris); [contradiction|reflexivity].
    + destruct (movableIn host w2 dir fileUris) as [|m ms] eqn:Hmovable.
      * split; [reflexivity | contradiction].
      * split; [discriminate|]. intros _.
        rewrite trace_bind, run_call. cbn [fst snd outcome finalWorld trace app].
        do 2 eexists. split; [reflexivity|].
        destruct (sendMoveRequest host _ w2) as [[refactorEdit|e] w3];
          cbn [fst snd]; [apply applyAndSave_events | constructor].
  - intros Hdir. rewrite trace_bind.
    rewrite (withoutDuplicates_run_none host fileUris (payload item) w2 Hdir).
    cbn [fst snd outcome finalWorld trace].
    rewrite trace_bind, run_call. cbn [fst snd outcome finalWorld trace app].
    do 2 eexists. split; [reflexivity|].
    destruct (sendMoveRequest host _ w2) as [[refactorEdit|e] w3];
      cbn [fst snd]; [apply applyAndSave_events | constructor].
Qed.

(** With Node's [path.relative], on the file A.java: when A.java is already
    in the chosen package b, the warning names it and nothing follows; when
    it is not, no warning is shown and the move request carries it. *)
Lemma moveFile_skips_colliding_files_witness :
  (exists moveDestinations items picked,
      chosen items picked = Some (packageNodeItem nodeHost packageB)
      /\ trace (moveFile nodeHost [fileA] collidingScript)
         = [EvGetMoveDestinations (moveDestinationsRequest [fileA])
              (Ok moveDestinations);
            EvShowQuickPickPackages items (moveFilePlaceHolder [fileA]) (Ok picked);
            EvShowWarningMessage
              "The files 'A.java' already exist in the package 'b'. The move operation will ignore them."])
  /\ (exists moveDestinations items picked answer tail,
        chosen items picked = Some (packageNodeItem nodeHost packageB)
        /\ trace (moveFile nodeHost [fileA] pickBScript)
           = [EvGetMoveDestinations (moveDestinationsRequest [fileA])
                (Ok moveDestinations);
              EvShowQuickPickPackages items (moveFilePlaceHolder [fileA]) (Ok picked);
              EvMoveRequest
                (mkMoveParams "moveResource" ["file:///work/src/a/A.java"] None
                   (DestPackage packageB) (Some true)) answer] ++ tail
        /\ Forall (fun ev => isMoveRequest ev = false) tail).
Proof.
  split.
  - destruct (moveFile_skips_colliding_files Script nodeHost [fileA]
                collidingScript collidingScript (packageNodeItem nodeHost packageB))
      as (md & items & picked & rest & Hchosen & Htrace & Hdir & _).
    { split; [reflexivity|].
      exists (Some (mkMoveDestinationsResponse None (Some [packageB]))),
        collidingScript, [packageB], (Some 0).
      repeat split. }
    destruct (Hdir "/work/src/b" eq_refl)
      as (warnings & requests & Hrest & _ & Hwarnings & Hrequests & _).
    exists md, items, picked. split; [exact Hchosen|].
    rewrite Htrace, Hrest, Hwarnings, Hrequests;
      [reflexivity | reflexivity | vm_compute; discriminate].
  - destruct (moveFile_skips_colliding_files Script nodeHost [fileA]
                pickBScript pickBScript (packageNodeItem nodeHost packageB))
      as (md & items & picked & rest & Hchosen & Htrace & Hdir & _).
    { split; [reflexivity|].
      exists (Some (mkMoveDestinationsResponse None (Some [packageB]))),
        pickBScript, [packageB], (Some 0).
      repeat split. }
    destruct (Hdir "/work/src/b" eq_refl)
      as (warnings & requests & Hrest & Hwarnings & _ & _ & Hrequests).
    destruct Hrequests as (answer & tail & Hrequests & Htail);
      [vm_compute; discriminate|].
    exists md, items, picked, answer, tail. split; [exact Hchosen|].
    rewrite Htrace, Hrest, Hwarnings, Hrequests; [|reflexivity].
    split; [reflexivity | exact Htail].
Defined.

(** With Node's [path.relative] and a single file that is already in the
    chosen package: the warning is shown and no move request is sent. *)
Example moveFile_only_file_collides :
  trace (moveFile nodeHost [fileA] collidingScript)
  = [EvGetMoveDestinations (moveDestinationsRequest [fileA])
       (Ok (Some (mkMoveDestinationsResponse None (Some [packageB]))));
     EvShowQuickPickPackages [packageNodeItem nodeHost packageB]
       "Choose the target package for A.java." (Ok (Some 0));
     EvShowWarningMessage
       "The files 'A.java' already exist in the package 'b'. The move operation will ignore them."].
Proof. vm_compute. reflexivity. Qed.

(** * Further properties *)

(** ** getFileNameFromUri *)

Lemma isSeparator_not_terminator (c : ascii) :
  isSeparator c = true -> isLineTerminator c = false.
Proof.
  unfold isSeparator, isLineTerminator.
  destruct (Ascii.eqb_spec c "/") as [->|_]; [reflexivity|].
  destruct (Ascii.eqb_spec c "\") as [->|_]; [reflexivity|discriminate].
Qed.

Lemma isSeparator_cases (c : ascii) :
  isSeparator c = true -> c = "/"%char \/ c = "\"%char.
Proof.
  unfold isSeparator.
  destruct (Ascii.eqb_spec c "/") as [->|_]; [now left|].
  destruct (Ascii.eqb_spec c "\") as [->|_]; [now right|discriminate].
Qed.

Lemma append_cons (c : ascii) (s t : string) :
  String c s +:+ t = String c (s +:+ t).
Proof. reflexivity. Qed.

(** A separator is no byte of a line terminator, so whether a line
    terminator starts a string is settled before its first separator. *)
Lemma beginsLineTerminator_before_separator (s rest : string) (sep : ascii) :
  isSeparator sep = true ->
  beginsLineTerminator (s +:+ String sep rest) = beginsLineTerminator s.
Proof.
  intros Hsep.
  assert (H128 : Ascii.eqb sep "128" = false)
    by (destruct (isSeparator_cases sep Hsep) as [Heq|Heq]; now rewrite Heq).
  assert (H168 : Ascii.eqb sep "168" || Ascii.eqb sep "169" = false)
    by (destruct (isSeparator_cases sep Hsep) as [Heq|Heq]; now rewrite Heq).
  assert (H226 : Ascii.eqb sep "226" = false)
    by (destruct (isSeparator_cases sep Hsep) as [Heq|Heq]; now rewrite Heq).
  destruct s as [|c [|c2 [|c3 s]]]; rewrite ?append_cons.
  - change (EmptyString +:+ String sep rest) with (String sep rest).
    unfold beginsLineTerminator.
    rewrite (isSeparator_not_terminator sep Hsep), H226.
    destruct rest as [|c2 [|c3 rest]]; reflexivity.
  - change (EmptyString +:+ String sep rest) with (String sep rest).
    unfold beginsLineTerminator. rewrite H128, andb_false_r.
    destruct rest; reflexivity.
  - change (EmptyString +:+ String sep rest) with (String sep rest).
    unfold beginsLineTerminator. now rewrite H168, andb_false_r.
  - reflexivity.
Qed.

Lemma afterLastSeparator_separatorFree (s : string) :
  separatorFree s = true -> afterLastSeparator s = None.
Proof.
  induction s as [|c s IH]; [reflexivity|].
  intros Hfree. simpl in Hfree. apply andb_prop in Hfree as [Hc Hs].
  cbn [afterLastSeparator].
  destruct (beginsLineTerminator (String c s)); [reflexivity|].
  rewrite (IH Hs). apply negb_true_iff in Hc. now rewrite Hc.
Qed.

Lemma afterLastSeparator_joined (dir name : string) (sep : ascii) :
  singleLine dir = true ->
  isSeparator sep = true ->
  separatorFree name = true ->
  afterLastSeparator (dir +:+ String sep name) = Some name.
Proof.
  intros Hdir Hsep Hname.
  induction dir as [|c dir IH].
  - change (EmptyString +:+ String sep name) with (String sep name).
    cbn [afterLastSeparator].
    pose proof (beginsLineTerminator_before_separator EmptyString name sep Hsep)
      as Hbegin.
    change (EmptyString +:+ String sep name) with (String sep name) in Hbegin.
    rewrite Hbegin. cbn [beginsLineTerminator].
    now rewrite (afterLastSeparator_separatorFree name Hname), Hsep.
  - cbn [singleLine] in Hdir. apply andb_prop in Hdir as [Hc Hdir].
    apply negb_true_iff in Hc.
    rewrite append_cons. cbn [afterLastSeparator].
    rewrite <- append_cons.
    rewrite (beginsLineTerminator_before_separator (String c dir) name sep Hsep).
    now rewrite Hc, (IH Hdir).
Qed.

(** Without a match, a path without line terminator has no separator. *)
Lemma afterLastSeparator_None (s : string) :
  afterLastSeparator s = None ->
  singleLine s = true ->
  separatorFree s = true.
Proof.
  induction s as [|c s IH]; [reflexivity|].
  cbn [afterLastSeparator singleLine]. intros Hafter Hline.
  apply andb_prop in Hline as [Hc Hline]. apply negb_true_iff in Hc.
  rewrite Hc in Hafter.
  destruct (afterLastSeparator s); [discriminate|].
  destruct (isSeparator c) eqn:Hsep; [discriminate|].
  unfold separatorFree in *. simpl. rewrite Hsep. simpl. now apply IH.
Qed.

(** The match found by [afterLastSeparator]: a prefix without line
    terminator, a separator, and the rest. *)
Lemma afterLastSeparator_Some (s rest : string) :
  afterLastSeparator s = Some rest ->
  exists prefix sep,
    s = prefix +:+ String sep rest
    /\ isSeparator sep = true
    /\ singleLine prefix = true
    /\ (singleLine s = true -> separatorFree rest = true).
Proof.
  revert rest. induction s as [|c s IH]; intros rest; [discriminate|].
  cbn [afterLastSeparator].
  destruct (beginsLineTerminator (String c s)) eqn:Hterm; [discriminate|].
  destruct (afterLastSeparator s) as [r|] eqn:Hafter.
  - intros [= <-].
    destruct (IH r eq_refl) as (prefix & sep & Hs & Hsep & Hprefix & Hfree).
    exists (String c prefix), sep. rewrite append_cons, <- Hs.
    split; [reflexivity|]. split; [exact Hsep|]. split.
    + cbn [singleLine]. rewrite Hprefix, andb_true_r. apply negb_true_iff.
      rewrite <- Hterm, Hs, <- append_cons.
      symmetry. now apply beginsLineTerminator_before_separator.
    + cbn [singleLine]. intros Hline.
      apply andb_prop in Hline as [_ Hline]. now apply Hfree.
  - destruct (isSeparator c) eqn:Hsep; [|discriminate].
    intros [= <-]. exists EmptyString, c.
    split; [reflexivity|]. split; [exact Hsep|]. split; [reflexivity|].
    cbn [singleLine]. intros Hline.
    apply andb_prop in Hline as [_ Hline].
    now apply afterLastSeparator_None.
Qed.

(** X1: the file name of a path made of a directory without line
    terminator (line feed, carriage return, U+2028, U+2029), a separator
    ([/] or [\]) and a name without separator is that name. *)
Theorem getFileNameFromUri_of_joined :
  forall (external dir name : string) (sep : ascii),
    singleLine dir = true ->
    isSeparator sep = true ->
    separatorFree name = true ->
    getFileNameFromUri (mkUri external (dir +:+ String sep name)) = name.
Proof.
  intros external dir name sep Hdir Hsep Hname.
  unfold getFileNameFromUri. simpl.
  now rewrite (afterLastSeparator_joined dir name sep Hdir Hsep Hname).
Qed.

Lemma getFileNameFromUri_of_joined_witness :
  getFileNameFromUri (mkUri "file:///c%3A/work/A.java" ("c:\work" +:+ String "\" "A.java"))
  = "A.java".
Proof.
  apply (getFileNameFromUri_of_joined "file:///c%3A/work/A.java" "c:\work" "A.java" "\");
    reflexivity.
Defined.

(** X2: the file name is always a suffix of the path; it has no separator
    when the path has no line terminator (line feed, carriage return,
    U+2028, U+2029), and it is the whole path when the path has no
    separator. *)
Theorem getFileNameFromUri_is_suffix :
  forall uri : Uri,
    (exists prefix, fsPath uri = prefix +:+ getFileNameFromUri uri)
    /\ (singleLine (fsPath uri) = true ->
        separatorFree (getFileNameFromUri uri) = true)
    /\ (separatorFree (fsPath uri) = true ->
        getFileNameFromUri uri = fsPath uri).
Proof.
  intros uri. unfold getFileNameFromUri.
  destruct (afterLastSeparator (fsPath uri)) as [rest|] eqn:Hafter.
  - destruct (afterLastSeparator_Some _ _ Hafter)
      as (prefix & sep & Hpath & Hsep & Hprefix & Hfree).
    split; [|split].
    + exists (prefix +:+ String sep EmptyString). rewrite Hpath.
      clear. induction prefix as [|c prefix IH]; [reflexivity|].
      change (String c (prefix +:+ String sep rest)
              = String c ((prefix +:+ String sep EmptyString) +:+ rest)).
      now rewrite IH.
    + exact Hfree.
    + intros Hnone. apply afterLastSeparator_separatorFree in Hnone. congruence.
  - split; [exists EmptyString; reflexivity|]. split; [|reflexivity].
    now apply afterLastSeparator_None.
Qed.

Lemma getFileNameFromUri_is_suffix_witness :
  separatorFree (getFileNameFromUri fileA) = true
  /\ getFileNameFromUri (mkUri "untitled:Untitled-1" "Untitled-1") = "Untitled-1".
Proof.
  split.
  - apply (getFileNameFromUri_is_suffix fileA). reflexivity.
  - apply (getFileNameFromUri_is_suffix (mkUri "untitled:Untitled-1" "Untitled-1")).
    reflexivity.
Defined.



(** U+2028 (bytes E2 80 A8) is a line terminator too: in the path
    [/work/a<U+2028>b/C.java] the match ends at the last separator before
    it. *)
Example getFileNameFromUri_line_separator :
  singleLine ("/work/a" +:+ String "226" (String "128" (String "168" "b"))) = false
  /\ getFileNameFromUri
       (mkUri "x" ("/work/a" +:+ String "226" (String "128" (String "168" "b/C.java"))))
     = "a" +:+ String "226" (String "128" (String "168" "b/C.java")).
Proof. vm_compute. split; reflexivity. Qed.

(** ** hasCommonParent *)

(** X4: on a host whose [path.relative] never answers ["."] (Node's answers
    the empty string for equal paths), every list of two or more files fails
    the common-parent check, files of one directory included, and [moveFile]
    only shows the different-directories message. *)
Theorem hasCommonParent_needs_dot :
  forall (World : Type) (host : Host World),
    (forall a b, path_relative host a b <> ".") ->
    forall (first second : Uri) (rest : list Uri) (w : World),
      hasCommonParent host (Some (first :: second :: rest)) = false
      /\ moveFile host (first :: second :: rest) w
         = (Ok tt, w, [EvShowErrorMessage differentDirectoriesMessage]).
Proof.
  intros World host Hnever first second rest w.
  assert (Hcommon : hasCommonParent host (Some (first :: second :: rest)) = false).
  { simpl.
    destruct (String.eqb_spec
                (path_relative host (path_dirname host (fsPath first))
                   (path_dirname host (fsPath second))) ".") as [Heq|Hne];
      [now apply Hnever in Heq | reflexivity]. }
  split; [exact Hcommon|].
  unfold moveFile. now rewrite Hcommon.
Qed.

Lemma hasCommonParent_needs_dot_witness :
  hasCommonParent nodeHost (Some [fileA; fileA2]) = false
  /\ moveFile nodeHost [fileA; fileA2] idleScript
     = (Ok tt, idleScript, [EvShowErrorMessage differentDirectoriesMessage]).
Proof.
  apply (hasCommonParent_needs_dot Script nodeHost).
  intros a b. simpl. unfold scriptedRelative.
  destruct (String.eqb a b); discriminate.
Defined.

(** ** Failing calls *)

Section Failures.

Context {World : Type}.






End Failures.

Section HandlerFailures.

Context {World : Type} (host : Host World).









End HandlerFailures.



(** The second of two touched documents cannot be opened: the first is
    saved, the loop ends with the exception. *)
Example saveEdit_unreadable_document :
  saveEdit nodeHost
    (Some (mkWorkspaceEdit
             (Some [("file:///work/src/a/A.java", []);
                    ("file:///work/src/b/B.java", []);
                    ("file:///work/src/a/Other.java", [])]) None))
    (mkScript [] ["file:///work/src/b/B.java"] (Ok None) (Ok None) (Ok None) (Ok None))
  = (Throw (Error "cannot open"),
     mkScript [] ["file:///work/src/b/B.java"] (Ok None) (Ok None) (Ok None) (Ok None),
     [EvOpenTextDocument fileA (Ok (Some (mkTextDocument fileA "")));
      EvSave (mkTextDocument fileA "") (Ok true);
      EvOpenTextDocument fileB (Throw (Error "cannot open"))]).
Proof. vm_compute. reflexivity. Qed.

(** ** moveFile *)

(** X7: when the answer to the get-move-destinations request is null, has
    no destination list or an empty one, [moveFile] shows the no-packages
    message and returns: no picker, no move request. *)
Theorem moveFile_no_destinations :
  forall (World : Type) (host : Host World) (fileUris : list Uri) (w w1 : World)
         (moveDestinations : option MoveDestinationsResponse),
    hasCommonParent host (Some fileUris) = true ->
    sendGetMoveDestinations host (moveDestinationsRequest fileUris) w
    = (Ok moveDestinations, w1) ->
    (moveDestinations = None
     \/ exists response, moveDestinations = Some response
          /\ (md_destinations response = None \/ md_destinations response = Some [])) ->
    moveFile host fileUris w
    = (Ok tt, w1,
       [EvGetMoveDestinations (moveDestinationsRequest fileUris) (Ok moveDestinations);
        EvShowErrorMessage
          "Cannot find available Java packages to move the selected files to."]).
Proof.
  intros World host fileUris w w1 moveDestinations Hcommon Hanswer Hnone.
  assert (Havailable : availableDestinations moveDestinations = None).
  { destruct Hnone as [->|(response & -> & [Hd|Hd])]; simpl; try rewrite Hd; reflexivity. }
  unfold moveFile. rewrite Hcommon. cbn [negb].
  unfold bind. rewrite run_call, Hanswer. cbn [fst snd]. now rewrite Havailable.
Qed.

Lemma moveFile_no_destinations_witness :
  moveFile nodeHost [fileA]
    (mkScript [] [] (Ok (Some (mkMoveDestinationsResponse None (Some []))))
       (Ok None) (Ok None) (Ok None))
  = (Ok tt,
     mkScript [] [] (Ok (Some (mkMoveDestinationsResponse None (Some []))))
       (Ok None) (Ok None) (Ok None),
     [EvGetMoveDestinations (moveDestinationsRequest [fileA])
        (Ok (Some (mkMoveDestinationsResponse None (Some []))));
      EvShowErrorMessage
        "Cannot find available Java packages to move the selected files to."]).
Proof.
  apply (moveFile_no_destinations Script nodeHost [fileA]); [reflexivity|reflexivity|].
  right. eexists. split; [reflexivity|]. right. reflexivity.
Defined.

(** X8: when the picker is dismissed, [moveFile] returns after it: the file
    system is not looked at, no warning is shown and no move request is
    sent. *)
Theorem moveFile_picker_dismissed :
  forall (World : Type) (host : Host World) (fileUris : list Uri) (w w1 w2 : World)
         (moveDestinations : option MoveDestinationsResponse)
         (destinations : list PackageNode),
    hasCommonParent host (Some fileUris) = true ->
    sendGetMoveDestinations host (moveDestinationsRequest fileUris) w
    = (Ok moveDestinations, w1) ->
    availableDestinations moveDestinations = Some destinations ->
    showQuickPick host (map shown (map (packageNodeItem host) destinations))
      (moveFilePlaceHolder fileUris) w1
    = (Ok None, w2) ->
    moveFile host fileUris w
    = (Ok tt, w2,
       [EvGetMoveDestinations (moveDestinationsRequest fileUris) (Ok moveDestinations);
        EvShowQuickPickPackages (map (packageNodeItem host) destinations)
          (moveFilePlaceHolder fileUris) (Ok None)]).
Proof.
  intros World host fileUris w w1 w2 moveDestinations destinations
         Hcommon Hanswer Havailable Hpick.
  unfold moveFile. rewrite Hcommon. cbn [negb].
  unfold bind. rewrite run_call, Hanswer. cbn [fst snd]. rewrite Havailable.
  rewrite run_call, Hpick. reflexivity.
Qed.

Lemma moveFile_picker_dismissed_witness :
  moveFile nodeHost [fileA] oneDestinationScript
  = (Ok tt, oneDestinationScript,
     [EvGetMoveDestinations (moveDestinationsRequest [fileA])
        (Ok (Some (mkMoveDestinationsResponse None (Some [packageB]))));
      EvShowQuickPickPackages (map (packageNodeItem nodeHost) [packageB])
        (moveFilePlaceHolder [fileA]) (Ok None)]).
Proof.
  apply (moveFile_picker_dismissed Script nodeHost [fileA] oneDestinationScript
           oneDestinationScript oneDestinationScript
           (Some (mkMoveDestinationsResponse None (Some [packageB]))) [packageB]);
    reflexivity.
Defined.

Section MoveRequests.

Context {World : Type} (host : Host World).

(** After the collision block has let [remaining] through, the move request
    for these files follows. *)
Lemma moveFile_requests fileUris w w2 item remaining warnings :
  picksPackage host fileUris w w2 item ->
  withoutDuplicates host fileUris (payload item) w2 = (Ok (Some remaining), w2, warnings) ->
  exists moveDestinations items picked tail,
    chosen items picked = Some item
    /\ trace (moveFile host fileUris w)
       = [EvGetMoveDestinations (moveDestinationsRequest fileUris) (Ok moveDestinations);
          EvShowQuickPickPackages items (moveFilePlaceHolder fileUris) (Ok picked)]
         ++ warnings
         ++ EvMoveRequest (moveResourceRequest remaining (payload item))
              (fst (sendMoveRequest host (moveResourceRequest remaining (payload item)) w2))
            :: tail
    /\ Forall (fun ev => isMoveRequest ev = false) tail.
Proof.
  intros Hpicks Hremaining.
  destruct (moveFile_after_pick host fileUris w w2 item Hpicks)
    as (md & items & picked & Hchosen & Htrace).
  exists md, items, picked. rewrite Htrace, trace_bind, Hremaining.
  cbn [fst snd outcome finalWorld trace]. rewrite trace_bind, run_call.
  cbn [fst snd outcome finalWorld trace app].
  eexists. split; [exact Hchosen|]. split; [reflexivity|].
  destruct (sendMoveRequest host _ w2) as [[refactorEdit|e] w3];
    cbn [fst snd]; [apply applyAndSave_events | constructor].
Qed.

End MoveRequests.

(** X9: when the chosen package has no URI (or its URI has no file-system
    path), [moveFile] does not look for existing files: the move request
    follows the picker directly and carries every selected file. *)
Theorem moveFile_without_package_directory :
  forall (World : Type) (host : Host World) (fileUris : list Uri) (w w2 : World)
         (item : QuickPickItem PackageNode),
    picksPackage host fileUris w w2 item ->
    destinationDirectory host (payload item) = None ->
    exists moveDestinations items picked answer tail,
      chosen items picked = Some item
      /\ trace (moveFile host fileUris w)
         = [EvGetMoveDestinations (moveDestinationsRequest fileUris)
              (Ok moveDestinations);
            EvShowQuickPickPackages items (moveFilePlaceHolder fileUris) (Ok picked);
            EvMoveRequest
              (mkMoveParams "moveResource" (map uri_toString fileUris) None
                 (DestPackage (payload item)) (Some true)) answer] ++ tail
      /\ Forall (fun ev => isMoveRequest ev = false) tail.
Proof.
  intros World host fileUris w w2 item Hpicks Hdir.
  destruct (moveFile_requests host fileUris w w2 item fileUris [] Hpicks
              (withoutDuplicates_run_none host fileUris (payload item) w2 Hdir))
    as (md & items & picked & tail & Hchosen & Htrace & Htail).
  exists md, items, picked. do 2 eexists. split; [exact Hchosen|].
  split; [exact Htrace | exact Htail].
Qed.

Lemma moveFile_without_package_directory_witness :
  exists moveDestinations items picked answer tail,
    chosen items picked = Some (packageNodeItem nodeHost packageWithoutUri)
    /\ trace (moveFile nodeHost [fileA] packageWithoutUriScript)
       = [EvGetMoveDestinations (moveDestinationsRequest [fileA])
            (Ok moveDestinations);
          EvShowQuickPickPackages items (moveFilePlaceHolder [fileA]) (Ok picked);
          EvMoveRequest
            (mkMoveParams "moveResource" ["file:///work/src/a/A.java"] None
               (DestPackage packageWithoutUri) (Some true)) answer] ++ tail
    /\ Forall (fun ev => isMoveRequest ev = false) tail.
Proof.
  apply (moveFile_without_package_directory Script nodeHost [fileA]
           packageWithoutUriScript packageWithoutUriScript
           (packageNodeItem nodeHost packageWithoutUri)).
  - split; [reflexivity|].
    exists (Some (mkMoveDestinationsResponse None (Some [packageWithoutUri]))),
      packageWithoutUriScript, [packageWithoutUri], (Some 0).
    repeat split.
  - reflexivity.
Defined.

(** X10: for a single selected file that the directory of the chosen
    package does not hold, no warning is shown and the move request, which
    follows the picker directly, carries that file. *)
Theorem moveFile_without_collisions :
  forall (World : Type) (host : Host World) (uri : Uri) (w w2 : World)
         (item : QuickPickItem PackageNode) (dir : string),
    picksPackage host [uri] w w2 item ->
    destinationDirectory host (payload item) = Some dir ->
    collides host w2 dir uri = false ->
    exists moveDestinations items picked answer tail,
      chosen items picked = Some item
      /\ trace (moveFile host [uri] w)
         = [EvGetMoveDestinations (moveDestinationsRequest [uri])
              (Ok moveDestinations);
            EvShowQuickPickPackages items (moveFilePlaceHolder [uri]) (Ok picked);
            EvMoveRequest
              (mkMoveParams "moveResource" [uri_toString uri] None
                 (DestPackage (payload item)) (Some true)) answer] ++ tail
      /\ Forall (fun ev => isMoveRequest ev = false) tail.
Proof.
  intros World host uri w w2 item dir Hpicks Hdir Hfree.
  pose proof (withoutDuplicates_run host [uri] (payload item) dir w2 Hdir) as Hrun.
  unfold movableIn, duplicatesIn in Hrun. simpl in Hrun.
  rewrite Hfree in Hrun. simpl in Hrun.
  destruct (moveFile_requests host [uri] w w2 item [uri] [] Hpicks Hrun)
    as (md & items & picked & tail & Hchosen & Htrace & Htail).
  exists md, items, picked. do 2 eexists. split; [exact Hchosen|].
  split; [exact Htrace | exact Htail].
Qed.

Lemma moveFile_without_collisions_witness :
  exists moveDestinations items picked answer tail,
    chosen items picked = Some (packageNodeItem nodeHost packageB)
    /\ trace (moveFile nodeHost [fileA] pickBScript)
       = [EvGetMoveDestinations (moveDestinationsRequest [fileA])
            (Ok moveDestinations);
          EvShowQuickPickPackages items (moveFilePlaceHolder [fileA]) (Ok picked);
          EvMoveRequest
            (mkMoveParams "moveResource" ["file:///work/src/a/A.java"] None
               (DestPackage packageB) (Some true)) answer] ++ tail
    /\ Forall (fun ev => isMoveRequest ev = false) tail.
Proof.
  apply (moveFile_without_collisions Script nodeHost fileA
           pickBScript pickBScript (packageNodeItem nodeHost packageB) "/work/src/b").
  - split; [reflexivity|].
    exists (Some (mkMoveDestinationsResponse None (Some [packageB]))),
      pickBScript, [packageB], (Some 0).
    repeat split.
  - reflexivity.
  - reflexivity.
Defined.

(** X11: [moveFile] opens or saves a document only in its final save step:
    a run whose trace has such a call sent a move request, got a result with
    an edit, and [applyRefactorEdit] on that result returned normally before
    the first document was opened. *)
Theorem moveFile_saves_only_after_apply :
  forall (World : Type) (host : Host World) (fileUris : list Uri) (w : World)
         (ev : Event),
    In ev (trace (moveFile host fileUris w)) ->
    isSaving ev = true ->
    exists pre p r e w3,
      edit r = Some e
      /\ outcome (applyRefactorEdit host (Some r) w3) = Ok tt
      /\ Forall (fun ev => isSelection ev = true) pre
      /\ trace (moveFile host fileUris w)
         = pre ++ EvMoveRequest p (Ok (Some r))
               :: trace (applyRefactorEdit host (Some r) w3)
               ++ trace (saveEdit host (Some e)
                           (finalWorld (applyRefactorEdit host (Some r) w3))).
Proof.
  intros World host fileUris w ev Hin Hsaving.
  destruct (moveFile_shape host fileUris w)
    as [Hselection | (pre & p & answer & w3 & Hpre & Htrace)].
  - rewrite List.Forall_forall in Hselection. apply Hselection in Hin.
    destruct ev; discriminate.
  - rewrite Htrace in Hin. apply in_app_or in Hin.
    destruct Hin as [Hin | [<- | Hin]]; [|discriminate|].
    { rewrite List.Forall_forall in Hpre. apply Hpre in Hin.
      destruct ev; discriminate. }
    destruct answer as [refactorEdit|x]; [|destruct Hin].
    unfold applyAndSave in Hin, Htrace. rewrite trace_bind in Hin, Htrace.
    apply in_app_or in Hin. destruct Hin as [Hin|Hin].
    { pose proof (applyRefactorEdit_events host refactorEdit w3) as Happlying.
      rewrite List.Forall_forall in Happlying. apply Happlying in Hin.
      destruct ev; discriminate. }
    destruct (outcome (applyRefactorEdit host refactorEdit w3)) as [[]|x] eqn:Hout;
      [|destruct Hin].
    destruct refactorEdit as [r|]; [|destruct Hin].
    destruct (edit r) as [e|] eqn:Hedit; [|destruct Hin].
    exists pre, p, r, e, w3. repeat split; auto.
Qed.

Lemma moveFile_saves_only_after_apply_witness :
  exists pre p r e w3,
    edit r = Some e
    /\ outcome (applyRefactorEdit nodeHost (Some r) w3) = Ok tt
    /\ Forall (fun ev => isSelection ev = true) pre
    /\ trace (moveFile nodeHost [fileA] movedAScript)
       = pre ++ EvMoveRequest p (Ok (Some r))
             :: trace (applyRefactorEdit nodeHost (Some r) w3)
             ++ trace (saveEdit nodeHost (Some e)
                         (finalWorld (applyRefactorEdit nodeHost (Some r) w3))).
Proof.
  apply (moveFile_saves_only_after_apply Script nodeHost [fileA] movedAScript
           (EvSave (mkTextDocument (scriptedParse "file:///work/src/b/A.java") "")
              (Ok true))).
  - vm_compute. auto 10.
  - reflexivity.
Defined.

(** A whole run of [moveFile]: the edit is applied, then the renamed file
    and the other edited file are saved under their final names. *)
Example moveFile_moves_and_saves :
  trace (moveFile nodeHost [fileA] movedAScript)
  = [EvGetMoveDestinations (moveDestinationsRequest [fileA])
       (Ok (Some (mkMoveDestinationsResponse None (Some [packageB]))));
     EvShowQuickPickPackages [packageNodeItem nodeHost packageB]
       "Choose the target package for A.java." (Ok (Some 0));
     EvMoveRequest (moveResourceRequest [fileA] packageB) (Ok (Some movedA));
     EvApplyEdit (mkCodeWorkspaceEdit moveAEdit) (Ok true);
     EvOpenTextDocument (scriptedParse "file:///work/src/b/A.java")
       (Ok (Some (mkTextDocument (scriptedParse "file:///work/src/b/A.java") "")));
     EvSave (mkTextDocument (scriptedParse "file:///work/src/b/A.java") "") (Ok true);
     EvOpenTextDocument (scriptedParse "file:///work/src/c/C.java")
       (Ok (Some (mkTextDocument (scriptedParse "file:///work/src/c/C.java") "")));
     EvSave (mkTextDocument (scriptedParse "file:///work/src/c/C.java") "") (Ok true)].
Proof. vm_compute. reflexivity. Qed.

(** ** applyRefactorEdit *)

(** X12: an empty error message is no error message: the result is handled
    as if it had none, so its edit is applied and its command executed. *)
Theorem applyRefactorEdit_empty_error_message :
  forall (World : Type) (host : Host World) (r : RefactorWorkspaceEdit) (w : World),
    errorMessage r = Some "" ->
    applyRefactorEdit host (Some r) w
    = applyRefactorEdit host
        (Some (mkRefactorWorkspaceEdit (edit r) (command r) None)) w
    /\ forall message,
         ~ In (EvShowErrorMessage message) (trace (applyRefactorEdit host (Some r) w)).
Proof.
  intros World host r w Hempty.
  assert (Hsame : applyRefactorEdit host (Some r) w
                  = applyRefactorEdit host
                      (Some (mkRefactorWorkspaceEdit (edit r) (command r) None)) w).
  { unfold applyRefactorEdit. rewrite Hempty. reflexivity. }
  split; [exact Hsame|].
  intros message Hin. unfold applyRefactorEdit in Hin. rewrite Hempty in Hin.
  cbn [nonEmpty String.eqb] in Hin. rewrite trace_bind in Hin.
  apply in_app_or in Hin. destruct Hin as [Hin|Hin].
  - destruct (edit r) as [e|]; [|destruct Hin].
    destruct (asWorkspaceEdit host e) as [e'|]; [|destruct Hin].
    rewrite trace_bind, run_call in Hin. cbn [fst snd outcome finalWorld trace] in Hin.
    destruct Hin as [Hin|Hin]; [discriminate|].
    destruct (fst (applyEdit host e' w)); destruct Hin.
  - match type of Hin with
    | context [outcome ?X] => destruct (outcome X)
    end; [|destruct Hin].
    destruct (command r) as [c|]; [|destruct Hin].
    destruct (cmd_arguments c); rewrite run_call in Hin;
      destruct Hin as [Hin|[]]; discriminate.
Qed.

Lemma applyRefactorEdit_empty_error_message_witness :
  trace (applyRefactorEdit nodeHost
           (Some (mkRefactorWorkspaceEdit (Some editOfA) None (Some ""))) idleScript)
  = [EvApplyEdit (mkCodeWorkspaceEdit editOfA) (Ok true)].
Proof.
  destruct (applyRefactorEdit_empty_error_message Script nodeHost
              (mkRefactorWorkspaceEdit (Some editOfA) None (Some "")) idleScript
              eq_refl) as [Hsame _].
  rewrite Hsame. reflexivity.
Defined.

(** ** saveEdit *)

Lemma Set_add_fresh (x : string) (s : list string) :
  ~ In x s -> Set_add x s = s ++ [x].
Proof.
  intros Hfresh. unfold Set_add. apply Set_has_false in Hfresh. now rewrite Hfresh.
Qed.

Lemma NoDup_app_fresh (x : string) (s l : list string) :
  List.NoDup (s ++ x :: l) -> ~ In x s /\ List.NoDup ((s ++ [x]) ++ l).
Proof.
  intros Hnodup. split.
  - apply List.NoDup_remove_2 in Hnodup. intros Hin. apply Hnodup.
    apply List.in_or_app. now left.
  - now rewrite <- app_assoc.
Qed.

Lemma changedFiles_NoDup_keys (e : WorkspaceEdit) (cs : list (string * list TextEdit)) :
  changes e = Some cs -> List.NoDup (map fst cs) -> changedFiles e = map fst cs.
Proof.
  intros Hchanges. unfold changedFiles. rewrite Hchanges. clear Hchanges.
  assert (Hfold : forall T, List.NoDup (T ++ map fst cs) ->
                    fold_left (fun s kv => Set_add (fst kv) s) cs T
                    = T ++ map fst cs).
  { induction cs as [|kv cs' IH]; simpl; intros T HT; [now rewrite app_nil_r|].
    apply NoDup_app_fresh in HT as [Hfresh HT].
    rewrite (Set_add_fresh _ _ Hfresh), (IH _ HT). now rewrite <- app_assoc. }
  intros Hnodup. now rewrite (Hfold [] Hnodup).
Qed.

Lemma fold_touchStep_text_edits (dcs : list DocumentChange) (T : list string) :
  Forall (fun change => movesOrDeletes change = false) dcs ->
  List.NoDup (T ++ textEditUris dcs) ->
  fold_left touchStep dcs T = T ++ textEditUris dcs.
Proof.
  intros Hall. revert T.
  induction Hall as [|change dcs Hchange Hall IH]; simpl; intros T HT;
    [now rewrite app_nil_r|].
  destruct change as [u v edits|u|oldUri newUri|u]; try discriminate; simpl in *.
  - apply NoDup_app_fresh in HT as [Hfresh HT].
    rewrite (Set_add_fresh _ _ Hfresh), (IH _ HT). now rewrite <- app_assoc.
  - now apply IH.
Qed.

(** X13: for an edit without rename or delete that names each document
    once, the save step opens (and saves) the documents in the order of the
    edit: first the keys of [changes], then the text document edits of
    [documentChanges]; created files are not among them. *)
Theorem saveEdit_order_without_file_moves :
  forall (World : Type) (host : Host World) (e : WorkspaceEdit) (w : World),
    Forall (fun change => movesOrDeletes change = false) (documentChangeList e) ->
    List.NoDup (changeKeys e ++ textEditUris (documentChangeList e)) ->
    touchedFiles e = changeKeys e ++ textEditUris (documentChangeList e)
    /\ (outcome (saveEdit host (Some e) w) = Ok tt ->
        openedUris (trace (saveEdit host (Some e) w))
        = map (Uri_parse host) (changeKeys e ++ textEditUris (documentChangeList e))).
Proof.
  intros World host e w Hall Hnodup.
  assert (Hchanged : changedFiles e = changeKeys e).
  { unfold changeKeys in *. destruct (changes e) as [cs|] eqn:Hcs.
    - apply (changedFiles_NoDup_keys e cs Hcs).
      now apply List.NoDup_app_remove_r in Hnodup.
    - unfold changedFiles. now rewrite Hcs. }
  assert (Htouched : touchedFiles e
                     = changeKeys e ++ textEditUris (documentChangeList e)).
  { unfold touchedFiles, documentChangeList in *. rewrite Hchanged.
    destruct (documentChanges e) as [dcs|].
    - now apply fold_touchStep_text_edits.
    - simpl. now rewrite app_nil_r. }
  split; [exact Htouched|].
  intros Hok.
  destruct (saveAll_opens_and_saves host (touchedFiles e) w)
    as [(rest & Hopened & Hrest) _].
  simpl in Hok. rewrite (Hrest Hok), app_nil_r in Hopened.
  simpl. now rewrite <- Hopened, Htouched.
Qed.

Lemma saveEdit_order_without_file_moves_witness :
  touchedFiles twoFilesEdit
  = ["file:///work/src/a/A.java"; "file:///work/src/b/B.java"]
  /\ (outcome (saveEdit nodeHost (Some twoFilesEdit) idleScript) = Ok tt ->
      openedUris (trace (saveEdit nodeHost (Some twoFilesEdit) idleScript))
      = map scriptedParse ["file:///work/src/a/A.java"; "file:///work/src/b/B.java"]).
Proof.
  apply (saveEdit_order_without_file_moves Script nodeHost twoFilesEdit idleScript).
  - repeat constructor.
  - repeat constructor; simpl; intuition discriminate.
Defined.

(** ** moveStaticMember *)

Section StaticMember.

Context {World : Type} (host : Host World).

(** The run up to the picker, once the search-symbols request has
    answered. *)
Lemma moveStaticMember_run params commandInfo w w1 types :
  sendSearchSymbols host (searchSymbolsRequest commandInfo) w = (Ok types, w1) ->
  moveStaticMember host params (Some commandInfo) w
  = let items := candidateItems (excludeOf commandInfo) types in
    let placeHolder := staticMemberPlaceHolder (Some commandInfo) in
    let picker := showQuickPick host (map shown items) placeHolder w1 in
    let before := [EvSearchSymbols (searchSymbolsRequest commandInfo) (Ok types);
                   EvShowQuickPickSymbols items placeHolder (fst picker)] in
    match fst picker with
    | Ok picked =>
        match chosen items picked with
        | Some (mkItem _ _ _ (Some symbolNode)) =>
            let move := moveStaticMemberRequest params symbolNode in
            let answer := sendMoveRequest host move (snd picker) in
            match fst answer with
            | Ok refactorEdit =>
                let applied := applyRefactorEdit host refactorEdit (snd answer) in
                (outcome applied, finalWorld applied,
                 before ++ EvMoveRequest move (fst answer) :: trace applied)
            | Throw e => (Throw e, snd answer, before ++ [EvMoveRequest move (Throw e)])
            end
        | _ => (Ok tt, snd picker, before)
        end
    | Throw e => (Throw e, snd picker, before)
    end.
Proof.
  intros Hanswer. cbv zeta. unfold moveStaticMember.
  unfold bind at 1. rewrite run_call, Hanswer. cbn [fst snd].
  unfold bind at 1. rewrite run_call. cbn [fst snd].
  destruct (showQuickPick host _ _ w1) as [[picked|e] w2]; cbn [fst snd];
    [|reflexivity].
  destruct (chosen _ picked) as [[l d a [symbolNode|]]|]; try reflexivity.
  unfold bind. rewrite run_call.
  destruct (sendMoveRequest host _ w2) as [[refactorEdit|e] w3]; cbn [fst snd];
    [|reflexivity].
  rewrite (surjective_pairing (applyRefactorEdit host refactorEdit w3)).
  rewrite (surjective_pairing (fst (applyRefactorEdit host refactorEdit w3))).
  reflexivity.
Qed.

(** The candidates are the symbols that a test [keep] lets through, when
    [exclude] holds the names that [keep] rejects. *)
Lemma candidateItems_keep exclude keep (t : SymbolInformation) ts :
  (forall s, excludeHas exclude (qualifiedName s) = negb (keep s)) ->
  Permutation (candidateItems exclude (Some (t :: ts)))
    (map symbolItem (List.filter keep (t :: ts))).
Proof.
  intros Hkeep. rewrite <- candidateItems_Permutation.
  apply Permutation_map. erewrite List.filter_ext; [reflexivity|].
  intros s. cbv beta. now rewrite Hkeep, negb_involutive.
Qed.

Lemma candidateItems_returned exclude types item (s : SymbolInformation) :
  In item (candidateItems exclude types) ->
  payload item = Some s ->
  exists t ts, types = Some (t :: ts) /\ In s (t :: ts) /\ item = symbolItem s.
Proof.
  destruct types as [[|t ts]|]; simpl.
  - intros [<-|[]]; discriminate.
  - intros Hin Hpayload. exists t, ts. split; [reflexivity|].
    apply (Permutation_in _ (Permutation_sym
             (candidateItems_Permutation exclude t ts))) in Hin.
    apply List.in_map_iff in Hin as (s' & <- & Hs').
    injection Hpayload as <-. apply List.filter_In in Hs' as [Hs' _]. auto.
  - intros [<-|[]]; discriminate.
Qed.

End StaticMember.

Section StaticMemberCandidates.

Context {World : Type} (host : Host World).

Lemma moveStaticMember_picker params commandInfo w w1 types :
  sendSearchSymbols host (searchSymbolsRequest commandInfo) w = (Ok types, w1) ->
  exists answer rest,
    trace (moveStaticMember host params (Some commandInfo) w)
    = [EvSearchSymbols (searchSymbolsRequest commandInfo) (Ok types);
       EvShowQuickPickSymbols (candidateItems (excludeOf commandInfo) types)
         (staticMemberPlaceHolder (Some commandInfo)) answer] ++ rest.
Proof.
  intros Hanswer. rewrite (moveStaticMember_run host params commandInfo w w1 types Hanswer).
  cbv zeta.
  destruct (fst (showQuickPick host _ _ w1)) as [picked|e];
    [|do 2 eexists; cbn [trace snd]; symmetry; apply app_nil_r].
  destruct (chosen _ picked) as [[l d a [symbolNode|]]|];
    try (do 2 eexists; cbn [trace snd]; symmetry; apply app_nil_r).
  destruct (fst (sendMoveRequest host _ _)); do 2 eexists; reflexivity.
Qed.

Lemma strictEqNum_false (v : JsVal) (n : Z) : v <> JNum n -> strictEqNum v n = false.
Proof.
  intros Hne. destruct v as [| |b|m|s|l|u|p]; try reflexivity.
  simpl. apply Z.eqb_neq. intros ->. now apply Hne.
Qed.

End StaticMemberCandidates.

(** X14: for a member of declaration kind 55 or 81 nested in the type [E],
    the picker offers, each once, exactly the returned symbols whose
    qualified name is neither [E] nor [E.displayName]. *)
Theorem moveStaticMember_type_member_candidates :
  forall (World : Type) (host : Host World) (params : CodeActionParams)
         (commandInfo : JsObject) (w w1 : World) (E : string)
         (t : SymbolInformation) (ts : list SymbolInformation),
    prop commandInfo "enclosingTypeName" = JStr E ->
    E <> "" ->
    prop commandInfo "memberType" = JNum 55
    \/ prop commandInfo "memberType" = JNum 81 ->
    sendSearchSymbols host (searchSymbolsRequest commandInfo) w
    = (Ok (Some (t :: ts)), w1) ->
    exists items answer rest,
      trace (moveStaticMember host params (Some commandInfo) w)
      = [EvSearchSymbols (searchSymbolsRequest commandInfo) (Ok (Some (t :: ts)));
         EvShowQuickPickSymbols items (staticMemberPlaceHolder (Some commandInfo))
           answer] ++ rest
      /\ Permutation items
           (map symbolItem
              (List.filter
                 (fun s => negb (qualifiedName s =? E)
                           && negb (qualifiedName s
                                    =? E +:+ "." +:+ toString (prop commandInfo "displayName")))
                 (t :: ts))).
Proof.
  intros World host params commandInfo w w1 E t ts Henclosing Hnonempty Hkind Hanswer.
  destruct (moveStaticMember_picker host params commandInfo w w1 _ Hanswer)
    as (answer & rest & Htrace).
  do 3 eexists. split; [exact Htrace|].
  apply candidateItems_keep. intros s.
  assert (Hexclude :
            excludeOf commandInfo
            = [JStr E; JStr (E +:+ "." +:+ toString (prop commandInfo "displayName"))]).
  { rewrite excludeOf_spec; rewrite Henclosing; simpl;
      [|now apply negb_true_iff, String.eqb_neq].
    destruct Hkind as [-> | ->]; simpl; rewrite ?orb_true_r; reflexivity. }
  rewrite Hexclude. simpl. rewrite orb_false_r, negb_andb, !negb_involutive.
  now rewrite (String.eqb_sym E), (String.eqb_sym (E +:+ _)).
Qed.

Lemma moveStaticMember_type_member_candidates_witness :
  exists items answer rest,
    trace (moveStaticMember nodeHost someParams (Some typeMemberInfo) threeSymbolsScript)
    = [EvSearchSymbols (searchSymbolsRequest typeMemberInfo)
         (Ok (Some [symbolPalette; symbolColor; symbolBrush]));
       EvShowQuickPickSymbols items (staticMemberPlaceHolder (Some typeMemberInfo))
         answer] ++ rest
    /\ Permutation items [symbolItem symbolBrush].
Proof.
  apply (moveStaticMember_type_member_candidates Script nodeHost someParams
           typeMemberInfo threeSymbolsScript threeSymbolsScript "app.Palette"
           symbolPalette [symbolColor; symbolBrush]).
  - reflexivity.
  - discriminate.
  - left. reflexivity.
  - reflexivity.
Defined.

(** X15: for a member nested in the type [E] whose [memberType] is neither
    55 nor 81 (and without a property [memeberType] equal to 71), the picker
    offers, each once, exactly the returned symbols whose qualified name is
    not [E]. *)
Theorem moveStaticMember_excludes_enclosing_type :
  forall (World : Type) (host : Host World) (params : CodeActionParams)
         (commandInfo : JsObject) (w w1 : World) (E : string)
         (t : SymbolInformation) (ts : list SymbolInformation),
    prop commandInfo "enclosingTypeName" = JStr E ->
    E <> "" ->
    prop commandInfo "memberType" <> JNum 55 ->
    prop commandInfo "memberType" <> JNum 81 ->
    prop commandInfo "memeberType" <> JNum 71 ->
    sendSearchSymbols host (searchSymbolsRequest commandInfo) w
    = (Ok (Some (t :: ts)), w1) ->
    exists items answer rest,
      trace (moveStaticMember host params (Some commandInfo) w)
      = [EvSearchSymbols (searchSymbolsRequest commandInfo) (Ok (Some (t :: ts)));
         EvShowQuickPickSymbols items (staticMemberPlaceHolder (Some commandInfo))
           answer] ++ rest
      /\ Permutation items
           (map symbolItem
              (List.filter (fun s => negb (qualifiedName s =? E)) (t :: ts))).
Proof.
  intros World host params commandInfo w w1 E t ts Henclosing Hnonempty
         H55 H81 H71 Hanswer.
  destruct (moveStaticMember_picker host params commandInfo w w1 _ Hanswer)
    as (answer & rest & Htrace).
  do 3 eexists. split; [exact Htrace|].
  apply candidateItems_keep. intros s.
  rewrite excludeOf_spec; rewrite Henclosing; simpl;
    [|now apply negb_true_iff, String.eqb_neq].
  rewrite (strictEqNum_false _ _ H55), (strictEqNum_false _ _ H81),
    (strictEqNum_false _ _ H71). simpl.
  now rewrite orb_false_r, negb_involutive, String.eqb_sym.
Qed.

Lemma moveStaticMember_excludes_enclosing_type_witness :
  exists items answer rest,
    trace (moveStaticMember nodeHost someParams (Some fieldMemberInfo)
             threeSymbolsScript)
    = [EvSearchSymbols (searchSymbolsRequest fieldMemberInfo)
         (Ok (Some [symbolPalette; symbolColor; symbolBrush]));
       EvShowQuickPickSymbols items (staticMemberPlaceHolder (Some fieldMemberInfo))
         answer] ++ rest
    /\ Permutation items [symbolItem symbolColor; symbolItem symbolBrush].
Proof.
  apply (moveStaticMember_excludes_enclosing_type Script nodeHost someParams
           fieldMemberInfo threeSymbolsScript threeSymbolsScript "app.Palette"
           symbolPalette [symbolColor; symbolBrush]);
    try reflexivity; vm_compute; discriminate.
Defined.

(** X16: without an enclosing type name (absent or empty) nothing is
    excluded: the picker offers every returned symbol once, whatever the
    member kind. *)
Theorem moveStaticMember_without_enclosing_type :
  forall (World : Type) (host : Host World) (params : CodeActionParams)
         (commandInfo : JsObject) (w w1 : World)
         (t : SymbolInformation) (ts : list SymbolInformation),
    truthy (prop commandInfo "enclosingTypeName") = false ->
    sendSearchSymbols host (searchSymbolsRequest commandInfo) w
    = (Ok (Some (t :: ts)), w1) ->
    exists items answer rest,
      trace (moveStaticMember host params (Some commandInfo) w)
      = [EvSearchSymbols (searchSymbolsRequest commandInfo) (Ok (Some (t :: ts)));
         EvShowQuickPickSymbols items (staticMemberPlaceHolder (Some commandInfo))
           answer] ++ rest
      /\ Permutation items (map symbolItem (t :: ts)).
Proof.
  intros World host params commandInfo w w1 t ts Hnone Hanswer.
  destruct (moveStaticMember_picker host params commandInfo w w1 _ Hanswer)
    as (answer & rest & Htrace).
  do 3 eexists. split; [exact Htrace|].
  rewrite (candidateItems_keep (excludeOf commandInfo) (fun _ => true) t ts).
  - apply Permutation_map. clear. induction (t :: ts) as [|s l IH]; simpl; auto.
  - intros s. unfold excludeOf. now rewrite Hnone.
Qed.

Lemma moveStaticMember_without_enclosing_type_witness :
  exists items answer rest,
    trace (moveStaticMember nodeHost someParams (Some methodInfo) threeSymbolsScript)
    = [EvSearchSymbols (searchSymbolsRequest methodInfo)
         (Ok (Some [symbolPalette; symbolColor; symbolBrush]));
       EvShowQuickPickSymbols items (staticMemberPlaceHolder (Some methodInfo))
         answer] ++ rest
    /\ Permutation items (map symbolItem [symbolPalette; symbolColor; symbolBrush]).
Proof.
  apply (moveStaticMember_without_enclosing_type Script nodeHost someParams
           methodInfo threeSymbolsScript threeSymbolsScript
           symbolPalette [symbolColor; symbolBrush]); reflexivity.
Defined.

(** X17: when an entry with a symbol is picked, [moveStaticMember] sends one
    move request, for the document of [params] and with the picked symbol as
    destination; the symbol is one the search returned; the result goes
    through [applyRefactorEdit], and no document is opened or saved. *)
Theorem moveStaticMember_moves_to_picked_symbol :
  forall (World : Type) (host : Host World) (params : CodeActionParams)
         (commandInfo : JsObject) (w w1 w2 : World)
         (types : option (list SymbolInformation)) (i : nat)
         (item : QuickPickItem (option SymbolInformation)) (s : SymbolInformation),
    sendSearchSymbols host (searchSymbolsRequest commandInfo) w = (Ok types, w1) ->
    showQuickPick host (map shown (candidateItems (excludeOf commandInfo) types))
      (staticMemberPlaceHolder (Some commandInfo)) w1
    = (Ok (Some i), w2) ->
    nth_error (candidateItems (excludeOf commandInfo) types) i = Some item ->
    payload item = Some s ->
    let move := mkMoveParams "moveStaticMember" [cap_textDocument_uri params]
                  (Some params) (DestSymbol s) None in
    let answer := sendMoveRequest host move w2 in
    (exists t ts, types = Some (t :: ts) /\ In s (t :: ts))
    /\ trace (moveStaticMember host params (Some commandInfo) w)
       = [EvSearchSymbols (searchSymbolsRequest commandInfo) (Ok types);
          EvShowQuickPickSymbols (candidateItems (excludeOf commandInfo) types)
            (staticMemberPlaceHolder (Some commandInfo)) (Ok (Some i));
          EvMoveRequest move (fst answer)]
         ++ match fst answer with
            | Ok refactorEdit => trace (applyRefactorEdit host refactorEdit (snd answer))
            | Throw _ => []
            end
    /\ Forall (fun ev => isSaving ev = false)
         (trace (moveStaticMember host params (Some commandInfo) w)).
Proof.
  intros World host params commandInfo w w1 w2 types i item s
         Hanswer Hpick Hitem Hpayload move answer.
  assert (Hreturned : exists t ts, types = Some (t :: ts) /\ In s (t :: ts)).
  { apply nth_error_In in Hitem.
    destruct (candidateItems_returned _ _ _ s Hitem Hpayload) as (t & ts & ? & ? & _).
    eauto. }
  assert (Htrace :
    trace (moveStaticMember host params (Some commandInfo) w)
    = [EvSearchSymbols (searchSymbolsRequest commandInfo) (Ok types);
       EvShowQuickPickSymbols (candidateItems (excludeOf commandInfo) types)
         (staticMemberPlaceHolder (Some commandInfo)) (Ok (Some i));
       EvMoveRequest move (fst answer)]
      ++ match fst answer with
         | Ok refactorEdit => trace (applyRefactorEdit host refactorEdit (snd answer))
         | Throw _ => []
         end).
  { rewrite (moveStaticMember_run host params commandInfo w w1 types Hanswer).
    cbv zeta. rewrite Hpick. cbn [fst snd chosen]. rewrite Hitem.
    destruct item as [l d a p]. simpl in Hpayload. subst p.
    unfold moveStaticMemberRequest. fold move. fold answer.
    destruct (fst answer); reflexivity. }
  split; [exact Hreturned|]. split; [exact Htrace|].
  rewrite Htrace. repeat (constructor; [reflexivity|]).
  destruct (fst answer) as [refactorEdit|e]; [|constructor].
  eapply List.Forall_impl; [|apply applyRefactorEdit_events].
  now intros [].
Qed.

Lemma moveStaticMember_moves_to_picked_symbol_witness :
  (exists t ts, Some [symbolPalette; symbolColor; symbolBrush] = Some (t :: ts)
                /\ In symbolColor (t :: ts))
  /\ trace (moveStaticMember nodeHost someParams (Some fieldMemberInfo) pickColorScript)
     = [EvSearchSymbols (searchSymbolsRequest fieldMemberInfo)
          (Ok (Some [symbolPalette; symbolColor; symbolBrush]));
        EvShowQuickPickSymbols [symbolItem symbolBrush; symbolItem symbolColor]
          (staticMemberPlaceHolder (Some fieldMemberInfo)) (Ok (Some 1));
        EvMoveRequest
          (mkMoveParams "moveStaticMember" ["file:///work/src/app/Palette.java"]
             (Some someParams) (DestSymbol symbolColor) None)
          (Ok (Some movedA))]
       ++ [EvApplyEdit (mkCodeWorkspaceEdit moveAEdit) (Ok true)]
  /\ Forall (fun ev => isSaving ev = false)
       (trace (moveStaticMember nodeHost someParams (Some fieldMemberInfo)
                 pickColorScript)).
Proof.
  apply (moveStaticMember_moves_to_picked_symbol Script nodeHost someParams
           fieldMemberInfo pickColorScript pickColorScript pickColorScript
           (Some [symbolPalette; symbolColor; symbolBrush]) 1
           (symbolItem symbolColor) symbolColor); reflexivity.
Defined.

(** X18: when the picker is dismissed, [moveStaticMember] returns after it,
    whatever the search returned: no move request is sent. *)
Theorem moveStaticMember_picker_dismissed :
  forall (World : Type) (host : Host World) (params : CodeActionParams)
         (commandInfo : JsObject) (w w1 w2 : World)
         (types : option (list SymbolInformation)),
    sendSearchSymbols host (searchSymbolsRequest commandInfo) w = (Ok types, w1) ->
    showQuickPick host (map shown (candidateItems (excludeOf commandInfo) types))
      (staticMemberPlaceHolder (Some commandInfo)) w1
    = (Ok None, w2) ->
    moveStaticMember host params (Some commandInfo) w
    = (Ok tt, w2,
       [EvSearchSymbols (searchSymbolsRequest commandInfo) (Ok types);
        EvShowQuickPickSymbols (candidateItems (excludeOf commandInfo) types)
          (staticMemberPlaceHolder (Some commandInfo)) (Ok None)]).
Proof.
  intros World host params commandInfo w w1 w2 types Hanswer Hpick.
  rewrite (moveStaticMember_run host params commandInfo w w1 types Hanswer).
  cbv zeta. rewrite Hpick. reflexivity.
Qed.

Lemma moveStaticMember_picker_dismissed_witness :
  moveStaticMember nodeHost someParams (Some methodInfo) threeSymbolsScript
  = (Ok tt, threeSymbolsScript,
     [EvSearchSymbols (searchSymbolsRequest methodInfo)
        (Ok (Some [symbolPalette; symbolColor; symbolBrush]));
      EvShowQuickPickSymbols
        (candidateItems (excludeOf methodInfo)
           (Some [symbolPalette; symbolColor; symbolBrush]))
        (staticMemberPlaceHolder (Some methodInfo)) (Ok None)]).
Proof.
  apply (moveStaticMember_picker_dismissed Script nodeHost someParams methodInfo
           threeSymbolsScript threeSymbolsScript threeSymbolsScript); reflexivity.
Defined.

(** X19: the placeholder entry stands for an empty answer of the server
    only: when the search returns symbols and all of them are the enclosing
    type, the picker is presented with no entry at all, and no move request
    can follow. *)
Theorem moveStaticMember_all_candidates_excluded :
  forall (World : Type) (host : Host World) (params : CodeActionParams)
         (commandInfo : JsObject) (w w1 : World) (E : string)
         (t : SymbolInformation) (ts : list SymbolInformation),
    prop commandInfo "enclosingTypeName" = JStr E ->
    E <> "" ->
    (forall s, In s (t :: ts) -> qualifiedName s = E) ->
    sendSearchSymbols host (searchSymbolsRequest commandInfo) w
    = (Ok (Some (t :: ts)), w1) ->
    exists answer,
      trace (moveStaticMember host params (Some commandInfo) w)
      = [EvSearchSymbols (searchSymbolsRequest commandInfo) (Ok (Some (t :: ts)));
         EvShowQuickPickSymbols [] (staticMemberPlaceHolder (Some commandInfo)) answer].
Proof.
  intros World host params commandInfo w w1 E t ts Henclosing Hnonempty Hall Hanswer.
  assert (Hitems : candidateItems (excludeOf commandInfo) (Some (t :: ts)) = []).
  { unfold candidateItems.
    assert (Hnone : List.filter
                      (fun type => negb (excludeHas (excludeOf commandInfo)
                                           (qualifiedName type))) (t :: ts) = []).
    { assert (Hexcluded : forall s, In s (t :: ts) ->
                negb (excludeHas (excludeOf commandInfo) (qualifiedName s)) = false).
      { intros s Hs. rewrite (Hall s Hs), excludeOf_spec; rewrite Henclosing; simpl;
          [now rewrite String.eqb_refl | now apply negb_true_iff, String.eqb_neq]. }
      clear -Hexcluded. induction (t :: ts) as [|s l IH]; [reflexivity|].
      simpl. rewrite (Hexcluded s (or_introl eq_refl)).
      apply IH. intros s' Hs'. apply Hexcluded. now right. }
    now rewrite Hnone. }
  rewrite (moveStaticMember_run host params commandInfo w w1 _ Hanswer).
  cbv zeta. rewrite Hitems.
  destruct (fst (showQuickPick host _ _ w1)) as [[[|i]|]|e]; eexists; reflexivity.
Qed.

Lemma moveStaticMember_all_candidates_excluded_witness :
  exists answer,
    trace (moveStaticMember nodeHost someParams (Some fieldMemberInfo)
             (mkScript [] [] (Ok None) (Ok (Some 0)) (Ok None) (Ok (Some [symbolPalette]))))
    = [EvSearchSymbols (searchSymbolsRequest fieldMemberInfo) (Ok (Some [symbolPalette]));
       EvShowQuickPickSymbols [] (staticMemberPlaceHolder (Some fieldMemberInfo)) answer].
Proof.
  apply (moveStaticMember_all_candidates_excluded Script nodeHost someParams
           fieldMemberInfo
           (mkScript [] [] (Ok None) (Ok (Some 0)) (Ok None) (Ok (Some [symbolPalette])))
           (mkScript [] [] (Ok None) (Ok (Some 0)) (Ok None) (Ok (Some [symbolPalette])))
           "app.Palette" symbolPalette []).
  - reflexivity.
  - discriminate.
  - intros s [<-|[]]. reflexivity.
  - reflexivity.
Defined.

(** ** The apply-refactoring command *)

Section CommandRuns.

Context {World : Type} (host : CommandHost World).

Lemma isFieldExtraction_isExtraction (command : string) :
  isFieldExtraction command = true -> isExtraction command = true.
Proof.
  unfold isFieldExtraction, isExtraction.
  intros Hfield. apply orb_prop in Hfield as [-> | ->];
    rewrite ?orb_true_r; reflexivity.
Qed.

Lemma cbind_ok {A B} (m : C World A) (f : A -> C World B) w a w1 t1 :
  m w = (Ok a, w1, t1) ->
  cbind m f w = (fst (fst (f a w1)), snd (fst (f a w1)), t1 ++ snd (f a w1)).
Proof.
  intros Hm. unfold cbind. rewrite Hm. now destruct (f a w1) as [[r w2] t2].
Qed.

Lemma cbind_throw {A B} (m : C World A) (f : A -> C World B) w e w1 t1 :
  m w = (Throw e, w1, t1) -> cbind m f w = (Throw e, w1, t1).
Proof. intros Hm. unfold cbind. now rewrite Hm. Qed.

Lemma ccall_run {A} (f : World -> Result A * World) (ev : Result A -> CommandEvent) w :
  ccall f ev w = (fst (f w), snd (f w), [ev (fst (f w))]).
Proof. unfold ccall. now destruct (f w). Qed.

Lemma lift_run {A} (m : M World A) w :
  lift m w = (outcome (m w), finalWorld (m w), map CmdBase (trace (m w))).
Proof. unfold lift. now destruct (m w) as [[r w1] t]. Qed.

(** A request followed by [applyRefactorEdit] on its answer. *)
Lemma request_then_apply {P} (send : P -> World -> Result (option RefactorWorkspaceEdit) * World)
    (ev : P -> Result (option RefactorWorkspaceEdit) -> CommandEvent) (p : P) w :
  snd (cbind (ccall (send p) (ev p))
         (fun result => lift (applyRefactorEdit (editorHost host) result)) w)
  = ev p (fst (send p w))
    :: match fst (send p w) with
       | Ok result =>
           map CmdBase
             (trace (applyRefactorEdit (editorHost host) result (snd (send p w))))
       | Throw _ => []
       end.
Proof.
  unfold cbind. rewrite ccall_run.
  destruct (send p w) as [[result|e] w2]; cbn [fst snd]; [|reflexivity].
  now rewrite lift_run.
Qed.

Lemma extraction_run command params commandInfo w editor options :
  isExtraction command = true ->
  activeTextEditor host w = Some editor ->
  editor_options editor = Some options ->
  forall arguments w1 before,
    initializeInArguments host command commandInfo w = (Ok arguments, w1, before) ->
    match arguments with
    | Some commandArguments =>
        snd (applyRefactoringCommand host command params commandInfo w)
        = before ++ requestEvents host command params options commandArguments w1
    | None => applyRefactoringCommand host command params commandInfo w
              = (Ok tt, w1, before)
    end.
Proof.
  intros Hextraction Heditor Hoptions arguments w1 before Harguments.
  unfold applyRefactoringCommand. rewrite Hextraction.
  rewrite (cbind_ok _ _ w w w [] eq_refl). rewrite Heditor, Hoptions.
  rewrite (cbind_ok _ _ w arguments w1 before Harguments).
  destruct arguments as [commandArguments|].
  - cbn [fst snd app]. f_equal.
    apply (request_then_apply (sendGetRefactorEdit host) EvGetRefactorEdit).
  - cbn [fst snd app cret]. now rewrite app_nil_r.
Qed.

End CommandRuns.

(** X20: without an active editor, or with an editor without options, an
    extract command returns at once: no picker, no request, for every
    command information, a missing one included. *)
Theorem extraction_without_editor :
  forall (World : Type) (host : CommandHost World) (command : string)
         (params : CodeActionParams) (commandInfo : option JsObject) (w : World),
    isExtraction command = true ->
    (activeTextEditor host w = None
     \/ exists editor, activeTextEditor host w = Some editor
                       /\ editor_options editor = None) ->
    applyRefactoringCommand host command params commandInfo w = (Ok tt, w, []).
Proof.
  intros World host command params commandInfo w Hextraction Heditor.
  unfold applyRefactoringCommand. rewrite Hextraction.
  rewrite (cbind_ok _ _ w w w [] eq_refl).
  destruct Heditor as [-> | (editor & -> & ->)]; reflexivity.
Qed.

Lemma extraction_without_editor_witness :
  applyRefactoringCommand scriptedCommandHost "extractField" someParams None
    noEditorScript
  = (Ok tt, noEditorScript, []).
Proof.
  apply (extraction_without_editor CommandScript scriptedCommandHost "extractField"
           someParams None noEditorScript); [reflexivity | left; reflexivity].
Defined.

(** X21: an extract command other than extractField and
    convertVariableToField sends one request, with the command name, the
    context, the tab size and the insert-spaces flag of the active editor
    and no extra argument, and hands the answer to [applyRefactorEdit]; the
    command information is not looked at. *)
Theorem extraction_request :
  forall (World : Type) (host : CommandHost World) (command : string)
         (params : CodeActionParams) (commandInfo : option JsObject) (w : World)
         (editor : TextEditor) (options : TextEditorOptions),
    isExtraction command = true ->
    isFieldExtraction command = false ->
    activeTextEditor host w = Some editor ->
    editor_options editor = Some options ->
    let request :=
      mkGetRefactorEditParams command params
        (mkFormattingOptions (opt_tabSize options) (opt_insertSpaces options)) [] in
    snd (applyRefactoringCommand host command params commandInfo w)
    = EvGetRefactorEdit request (fst (sendGetRefactorEdit host request w))
      :: match fst (sendGetRefactorEdit host request w) with
         | Ok result =>
             map CmdBase
               (trace (applyRefactorEdit (editorHost host) result
                         (snd (sendGetRefactorEdit host request w))))
         | Throw _ => []
         end.
Proof.
  intros World host command params commandInfo w editor options
         Hextraction Hfield Heditor Hoptions request.
  assert (Harguments : initializeInArguments host command commandInfo w
                       = (Ok (Some []), w, []))
    by (unfold initializeInArguments; now rewrite Hfield).
  exact (extraction_run host command params commandInfo w editor options
           Hextraction Heditor Hoptions _ _ _ Harguments).
Qed.

Lemma extraction_request_witness :
  snd (applyRefactoringCommand scriptedCommandHost "extractMethod" someParams None
         editorScript)
  = [EvGetRefactorEdit
       (mkGetRefactorEditParams "extractMethod" someParams
          (mkFormattingOptions (JNum 4) (JBool true)) [])
       (Ok (Some (mkRefactorWorkspaceEdit (Some editOfA) None None)));
     CmdBase (EvApplyEdit (mkCodeWorkspaceEdit editOfA) (Ok true))].
Proof.
  apply (extraction_request CommandScript scriptedCommandHost "extractMethod"
           someParams None editorScript
           (mkTextEditor (Some (mkTextEditorOptions (JNum 4) (JBool true))))
           (mkTextEditorOptions (JNum 4) (JBool true))); reflexivity.
Defined.

(** X22: extractField and convertVariableToField with exactly one
    initialization scope send the request with that scope as the only extra
    argument, without asking. *)
Theorem field_extraction_single_scope :
  forall (World : Type) (host : CommandHost World) (command : string)
         (params : CodeActionParams) (commandInfo : JsObject) (w : World)
         (editor : TextEditor) (options : TextEditorOptions) (scope : JsVal),
    isFieldExtraction command = true ->
    activeTextEditor host w = Some editor ->
    editor_options editor = Some options ->
    prop commandInfo "initializedScopes" = JArr [scope] ->
    let request :=
      mkGetRefactorEditParams command params
        (mkFormattingOptions (opt_tabSize options) (opt_insertSpaces options))
        [scope] in
    snd (applyRefactoringCommand host command params (Some commandInfo) w)
    = EvGetRefactorEdit request (fst (sendGetRefactorEdit host request w))
      :: match fst (sendGetRefactorEdit host request w) with
         | Ok result =>
             map CmdBase
               (trace (applyRefactorEdit (editorHost host) result
                         (snd (sendGetRefactorEdit host request w))))
         | Throw _ => []
         end.
Proof.
  intros World host command params commandInfo w editor options scope
         Hfield Heditor Hoptions Hscopes request.
  assert (Harguments : initializeInArguments host command (Some commandInfo) w
                       = (Ok (Some [scope]), w, []))
    by (unfold initializeInArguments; now rewrite Hfield, Hscopes).
  exact (extraction_run host command params (Some commandInfo) w editor options
           (isFieldExtraction_isExtraction command Hfield)
           Heditor Hoptions _ _ _ Harguments).
Qed.

Lemma field_extraction_single_scope_witness :
  snd (applyRefactoringCommand scriptedCommandHost "extractField" someParams
         (Some oneScopeInfo) editorScript)
  = [EvGetRefactorEdit
       (mkGetRefactorEditParams "extractField" someParams
          (mkFormattingOptions (JNum 4) (JBool true)) [JStr "Current method"])
       (Ok (Some (mkRefactorWorkspaceEdit (Some editOfA) None None)));
     CmdBase (EvApplyEdit (mkCodeWorkspaceEdit editOfA) (Ok true))].
Proof.
  apply (field_extraction_single_scope CommandScript scriptedCommandHost "extractField"
           someParams oneScopeInfo editorScript
           (mkTextEditor (Some (mkTextEditorOptions (JNum 4) (JBool true))))
           (mkTextEditorOptions (JNum 4) (JBool true)) (JStr "Current method"));
    reflexivity.
Defined.

(** X23: with two or more initialization scopes the scopes are offered in a
    picker.  When the picker is dismissed (or the picked scope is falsy) the
    handler returns without a request; otherwise the request carries the
    picked scope, one of the offered ones, as its only extra argument. *)
Theorem field_extraction_several_scopes :
  forall (World : Type) (host : CommandHost World) (command : string)
         (params : CodeActionParams) (commandInfo : JsObject) (w w1 : World)
         (editor : TextEditor) (options : TextEditorOptions)
         (first second : JsVal) (more : list JsVal) (picked : option nat),
    isFieldExtraction command = true ->
    activeTextEditor host w = Some editor ->
    editor_options editor = Some options ->
    prop commandInfo "initializedScopes" = JArr (first :: second :: more) ->
    let scopes := first :: second :: more in
    showQuickPick (editorHost host) (map scopeEntry scopes) "Initialize the field in" w
    = (Ok picked, w1) ->
    let initializeIn := match picked with
                        | Some i => nth i scopes JUndefined
                        | None => JUndefined
                        end in
    (truthy initializeIn = false ->
     applyRefactoringCommand host command params (Some commandInfo) w
     = (Ok tt, w1, [EvShowQuickPickScopes scopes "Initialize the field in" (Ok picked)]))
    /\ (truthy initializeIn = true ->
        In initializeIn scopes
        /\ snd (applyRefactoringCommand host command params (Some commandInfo) w)
           = EvShowQuickPickScopes scopes "Initialize the field in" (Ok picked)
             :: requestEvents host command params options [initializeIn] w1).
Proof.
  intros World host command params commandInfo w w1 editor options
         first second more picked Hfield Heditor Hoptions Hscopes scopes Hpick
         initializeIn.
  assert (Harguments :
            initializeInArguments host command (Some commandInfo) w
            = (Ok (if truthy initializeIn then Some [initializeIn] else None), w1,
               [EvShowQuickPickScopes scopes "Initialize the field in" (Ok picked)])).
  { unfold initializeInArguments. rewrite Hfield, Hscopes.
    erewrite cbind_ok; [|rewrite ccall_run; fold scopes;
                         unfold initializeInPlaceHolder; rewrite Hpick; reflexivity].
    subst initializeIn scopes. destruct (truthy _); reflexivity. }
  pose proof (extraction_run host command params (Some commandInfo) w editor options
                (isFieldExtraction_isExtraction command Hfield)
                Heditor Hoptions _ _ _ Harguments) as Hrun.
  split; intros Htruthy; rewrite Htruthy in Hrun; [exact Hrun|].
  split; [|exact Hrun].
  subst initializeIn. destruct picked as [i|]; [|discriminate].
  destruct (Nat.lt_ge_cases i (length scopes)) as [Hlt|Hge].
  - now apply nth_In.
  - rewrite nth_overflow in Htruthy by exact Hge. discriminate.
Qed.

Lemma field_extraction_several_scopes_witness :
  In (JStr "Field declaration") [JStr "Current method"; JStr "Field declaration"]
  /\ snd (applyRefactoringCommand scriptedCommandHost "convertVariableToField"
            someParams (Some twoScopesInfo) pickSecondScript)
     = EvShowQuickPickScopes [JStr "Current method"; JStr "Field declaration"]
         "Initialize the field in" (Ok (Some 1))
       :: requestEvents scriptedCommandHost "convertVariableToField" someParams
            (mkTextEditorOptions (JNum 4) (JBool true)) [JStr "Field declaration"]
            pickSecondScript.
Proof.
  apply (field_extraction_several_scopes CommandScript scriptedCommandHost
           "convertVariableToField" someParams twoScopesInfo pickSecondScript
           pickSecondScript
           (mkTextEditor (Some (mkTextEditorOptions (JNum 4) (JBool true))))
           (mkTextEditorOptions (JNum 4) (JBool true))
           (JStr "Current method") (JStr "Field declaration") [] (Some 1));
    reflexivity.
Defined.

(** X24: with an empty list of initialization scopes the request of
    extractField and convertVariableToField carries one extra argument,
    [undefined]; when [initializedScopes] is not an array (or is missing) it
    carries none.  No picker is shown in either case. *)
Theorem field_extraction_without_scopes :
  forall (World : Type) (host : CommandHost World) (command : string)
         (params : CodeActionParams) (commandInfo : JsObject) (w : World)
         (editor : TextEditor) (options : TextEditorOptions),
    isFieldExtraction command = true ->
    activeTextEditor host w = Some editor ->
    editor_options editor = Some options ->
    (prop commandInfo "initializedScopes" = JArr [] ->
     snd (applyRefactoringCommand host command params (Some commandInfo) w)
     = requestEvents host command params options [JUndefined] w)
    /\ ((forall scopes, prop commandInfo "initializedScopes" <> JArr scopes) ->
        snd (applyRefactoringCommand host command params (Some commandInfo) w)
        = requestEvents host command params options [] w).
Proof.
  intros World host command params commandInfo w editor options
         Hfield Heditor Hoptions.
  split; intros Hscopes.
  - assert (Harguments : initializeInArguments host command (Some commandInfo) w
                         = (Ok (Some [JUndefined]), w, []))
      by (unfold initializeInArguments; now rewrite Hfield, Hscopes).
    exact (extraction_run host command params (Some commandInfo) w editor options
             (isFieldExtraction_isExtraction command Hfield)
             Heditor Hoptions _ _ _ Harguments).
  - assert (Harguments : initializeInArguments host command (Some commandInfo) w
                         = (Ok (Some []), w, [])).
    { unfold initializeInArguments. rewrite Hfield.
      destruct (prop commandInfo "initializedScopes") eqn:Hprop; try reflexivity.
      now destruct (Hscopes elems). }
    exact (extraction_run host command params (Some commandInfo) w editor options
             (isFieldExtraction_isExtraction command Hfield)
             Heditor Hoptions _ _ _ Harguments).
Qed.

Lemma field_extraction_without_scopes_witness :
  snd (applyRefactoringCommand scriptedCommandHost "extractField" someParams
         (Some noScopesInfo) editorScript)
  = [EvGetRefactorEdit
       (mkGetRefactorEditParams "extractField" someParams
          (mkFormattingOptions (JNum 4) (JBool true)) [JUndefined])
       (Ok (Some (mkRefactorWorkspaceEdit (Some editOfA) None None)));
     CmdBase (EvApplyEdit (mkCodeWorkspaceEdit editOfA) (Ok true))]
  /\ snd (applyRefactoringCommand scriptedCommandHost "extractField" someParams
            (Some methodInfo) editorScript)
     = [EvGetRefactorEdit
          (mkGetRefactorEditParams "extractField" someParams
             (mkFormattingOptions (JNum 4) (JBool true)) [])
          (Ok (Some (mkRefactorWorkspaceEdit (Some editOfA) None None)));
        CmdBase (EvApplyEdit (mkCodeWorkspaceEdit editOfA) (Ok true))].
Proof.
  split.
  - apply (field_extraction_without_scopes CommandScript scriptedCommandHost
             "extractField" someParams noScopesInfo editorScript
             (mkTextEditor (Some (mkTextEditorOptions (JNum 4) (JBool true))))
             (mkTextEditorOptions (JNum 4) (JBool true))); reflexivity.
  - apply (field_extraction_without_scopes CommandScript scriptedCommandHost
             "extractField" someParams methodInfo editorScript
             (mkTextEditor (Some (mkTextEditorOptions (JNum 4) (JBool true))))
             (mkTextEditorOptions (JNum 4) (JBool true))); try reflexivity.
    intros scopes. vm_compute. discriminate.
Defined.

(** X25: the moveFile command does nothing without command information or
    without a [uri] in it; otherwise it runs [moveFile] on that one file,
    which always passes the common-parent check: the first call is the
    get-move-destinations request for the file, never the
    different-directories message. *)
Theorem moveFile_command :
  forall (World : Type) (host : CommandHost World) (params : CodeActionParams)
         (w : World),
    applyRefactoringCommand host "moveFile" params None w = (Ok tt, w, [])
    /\ (forall commandInfo,
          truthy (prop commandInfo "uri") = false ->
          applyRefactoringCommand host "moveFile" params (Some commandInfo) w
          = (Ok tt, w, []))
    /\ (forall commandInfo,
          truthy (prop commandInfo "uri") = true ->
          let uri := Uri_parse (editorHost host) (toString (prop commandInfo "uri")) in
          let request := mkGetMoveDestinationsParams "moveResource" [uri_toString uri] in
          snd (applyRefactoringCommand host "moveFile" params (Some commandInfo) w)
          = map CmdBase (trace (moveFile (editorHost host) [uri] w))
          /\ exists rest,
               trace (moveFile (editorHost host) [uri] w)
               = EvGetMoveDestinations request
                   (fst (sendGetMoveDestinations (editorHost host) request w))
                 :: rest).
Proof.
  intros World host params w. split; [reflexivity|]. split.
  - intros commandInfo Hfalsy. unfold applyRefactoringCommand. simpl.
    now rewrite Hfalsy.
  - intros commandInfo Htruthy uri request. split.
    + unfold applyRefactoringCommand. simpl. rewrite Htruthy. now rewrite lift_run.
    + unfold moveFile. cbn [hasCommonParent negb].
      rewrite trace_bind, run_call. cbn [fst snd outcome finalWorld trace app].
      eexists. reflexivity.
Qed.

Lemma moveFile_command_witness :
  applyRefactoringCommand scriptedCommandHost "moveFile" someParams (Some methodInfo)
    noEditorScript
  = (Ok tt, noEditorScript, [])
  /\ exists rest,
       trace (moveFile (editorHost scriptedCommandHost) [fileA] noEditorScript)
       = EvGetMoveDestinations
           (mkGetMoveDestinationsParams "moveResource" ["file:///work/src/a/A.java"])
           (Ok None)
         :: rest.
Proof.
  destruct (moveFile_command CommandScript scriptedCommandHost someParams
              noEditorScript) as (_ & Hwithout & Hwith).
  split.
  - apply Hwithout. reflexivity.
  - apply (Hwith moveFileInfo). reflexivity.
Defined.

(** ** moveInstanceMethod *)

(** X26: when the answer to the destinations request carries a non-empty
    error message, [moveInstanceMethod] shows it and returns, destinations or
    not: no picker, no move request. *)
Theorem moveInstanceMethod_error_message :
  forall (World : Type) (host : CommandHost World) (params : CodeActionParams)
         (commandInfo : option JsObject) (w w1 : World)
         (response : InstanceMethodDestinations) (message : string),
    sendGetInstanceMethodDestinations host (instanceMethodDestinationsRequest params) w
    = (Ok (Some response), w1) ->
    imr_errorMessage response = Some message ->
    message <> "" ->
    moveInstanceMethod host params commandInfo w
    = (Ok tt, w1,
       [EvGetInstanceMethodDestinations (instanceMethodDestinationsRequest params)
          (Ok (Some response));
        CmdBase (EvShowErrorMessage message)]).
Proof.
  intros World host params commandInfo w w1 response message Hanswer Hmessage Hne.
  unfold moveInstanceMethod.
  erewrite cbind_ok; [|rewrite ccall_run, Hanswer; reflexivity].
  assert (Herror : nonEmpty (imr_errorMessage response) = Some message)
    by now apply nonEmpty_Some.
  cbv beta iota. rewrite Herror. reflexivity.
Qed.

Lemma moveInstanceMethod_error_message_witness :
  moveInstanceMethod scriptedCommandHost someParams None instanceErrorScript
  = (Ok tt, instanceErrorScript,
     [EvGetInstanceMethodDestinations (instanceMethodDestinationsRequest someParams)
        (Ok (Some (mkInstanceMethodDestinations (Some "The method is abstract.")
                     (Some [stringDestination]))));
      CmdBase (EvShowErrorMessage "The method is abstract.")]).
Proof.
  apply (moveInstanceMethod_error_message CommandScript scriptedCommandHost someParams
           None instanceErrorScript instanceErrorScript
           (mkInstanceMethodDestinations (Some "The method is abstract.")
              (Some [stringDestination]))
           "The method is abstract."); [reflexivity | reflexivity | discriminate].
Defined.

(** X27: when the answer is null, or has no error message and no or an
    empty destination list, [moveInstanceMethod] shows the no-class-targets
    message and returns. *)
Theorem moveInstanceMethod_no_targets :
  forall (World : Type) (host : CommandHost World) (params : CodeActionParams)
         (commandInfo : option JsObject) (w w1 : World)
         (moveDestinations : option InstanceMethodDestinations),
    sendGetInstanceMethodDestinations host (instanceMethodDestinationsRequest params) w
    = (Ok moveDestinations, w1) ->
    (moveDestinations = None
     \/ exists response,
          moveDestinations = Some response
          /\ nonEmpty (imr_errorMessage response) = None
          /\ (imr_destinations response = None
              \/ imr_destinations response = Some [])) ->
    moveInstanceMethod host params commandInfo w
    = (Ok tt, w1,
       [EvGetInstanceMethodDestinations (instanceMethodDestinationsRequest params)
          (Ok moveDestinations);
        CmdBase (EvShowErrorMessage
                   "Cannot find possible class targets to move the selected method to.")]).
Proof.
  intros World host params commandInfo w w1 moveDestinations Hanswer Hnone.
  unfold moveInstanceMethod.
  erewrite cbind_ok; [|rewrite ccall_run, Hanswer; reflexivity].
  destruct Hnone as [-> | (response & -> & Herror & [Hd|Hd])];
    cbv beta iota; [reflexivity | |];
    rewrite Herror; unfold availableInstanceDestinations; rewrite Hd; reflexivity.
Qed.

Lemma moveInstanceMethod_no_targets_witness :
  moveInstanceMethod scriptedCommandHost someParams None noEditorScript
  = (Ok tt, noEditorScript,
     [EvGetInstanceMethodDestinations (instanceMethodDestinationsRequest someParams)
        (Ok None);
      CmdBase (EvShowErrorMessage
                 "Cannot find possible class targets to move the selected method to.")]).
Proof.
  apply (moveInstanceMethod_no_targets CommandScript scriptedCommandHost someParams
           None noEditorScript noEditorScript None); [reflexivity | left; reflexivity].
Defined.

(** X28: when a destination is picked, [moveInstanceMethod] sends one move
    request for the document of [params], with the picked destination, one
    of those the server listed; the result goes through
    [applyRefactorEdit], and no document is opened or saved. *)
Theorem moveInstanceMethod_moves_to_picked_destination :
  forall (World : Type) (host : CommandHost World) (params : CodeActionParams)
         (commandInfo : option JsObject) (w w1 w2 : World)
         (response : InstanceMethodDestinations)
         (d : JsObject) (ds : list JsObject) (i : nat) (target : JsObject),
    sendGetInstanceMethodDestinations host (instanceMethodDestinationsRequest params) w
    = (Ok (Some response), w1) ->
    nonEmpty (imr_errorMessage response) = None ->
    imr_destinations response = Some (d :: ds) ->
    showQuickPick (editorHost host) (map shown (map destinationItem (d :: ds)))
      (instanceMethodPlaceHolder commandInfo) w1
    = (Ok (Some i), w2) ->
    nth_error (d :: ds) i = Some target ->
    let move := mkMoveInstanceMethodParams "moveInstanceMethod"
                  [cap_textDocument_uri params] params target in
    let answer := sendMoveInstanceMethod host move w2 in
    snd (moveInstanceMethod host params commandInfo w)
    = [EvGetInstanceMethodDestinations (instanceMethodDestinationsRequest params)
         (Ok (Some response));
       EvShowQuickPickDestinations (map destinationItem (d :: ds))
         (instanceMethodPlaceHolder commandInfo) (Ok (Some i));
       EvMoveInstanceMethod move (fst answer)]
      ++ match fst answer with
         | Ok refactorEdit =>
             map CmdBase
               (trace (applyRefactorEdit (editorHost host) refactorEdit (snd answer)))
         | Throw _ => []
         end
    /\ Forall (fun ev => savesDocument ev = false)
         (snd (moveInstanceMethod host params commandInfo w)).
Proof.
  intros World host params commandInfo w w1 w2 response d ds i target
         Hanswer Herror Hdestinations Hpick Htarget move answer.
  assert (Htrace :
    snd (moveInstanceMethod host params commandInfo w)
    = [EvGetInstanceMethodDestinations (instanceMethodDestinationsRequest params)
         (Ok (Some response));
       EvShowQuickPickDestinations (map destinationItem (d :: ds))
         (instanceMethodPlaceHolder commandInfo) (Ok (Some i));
       EvMoveInstanceMethod move (fst answer)]
      ++ match fst answer with
         | Ok refactorEdit =>
             map CmdBase
               (trace (applyRefactorEdit (editorHost host) refactorEdit (snd answer)))
         | Throw _ => []
         end).
  { unfold moveInstanceMethod.
    erewrite cbind_ok; [|rewrite ccall_run, Hanswer; reflexivity].
    cbv beta iota. rewrite Herror. unfold availableInstanceDestinations.
    rewrite Hdestinations. cbv beta iota zeta. cbn [fst snd].
    erewrite cbind_ok; [|rewrite ccall_run, Hpick; reflexivity].
    cbv beta iota. unfold chosen.
    rewrite (map_nth_error destinationItem i (d :: ds) Htarget).
    cbn [fst snd app payload destinationItem]. do 2 f_equal.
    apply (request_then_apply host (sendMoveInstanceMethod host) EvMoveInstanceMethod). }
  split; [exact Htrace|].
  rewrite Htrace. repeat (constructor; [reflexivity|]).
  destruct (fst answer) as [refactorEdit|e]; [|constructor].
  apply Forall_map.
  eapply List.Forall_impl; [|apply applyRefactorEdit_events].
  now intros [].
Qed.

Lemma moveInstanceMethod_moves_to_picked_destination_witness :
  snd (moveInstanceMethod scriptedCommandHost someParams (Some methodInfo)
         instanceMoveScript)
  = [EvGetInstanceMethodDestinations (instanceMethodDestinationsRequest someParams)
       (Ok (Some (mkInstanceMethodDestinations None
                    (Some [stringDestination; listDestination]))));
     EvShowQuickPickDestinations
       [mkItem "String label" (Some "Field") false stringDestination;
        mkItem "List items" (Some "Method Parameter") false listDestination]
       "Select the new class for the instance method mix." (Ok (Some 1));
     EvMoveInstanceMethod
       (mkMoveInstanceMethodParams "moveInstanceMethod"
          ["file:///work/src/app/Palette.java"] someParams listDestination)
       (Ok (Some (mkRefactorWorkspaceEdit (Some editOfA) None None)))]
    ++ [CmdBase (EvApplyEdit (mkCodeWorkspaceEdit editOfA) (Ok true))]
  /\ Forall (fun ev => savesDocument ev = false)
       (snd (moveInstanceMethod scriptedCommandHost someParams (Some methodInfo)
               instanceMoveScript)).
Proof.
  apply (moveInstanceMethod_moves_to_picked_destination CommandScript
           scriptedCommandHost someParams (Some methodInfo)
           instanceMoveScript instanceMoveScript instanceMoveScript
           (mkInstanceMethodDestinations None
              (Some [stringDestination; listDestination]))
           stringDestination [listDestination] 1 listDestination); reflexivity.
Defined.

(** X29: when the picker is dismissed, [moveInstanceMethod] returns after
    it: no move request is sent. *)
Theorem moveInstanceMethod_picker_dismissed :
  forall (World : Type) (host : CommandHost World) (params : CodeActionParams)
         (commandInfo : option JsObject) (w w1 w2 : World)
         (response : InstanceMethodDestinations)
         (d : JsObject) (ds : list JsObject),
    sendGetInstanceMethodDestinations host (instanceMethodDestinationsRequest params) w
    = (Ok (Some response), w1) ->
    nonEmpty (imr_errorMessage response) = None ->
    imr_destinations response = Some (d :: ds) ->
    showQuickPick (editorHost host) (map shown (map destinationItem (d :: ds)))
      (instanceMethodPlaceHolder commandInfo) w1
    = (Ok None, w2) ->
    moveInstanceMethod host params commandInfo w
    = (Ok tt, w2,
       [EvGetInstanceMethodDestinations (instanceMethodDestinationsRequest params)
          (Ok (Some response));
        EvShowQuickPickDestinations (map destinationItem (d :: ds))
          (instanceMethodPlaceHolder commandInfo) (Ok None)]).
Proof.
  intros World host params commandInfo w w1 w2 response d ds
         Hanswer Herror Hdestinations Hpick.
  unfold moveInstanceMethod.
  erewrite cbind_ok; [|rewrite ccall_run, Hanswer; reflexivity].
  cbv beta iota. rewrite Herror. unfold availableInstanceDestinations.
  rewrite Hdestinations. cbv beta iota zeta. cbn [fst snd].
  erewrite cbind_ok; [|rewrite ccall_run, Hpick; reflexivity].
  reflexivity.
Qed.

Lemma moveInstanceMethod_picker_dismissed_witness :
  moveInstanceMethod scriptedCommandHost someParams None instanceDismissScript
  = (Ok tt, instanceDismissScript,
     [EvGetInstanceMethodDestinations (instanceMethodDestinationsRequest someParams)
        (Ok (Some (mkInstanceMethodDestinations None
                     (Some [stringDestination; listDestination]))));
      EvShowQuickPickDestinations
        (map destinationItem [stringDestination; listDestination])
        (instanceMethodPlaceHolder None) (Ok None)]).
Proof.
  apply (moveInstanceMethod_picker_dismissed CommandScript scriptedCommandHost
           someParams None instanceDismissScript instanceDismissScript
           instanceDismissScript
           (mkInstanceMethodDestinations None
              (Some [stringDestination; listDestination]))
           stringDestination [listDestination]); reflexivity.
Defined.
